(** * A shallow embedding of the MusicBrainz client (package [musicbrainz])

    The package is one Go file: twelve struct declarations that mirror the
    JSON schema of the web service, and nine exported operations, each of
    which builds a URL, issues one GET, reads the body and unmarshals it.

    The embedding keeps that shape.
    - Go strings are byte strings: [string].
    - Go [int] is taken to be 64 bits wide and is an integer of [Z].
    - A slice is [None] when it is nil and otherwise [Some] of its
      elements together with what its backing array holds behind them.
    - A pointer result ([*Artist] ...) is an [option].
    - The standard library calls of the package ([url.QueryEscape],
      [url.Values], [strconv.Itoa], [json.Unmarshal]) are modelled after
      their documentation; the network ([http.Get]) and the scanner of
      [encoding/json] are parameters of the development.
    - [defer response.Body.Close()] returns nothing the package looks at
      and is left out. *)

From Stdlib Require Import String Ascii List ZArith Bool Lia Arith.
From Stdlib Require Import DecimalString DecimalPos DecimalZ.
Import ListNotations.
Open Scope string_scope.
Open Scope Z_scope.

Set Implicit Arguments.
Set Warnings "-register-all".


(* ================================================================= *)
(** ** Strings and the URL helpers *)

(** [MusicBrainzAPIEndpoint], the base URL of the service. *)
Definition MusicBrainzAPIEndpoint : string := "https://musicbrainz.org/ws/2/".

(** [strconv.Itoa]: the decimal rendering of an [int]. *)
Definition strconv_Itoa (i : Z) : string :=
  NilZero.string_of_int (Z.to_int i).

Module url.

(** The byte classes of [shouldEscape] in mode [encodeQueryComponent]:
    letters, digits and [- _ . ~] are written as they are; every other
    byte is escaped (the reserved bytes [$ & + , / : ; = ? @] included). *)
Definition unreserved (c : ascii) : bool :=
  let n := nat_of_ascii c in
  ((97 <=? n) && (n <=? 122) || (65 <=? n) && (n <=? 90)
   || (48 <=? n) && (n <=? 57)
   || (n =? 45) || (n =? 95) || (n =? 46) || (n =? 126))%nat.

Definition shouldEscape (c : ascii) : bool := negb (unreserved c).

(** [upperhex], indexed by a nibble. *)
Definition upperhex (n : nat) : ascii :=
  match get n "0123456789ABCDEF" with
  | Some c => c
  | None => "0"%char
  end.

(** [url.QueryEscape]: a space becomes [+], an escaped byte [%XX]. *)
Fixpoint QueryEscape (s : string) : string :=
  match s with
  | EmptyString => EmptyString
  | String c rest =>
      if Ascii.eqb c " " then String "+" (QueryEscape rest)
      else if shouldEscape c then
        String "%" (String (upperhex (nat_of_ascii c / 16))
                   (String (upperhex (nat_of_ascii c mod 16))
                           (QueryEscape rest)))
      else String c (QueryEscape rest)
  end.

(** [url.Values] is [map[string][]string]; a map is kept as an
    association list with one entry per key. *)
Definition Values : Type := list (string * list string).

Definition empty : Values := [].

(** [Values.Set]: replaces whatever the key held by the single value. *)
Definition Set_ (key value : string) (v : Values) : Values :=
  (key, [value]) :: filter (fun kv => negb (String.eqb (fst kv) key)) v.

(** The keys of the map in increasing byte order ([sort.Strings]). *)
Fixpoint insert_sorted (k : string) (ks : list string) : list string :=
  match ks with
  | [] => [k]
  | k' :: ks' =>
      if String.leb k k' then k :: ks else k' :: insert_sorted k ks'
  end.

Definition sorted_keys (v : Values) : list string :=
  fold_right insert_sorted [] (map fst v).

Definition Get_all (v : Values) (key : string) : list string :=
  match find (fun kv => String.eqb (fst kv) key) v with
  | Some kv => snd kv
  | None => []
  end.

(** [Values.Encode]: [key=value] pairs, sorted by key, both sides
    escaped, joined by [&]. *)
Definition Encode (v : Values) : string :=
  fold_left
    (fun buf k =>
       fold_left
         (fun buf val =>
            (if String.eqb buf "" then buf else buf ++ "&")
              ++ QueryEscape k ++ "=" ++ QueryEscape val)
         (Get_all v k) buf)
    (sorted_keys v) "".

(** The bytes that may stand in a query component without ending it or
    changing its meaning: the unreserved bytes, [%] of an escape and [+]
    for a space. *)
Fixpoint safe_in_query (s : string) : bool :=
  match s with
  | EmptyString => true
  | String c rest =>
      (unreserved c || Ascii.eqb c "%" || Ascii.eqb c "+")
      && safe_in_query rest
  end.

(** [unhex]: the value of a hexadecimal digit. *)
Definition unhex (c : ascii) : option nat :=
  let n := nat_of_ascii c in
  if ((48 <=? n) && (n <=? 57))%nat then Some (n - 48)%nat
  else if ((97 <=? n) && (n <=? 102))%nat then Some (n - 97 + 10)%nat
  else if ((65 <=? n) && (n <=? 70))%nat then Some (n - 65 + 10)%nat
  else None.

(** [url.QueryUnescape], which the receiver of a query applies to a
    component: [%XX] stands for the byte [XX] and [+] for a space; [None]
    is the [EscapeError] of an escape that is not [%] and two hexadecimal
    digits.  The package does not call it; it says which text an escaped
    component stands for. *)
Fixpoint QueryUnescape (s : string) : option string :=
  match s with
  | EmptyString => Some EmptyString
  | String c rest =>
      if Ascii.eqb c "%" then
        match rest with
        | String h (String l rest') =>
            match unhex h, unhex l, QueryUnescape rest' with
            | Some a, Some b, Some t =>
                Some (String (ascii_of_nat (16 * a + b)) t)
            | _, _, _ => None
            end
        | _ => None
        end
      else if Ascii.eqb c "+" then
        option_map (String " ") (QueryUnescape rest)
      else option_map (String c) (QueryUnescape rest)
  end.

End url.

(* ================================================================= *)
(** ** Errors *)

(** The dynamic type of the target in a [json.UnmarshalTypeError]. *)
Inductive gotype : Type :=
| go_string
| go_int
| go_bool
| go_slice (elem : gotype)
| go_named (name : string)
| go_struct (fields : list (string * gotype)).

(** The values of the interface [error] that the package can return.
    Only [errorString] is made by the package itself ([errors.New]); the
    others come from [net/http], from reading the body and from
    [encoding/json].  Of [UnmarshalTypeError] the fields [Value] and [Type]
    are kept ([Offset], [Struct] and [Field] are not). *)
Inductive error : Type :=
| errorString (s : string)
| url_Error (Op URL Err : string)
| read_Error (msg : string)
| SyntaxError (msg : string) (Offset : Z)
| UnmarshalTypeError (Value : string) (Type_ : gotype).

(** [errors.New]. *)
Definition errors_New (text : string) : error := errorString text.

(** A Go call that returns [(value, error)] where the value is only looked
    at when the error is nil. *)
Inductive result (A : Type) : Type :=
| Ok (a : A)
| Err (e : error).
Arguments Ok {A} a.
Arguments Err {A} e.

(** The decoder of [encoding/json] records the earliest type error and
    goes on ([decodeState.saveError]). *)
Definition saveError (saved new : option error) : option error :=
  match saved with
  | Some _ => saved
  | None => new
  end.

(* ================================================================= *)
(** ** Slices *)

(** A slice that is not nil: its elements, [elems], and behind them the
    contents of its backing array between its length and its capacity,
    [spare], as far as they were ever written (what lies further behind is
    zero).  The package never looks at [spare]; [encoding/json] does when
    it decodes an array into a slice that was used before. *)
Record Slice (A : Type) : Type := mkSlice {
  elems : list A;
  spare : list A }.

Definition slice (A : Type) : Type := option (Slice A).

(** The elements of a slice; the nil slice has none. *)
Definition elements {A : Type} (s : slice A) : list A :=
  match s with
  | None => []
  | Some b => elems b
  end.

(** The backing array of a slice, as far as it was written. *)
Definition backing {A : Type} (s : slice A) : list A :=
  match s with
  | None => []
  | Some b => elems b ++ spare b
  end.

Definition len {A : Type} (s : slice A) : nat := length (elements s).

(* ================================================================= *)
(** ** JSON values *)

(** A JSON text after the scanner: numbers keep their literal, object
    members keep their order and their repetitions. *)
Inductive json : Type :=
| JNull
| JBool (b : bool)
| JNumber (lit : string)
| JString (s : string)
| JArray (elems : list json)
| JObject (members : list (string * json)).

(** The word [encoding/json] uses for a value in an [UnmarshalTypeError]. *)
Definition json_kind (j : json) : string :=
  match j with
  | JNull => "null"
  | JBool _ => "bool"
  | JNumber _ => "number"
  | JString _ => "string"
  | JArray _ => "array"
  | JObject _ => "object"
  end.

(** *** Matching an object key to a struct field

    [encoding/json] prefers the field whose name is the key and otherwise
    takes the first field whose name equals the key under Unicode simple
    case folding.  All field names of this package are ASCII; the only
    characters outside ASCII that fold to an ASCII letter are the Kelvin
    sign (U+212A, bytes E2 84 AA, folds with k) and the long s (U+017F,
    bytes C5 BF, folds with s).  [foldName] sends ASCII lower case to upper
    case and these two to [K] and [S]; other bytes are kept, which decides
    equality with an ASCII name exactly as the library does. *)
Definition upper (c : ascii) : ascii :=
  let n := nat_of_ascii c in
  if ((97 <=? n) && (n <=? 122))%nat then ascii_of_nat (n - 32) else c.

Fixpoint foldName (s : string) : string :=
  match s with
  | EmptyString => EmptyString
  | String c rest =>
      match nat_of_ascii c, rest with
      | 226%nat, String c1 (String c2 rest') =>
          if ((nat_of_ascii c1 =? 132) && (nat_of_ascii c2 =? 170))%nat
          then String "K" (foldName rest')
          else String c (foldName rest)
      | 197%nat, String c1 rest' =>
          if (nat_of_ascii c1 =? 191)%nat
          then String "S" (foldName rest')
          else String c (foldName rest)
      | _, _ => String (upper c) (foldName rest)
      end
  end.

Fixpoint index_where (p : string -> bool) (names : list string) : option nat :=
  match names with
  | [] => None
  | n :: names' =>
      if p n then Some O
      else match index_where p names' with
           | Some i => Some (S i)
           | None => None
           end
  end.

(** The index of the field an object key is decoded into, if any. *)
Definition find_field (names : list string) (key : string) : option nat :=
  match index_where (String.eqb key) names with
  | Some i => Some i
  | None => index_where (fun n => String.eqb (foldName n) (foldName key)) names
  end.

(** *** Scalars *)

(** [strconv.ParseInt(lit, 10, 64)] on the literal of a JSON number. *)
Fixpoint digits (s : string) (acc : Z) : option Z :=
  match s with
  | EmptyString => Some acc
  | String c rest =>
      let n := nat_of_ascii c in
      if ((48 <=? n) && (n <=? 57))%nat
      then digits rest (10 * acc + Z.of_nat (n - 48))
      else None
  end.

Definition strconv_ParseInt (lit : string) : option Z :=
  let signed :=
    match lit with
    | String "-" (String c rest) =>
        option_map Z.opp (digits (String c rest) 0)
    | String "+" (String c rest) => digits (String c rest) 0
    | String _ _ => digits lit 0
    | EmptyString => None
    end in
  match signed with
  | Some z =>
      if (- 2 ^ 63 <=? z) && (z <=? 2 ^ 63 - 1) then Some z else None
  | None => None
  end.

(** Decoding a JSON value into a Go variable that already holds [old]:
    the new contents of the variable and the type error, if any.  [null]
    leaves a string, a number, a boolean and a struct as they are and makes
    a slice nil; a value of the wrong kind leaves the variable as it is and
    is reported. *)
Definition decode_string (j : json) (old : string) : string * option error :=
  match j with
  | JNull => (old, None)
  | JString s => (s, None)
  | _ => (old, Some (UnmarshalTypeError (json_kind j) go_string))
  end.

Definition decode_int (j : json) (old : Z) : Z * option error :=
  match j with
  | JNull => (old, None)
  | JNumber lit =>
      match strconv_ParseInt lit with
      | Some z => (z, None)
      | None => (old, Some (UnmarshalTypeError ("number " ++ lit) go_int))
      end
  | _ => (old, Some (UnmarshalTypeError (json_kind j) go_int))
  end.

Definition decode_bool (j : json) (old : bool) : bool * option error :=
  match j with
  | JNull => (old, None)
  | JBool b => (b, None)
  | _ => (old, Some (UnmarshalTypeError (json_kind j) go_bool))
  end.

(** *** Arrays into slices

    What [decodeState.array] does with a slice.  The element of index [i]
    of the array is decoded into the slot of index [i] of the slice as the
    slot is, without zeroing it first: below the length of the slice the
    slot is the element that is there; between the length and the capacity
    ([v.SetLen(i + 1)]) it is what the backing array holds; beyond the
    capacity ([v.Grow(1)]) it is fresh and zero.  A shorter array
    truncates the slice ([v.SetLen(i)]) and leaves the rest of the backing
    array as it is; an empty array gives a new empty slice that is not nil
    ([reflect.MakeSlice(v.Type(), 0, 0)]); [null] makes the slice nil.

    Every target of [json.Unmarshal] in this package is a fresh zero
    value, so a slice holds something before an array is decoded into it
    only when an object repeats a key. *)
Section Slices.
Variable T : Type.
Variable zero : T.
Variable elem : json -> T -> T * option error.
Variable ty : gotype.

(** [slots] is the backing array, as far as it was written. *)
Fixpoint decode_elems (l : list json) (slots : list T)
  : list T * option error :=
  match l with
  | [] => ([], None)
  | j :: l' =>
      let (x, e) := elem j (hd zero slots) in
      let (xs, e') := decode_elems l' (tl slots) in
      (x :: xs, saveError e e')
  end.

Definition decode_slice (j : json) (old : slice T) : slice T * option error :=
  match j with
  | JNull => (None, None)
  | JArray [] => (Some (mkSlice [] []), None)
  | JArray l =>
      let (xs, e) := decode_elems l (backing old) in
      (Some (mkSlice xs (skipn (length l) (backing old))), e)
  | _ => (old, Some (UnmarshalTypeError (json_kind j) (go_slice ty)))
  end.
End Slices.

(** *** Objects into structs

    The members are taken in order; a member whose key matches no field is
    skipped, the others are decoded into their field by [set], which gets
    the index of the field. *)
Section Structs.
Variable T : Type.
Variable names : list string.
Variable set : nat -> json -> T -> T * option error.

Fixpoint decode_members (ms : list (string * json)) (st : T * option error)
  : T * option error :=
  match ms with
  | [] => st
  | (k, v) :: ms' =>
      match find_field names k with
      | Some i =>
          let (x, e) := set i v (fst st) in
          decode_members ms' (x, saveError (snd st) e)
      | None => decode_members ms' st
      end
  end.
End Structs.

(* ================================================================= *)
(** ** The data model

    One record per struct of the package, the fields in the order of the
    declaration.  [Artist] and [Relation] refer to each other. *)

(** [Alias]. *)
Record Alias : Type := mkAlias {
  Alias_Name : string;
  Alias_Type : string }.

(** [Tag]. *)
Record Tag : Type := mkTag {
  Tag_Name : string }.

(** [Artist] and [Relation]. *)
Inductive Artist : Type := mkArtist {
  Artist_ID : string;
  Artist_Name : string;
  Artist_SortName : string;
  Artist_Type : string;
  Artist_Country : string;
  Artist_Area : string;
  Artist_BeginDate : string;
  Artist_EndDate : string;
  Artist_Disambig : string;
  Artist_Aliases : slice Alias;
  Artist_Relations : slice Relation;
  Artist_Tags : slice Tag }
with Relation : Type := mkRelation {
  Relation_Type : string;
  Relation_URL : string;
  Relation_Artist : Artist }.

(** [GBImage]. *)
Record GBImage : Type := mkGBImage {
  GBImage_ImageURL : string;
  GBImage_Types : slice string }.

(** [CoverArtURL]. *)
Record CoverArtURL : Type := mkCoverArtURL {
  CoverArtURL_Artwork : bool;
  CoverArtURL_Front : bool;
  CoverArtURL_Back : bool;
  CoverArtURL_Count : Z;
  CoverArtURL_Images : slice GBImage }.

(** [TextRepresentation]. *)
Record TextRepresentation : Type := mkTextRepresentation {
  TextRepresentation_Language : string;
  TextRepresentation_Script : string }.

(** [ArtistCredit]. *)
Record ArtistCredit : Type := mkArtistCredit {
  ArtistCredit_Name : string }.

(** [ArtistName]. *)
Record ArtistName : Type := mkArtistName {
  ArtistName_Name : string }.

(** [ReleaseGroup]. *)
Record ReleaseGroup : Type := mkReleaseGroup {
  ReleaseGroup_ID : string;
  ReleaseGroup_Type : string }.

(** [Release]. *)
Record Release : Type := mkRelease {
  Release_ID : string;
  Release_Title : string;
  Release_Status : string;
  Release_TextRepresetation : TextRepresentation;
  Release_ArtistCredit : slice ArtistCredit;
  Release_ReleaseGroup : ReleaseGroup;
  Release_Relations : slice Relation;
  Release_Tags : slice Tag;
  Release_CoverArtURL : slice CoverArtURL }.

(** [Recording]. *)
Record Recording : Type := mkRecording {
  Recording_ID : string;
  Recording_Title : string;
  Recording_Length : Z;
  Recording_ReleaseDate : string;
  Recording_Relations : slice Relation;
  Recording_Tags : slice Tag;
  Recording_ArtistCredit : slice ArtistName;
  Recording_Releases : slice Release }.

(** The anonymous structs the search operations unmarshal into. *)
Record ArtistsResult : Type := mkArtistsResult {
  Artists : slice Artist }.

Record ReleasesResult : Type := mkReleasesResult {
  Releases : slice Release }.

Record RecordingsResult : Type := mkRecordingsResult {
  Recordings : slice Recording }.

(* ================================================================= *)
(** ** The JSON keys of the structs

    A schema lists, in the order of the declaration, the JSON key of the
    struct tag of every field together with the field itself. *)
Definition schema (T : Type) : Type := list (string * {A : Type & T -> A}).

Definition field {T A : Type} (key : string) (acc : T -> A)
  : string * {A : Type & T -> A} :=
  (key, existT (fun A => T -> A) A acc).

Definition keys {T : Type} (s : schema T) : list string := map fst s.

Definition Alias_schema : schema Alias :=
  [ field "name" Alias_Name; field "type" Alias_Type ].

Definition Tag_schema : schema Tag :=
  [ field "name" Tag_Name ].

Definition Artist_schema : schema Artist :=
  [ field "id" Artist_ID; field "name" Artist_Name;
    field "sort-name" Artist_SortName; field "type" Artist_Type;
    field "country" Artist_Country; field "area" Artist_Area;
    field "begin_date" Artist_BeginDate; field "end_date" Artist_EndDate;
    field "disambiguation" Artist_Disambig; field "aliases" Artist_Aliases;
    field "relations" Artist_Relations; field "tags" Artist_Tags ].

Definition Relation_schema : schema Relation :=
  [ field "type" Relation_Type; field "url" Relation_URL;
    field "artist" Relation_Artist ].

Definition GBImage_schema : schema GBImage :=
  [ field "image" GBImage_ImageURL; field "types" GBImage_Types ].

Definition CoverArtURL_schema : schema CoverArtURL :=
  [ field "artwork" CoverArtURL_Artwork; field "front" CoverArtURL_Front;
    field "back" CoverArtURL_Back; field "count" CoverArtURL_Count;
    field "images" CoverArtURL_Images ].

Definition TextRepresentation_schema : schema TextRepresentation :=
  [ field "language" TextRepresentation_Language;
    field "script" TextRepresentation_Script ].

Definition ArtistCredit_schema : schema ArtistCredit :=
  [ field "name" ArtistCredit_Name ].

Definition ArtistName_schema : schema ArtistName :=
  [ field "name" ArtistName_Name ].

Definition ReleaseGroup_schema : schema ReleaseGroup :=
  [ field "id" ReleaseGroup_ID; field "type" ReleaseGroup_Type ].

Definition Release_schema : schema Release :=
  [ field "id" Release_ID; field "title" Release_Title;
    field "status" Release_Status;
    field "text-representation" Release_TextRepresetation;
    field "artist-credit" Release_ArtistCredit;
    field "release-group" Release_ReleaseGroup;
    field "relations" Release_Relations; field "tags" Release_Tags;
    field "cover-art-archive" Release_CoverArtURL ].

Definition Recording_schema : schema Recording :=
  [ field "id" Recording_ID; field "title" Recording_Title;
    field "length" Recording_Length;
    field "first-release-date" Recording_ReleaseDate;
    field "relations" Recording_Relations; field "tags" Recording_Tags;
    field "artist-credit" Recording_ArtistCredit;
    field "releases" Recording_Releases ].

Definition ArtistsResult_schema : schema ArtistsResult :=
  [ field "artists" Artists ].

Definition ReleasesResult_schema : schema ReleasesResult :=
  [ field "releases" Releases ].

Definition RecordingsResult_schema : schema RecordingsResult :=
  [ field "recordings" Recordings ].

(* ================================================================= *)
(** ** Zero values *)

Definition Alias_zero : Alias := mkAlias "" "".
Definition Tag_zero : Tag := mkTag "".
Definition Artist_zero : Artist :=
  mkArtist "" "" "" "" "" "" "" "" "" None None None.
Definition Relation_zero : Relation := mkRelation "" "" Artist_zero.
Definition GBImage_zero : GBImage := mkGBImage "" None.
Definition CoverArtURL_zero : CoverArtURL :=
  mkCoverArtURL false false false 0 None.
Definition TextRepresentation_zero : TextRepresentation :=
  mkTextRepresentation "" "".
Definition ArtistCredit_zero : ArtistCredit := mkArtistCredit "".
Definition ArtistName_zero : ArtistName := mkArtistName "".
Definition ReleaseGroup_zero : ReleaseGroup := mkReleaseGroup "" "".
Definition Release_zero : Release :=
  mkRelease "" "" "" TextRepresentation_zero None ReleaseGroup_zero
            None None None.
Definition Recording_zero : Recording :=
  mkRecording "" "" 0 "" None None None None.
Definition ArtistsResult_zero : ArtistsResult := mkArtistsResult None.
Definition ReleasesResult_zero : ReleasesResult := mkReleasesResult None.
Definition RecordingsResult_zero : RecordingsResult :=
  mkRecordingsResult None.

(* ================================================================= *)
(** ** Unmarshalling into the structs

    For every struct, [T_set i v x] decodes the value [v] of a member into
    the [i]-th field of [x], and [decode_T] decodes a JSON value into a
    variable of type [T]. *)

(** What [decode_T] does with a value that is not an object. *)
Definition decode_struct {T : Type} (names : list string)
    (set : nat -> json -> T -> T * option error) (ty : gotype)
    (j : json) (old : T) : T * option error :=
  match j with
  | JNull => (old, None)
  | JObject ms => decode_members names set ms (old, None)
  | _ => (old, Some (UnmarshalTypeError (json_kind j) ty))
  end.

Definition Alias_set (i : nat) (v : json) (x : Alias) : Alias * option error :=
  let 'mkAlias name type := x in
  match i with
  | 0%nat => let (y, e) := decode_string v name in (mkAlias y type, e)
  | 1%nat => let (y, e) := decode_string v type in (mkAlias name y, e)
  | _ => (x, None)
  end.

Definition decode_Alias : json -> Alias -> Alias * option error :=
  decode_struct (keys Alias_schema) Alias_set (go_named "musicbrainz.Alias").

Definition Tag_set (i : nat) (v : json) (x : Tag) : Tag * option error :=
  let 'mkTag name := x in
  match i with
  | 0%nat => let (y, e) := decode_string v name in (mkTag y, e)
  | _ => (x, None)
  end.

Definition decode_Tag : json -> Tag -> Tag * option error :=
  decode_struct (keys Tag_schema) Tag_set (go_named "musicbrainz.Tag").

(** [Artist] and [Relation] are decoded by two functions that call each
    other; [Artist_set] and [Relation_set] take the decoder of the other
    struct as an argument. *)
Definition Artist_set (decode_Relation : json -> Relation -> Relation * option error)
    (i : nat) (v : json) (x : Artist) : Artist * option error :=
  let 'mkArtist id name sort type country area begin_ end_ dis
                aliases relations tags := x in
  match i with
  | 0%nat => let (y, e) := decode_string v id in
      (mkArtist y name sort type country area begin_ end_ dis
                aliases relations tags, e)
  | 1%nat => let (y, e) := decode_string v name in
      (mkArtist id y sort type country area begin_ end_ dis
                aliases relations tags, e)
  | 2%nat => let (y, e) := decode_string v sort in
      (mkArtist id name y type country area begin_ end_ dis
                aliases relations tags, e)
  | 3%nat => let (y, e) := decode_string v type in
      (mkArtist id name sort y country area begin_ end_ dis
                aliases relations tags, e)
  | 4%nat => let (y, e) := decode_string v country in
      (mkArtist id name sort type y area begin_ end_ dis
                aliases relations tags, e)
  | 5%nat => let (y, e) := decode_string v area in
      (mkArtist id name sort type country y begin_ end_ dis
                aliases relations tags, e)
  | 6%nat => let (y, e) := decode_string v begin_ in
      (mkArtist id name sort type country area y end_ dis
                aliases relations tags, e)
  | 7%nat => let (y, e) := decode_string v end_ in
      (mkArtist id name sort type country area begin_ y dis
                aliases relations tags, e)
  | 8%nat => let (y, e) := decode_string v dis in
      (mkArtist id name sort type country area begin_ end_ y
                aliases relations tags, e)
  | 9%nat =>
      let (y, e) := decode_slice Alias_zero decode_Alias
                      (go_named "musicbrainz.Alias") v aliases in
      (mkArtist id name sort type country area begin_ end_ dis
                y relations tags, e)
  | 10%nat =>
      let (y, e) := decode_slice Relation_zero decode_Relation
                      (go_named "musicbrainz.Relation") v relations in
      (mkArtist id name sort type country area begin_ end_ dis
                aliases y tags, e)
  | 11%nat =>
      let (y, e) := decode_slice Tag_zero decode_Tag
                      (go_named "musicbrainz.Tag") v tags in
      (mkArtist id name sort type country area begin_ end_ dis
                aliases relations y, e)
  | _ => (x, None)
  end.

Definition Relation_set (decode_Artist : json -> Artist -> Artist * option error)
    (i : nat) (v : json) (x : Relation) : Relation * option error :=
  let 'mkRelation type url artist := x in
  match i with
  | 0%nat => let (y, e) := decode_string v type in (mkRelation y url artist, e)
  | 1%nat => let (y, e) := decode_string v url in (mkRelation type y artist, e)
  | 2%nat => let (y, e) := decode_Artist v artist in (mkRelation type url y, e)
  | _ => (x, None)
  end.

Fixpoint decode_Artist (j : json) (old : Artist) {struct j}
  : Artist * option error :=
  decode_struct (keys Artist_schema) (Artist_set decode_Relation)
                (go_named "musicbrainz.Artist") j old
with decode_Relation (j : json) (old : Relation) {struct j}
  : Relation * option error :=
  decode_struct (keys Relation_schema) (Relation_set decode_Artist)
                (go_named "musicbrainz.Relation") j old.

Definition GBImage_set (i : nat) (v : json) (x : GBImage)
  : GBImage * option error :=
  let 'mkGBImage image types := x in
  match i with
  | 0%nat => let (y, e) := decode_string v image in (mkGBImage y types, e)
  | 1%nat =>
      let (y, e) := decode_slice "" decode_string go_string v types in
      (mkGBImage image y, e)
  | _ => (x, None)
  end.

Definition decode_GBImage : json -> GBImage -> GBImage * option error :=
  decode_struct (keys GBImage_schema) GBImage_set
                (go_named "musicbrainz.GBImage").

Definition CoverArtURL_set (i : nat) (v : json) (x : CoverArtURL)
  : CoverArtURL * option error :=
  let 'mkCoverArtURL artwork front back count images := x in
  match i with
  | 0%nat => let (y, e) := decode_bool v artwork in
      (mkCoverArtURL y front back count images, e)
  | 1%nat => let (y, e) := decode_bool v front in
      (mkCoverArtURL artwork y back count images, e)
  | 2%nat => let (y, e) := decode_bool v back in
      (mkCoverArtURL artwork front y count images, e)
  | 3%nat => let (y, e) := decode_int v count in
      (mkCoverArtURL artwork front back y images, e)
  | 4%nat =>
      let (y, e) := decode_slice GBImage_zero decode_GBImage
                      (go_named "musicbrainz.GBImage") v images in
      (mkCoverArtURL artwork front back count y, e)
  | _ => (x, None)
  end.

Definition decode_CoverArtURL
  : json -> CoverArtURL -> CoverArtURL * option error :=
  decode_struct (keys CoverArtURL_schema) CoverArtURL_set
                (go_named "musicbrainz.CoverArtURL").

Definition TextRepresentation_set (i : nat) (v : json)
    (x : TextRepresentation) : TextRepresentation * option error :=
  let 'mkTextRepresentation language script := x in
  match i with
  | 0%nat => let (y, e) := decode_string v language in
      (mkTextRepresentation y script, e)
  | 1%nat => let (y, e) := decode_string v script in
      (mkTextRepresentation language y, e)
  | _ => (x, None)
  end.

Definition decode_TextRepresentation
  : json -> TextRepresentation -> TextRepresentation * option error :=
  decode_struct (keys TextRepresentation_schema) TextRepresentation_set
                (go_named "musicbrainz.TextRepresentation").

Definition ArtistCredit_set (i : nat) (v : json) (x : ArtistCredit)
  : ArtistCredit * option error :=
  let 'mkArtistCredit name := x in
  match i with
  | 0%nat => let (y, e) := decode_string v name in (mkArtistCredit y, e)
  | _ => (x, None)
  end.

Definition decode_ArtistCredit
  : json -> ArtistCredit -> ArtistCredit * option error :=
  decode_struct (keys ArtistCredit_schema) ArtistCredit_set
                (go_named "musicbrainz.ArtistCredit").

Definition ArtistName_set (i : nat) (v : json) (x : ArtistName)
  : ArtistName * option error :=
  let 'mkArtistName name := x in
  match i with
  | 0%nat => let (y, e) := decode_string v name in (mkArtistName y, e)
  | _ => (x, None)
  end.

Definition decode_ArtistName
  : json -> ArtistName -> ArtistName * option error :=
  decode_struct (keys ArtistName_schema) ArtistName_set
                (go_named "musicbrainz.ArtistName").

Definition ReleaseGroup_set (i : nat) (v : json) (x : ReleaseGroup)
  : ReleaseGroup * option error :=
  let 'mkReleaseGroup id type := x in
  match i with
  | 0%nat => let (y, e) := decode_string v id in (mkReleaseGroup y type, e)
  | 1%nat => let (y, e) := decode_string v type in (mkReleaseGroup id y, e)
  | _ => (x, None)
  end.

Definition decode_ReleaseGroup
  : json -> ReleaseGroup -> ReleaseGroup * option error :=
  decode_struct (keys ReleaseGroup_schema) ReleaseGroup_set
                (go_named "musicbrainz.ReleaseGroup").

Definition Release_set (i : nat) (v : json) (x : Release)
  : Release * option error :=
  let 'mkRelease id title status text credit group relations tags cover :=
    x in
  match i with
  | 0%nat => let (y, e) := decode_string v id in
      (mkRelease y title status text credit group relations tags cover, e)
  | 1%nat => let (y, e) := decode_string v title in
      (mkRelease id y status text credit group relations tags cover, e)
  | 2%nat => let (y, e) := decode_string v status in
      (mkRelease id title y text credit group relations tags cover, e)
  | 3%nat => let (y, e) := decode_TextRepresentation v text in
      (mkRelease id title status y credit group relations tags cover, e)
  | 4%nat =>
      let (y, e) := decode_slice ArtistCredit_zero decode_ArtistCredit
                      (go_named "musicbrainz.ArtistCredit") v credit in
      (mkRelease id title status text y group relations tags cover, e)
  | 5%nat => let (y, e) := decode_ReleaseGroup v group in
      (mkRelease id title status text credit y relations tags cover, e)
  | 6%nat =>
      let (y, e) := decode_slice Relation_zero decode_Relation
                      (go_named "musicbrainz.Relation") v relations in
      (mkRelease id title status text credit group y tags cover, e)
  | 7%nat =>
      let (y, e) := decode_slice Tag_zero decode_Tag
                      (go_named "musicbrainz.Tag") v tags in
      (mkRelease id title status text credit group relations y cover, e)
  | 8%nat =>
      let (y, e) := decode_slice CoverArtURL_zero decode_CoverArtURL
                      (go_named "musicbrainz.CoverArtURL") v cover in
      (mkRelease id title status text credit group relations tags y, e)
  | _ => (x, None)
  end.

Definition decode_Release : json -> Release -> Release * option error :=
  decode_struct (keys Release_schema) Release_set
                (go_named "musicbrainz.Release").

Definition Recording_set (i : nat) (v : json) (x : Recording)
  : Recording * option error :=
  let 'mkRecording id title length date relations tags credit releases :=
    x in
  match i with
  | 0%nat => let (y, e) := decode_string v id in
      (mkRecording y title length date relations tags credit releases, e)
  | 1%nat => let (y, e) := decode_string v title in
      (mkRecording id y length date relations tags credit releases, e)
  | 2%nat => let (y, e) := decode_int v length in
      (mkRecording id title y date relations tags credit releases, e)
  | 3%nat => let (y, e) := decode_string v date in
      (mkRecording id title length y relations tags credit releases, e)
  | 4%nat =>
      let (y, e) := decode_slice Relation_zero decode_Relation
                      (go_named "musicbrainz.Relation") v relations in
      (mkRecording id title length date y tags credit releases, e)
  | 5%nat =>
      let (y, e) := decode_slice Tag_zero decode_Tag
                      (go_named "musicbrainz.Tag") v tags in
      (mkRecording id title length date relations y credit releases, e)
  | 6%nat =>
      let (y, e) := decode_slice ArtistName_zero decode_ArtistName
                      (go_named "musicbrainz.ArtistName") v credit in
      (mkRecording id title length date relations tags y releases, e)
  | 7%nat =>
      let (y, e) := decode_slice Release_zero decode_Release
                      (go_named "musicbrainz.Release") v releases in
      (mkRecording id title length date relations tags credit y, e)
  | _ => (x, None)
  end.

Definition decode_Recording : json -> Recording -> Recording * option error :=
  decode_struct (keys Recording_schema) Recording_set
                (go_named "musicbrainz.Recording").

(** The three anonymous structs of the search operations. *)
Definition ArtistsResult_set (i : nat) (v : json) (x : ArtistsResult)
  : ArtistsResult * option error :=
  match i with
  | 0%nat =>
      let (y, e) := decode_slice Artist_zero decode_Artist
                      (go_named "musicbrainz.Artist") v (Artists x) in
      (mkArtistsResult y, e)
  | _ => (x, None)
  end.

Definition decode_ArtistsResult
  : json -> ArtistsResult -> ArtistsResult * option error :=
  decode_struct (keys ArtistsResult_schema) ArtistsResult_set
    (go_struct [("Artists", go_slice (go_named "musicbrainz.Artist"))]).

Definition ReleasesResult_set (i : nat) (v : json) (x : ReleasesResult)
  : ReleasesResult * option error :=
  match i with
  | 0%nat =>
      let (y, e) := decode_slice Release_zero decode_Release
                      (go_named "musicbrainz.Release") v (Releases x) in
      (mkReleasesResult y, e)
  | _ => (x, None)
  end.

Definition decode_ReleasesResult
  : json -> ReleasesResult -> ReleasesResult * option error :=
  decode_struct (keys ReleasesResult_schema) ReleasesResult_set
    (go_struct [("Releases", go_slice (go_named "musicbrainz.Release"))]).

Definition RecordingsResult_set (i : nat) (v : json) (x : RecordingsResult)
  : RecordingsResult * option error :=
  match i with
  | 0%nat =>
      let (y, e) := decode_slice Recording_zero decode_Recording
                      (go_named "musicbrainz.Recording") v (Recordings x) in
      (mkRecordingsResult y, e)
  | _ => (x, None)
  end.

Definition decode_RecordingsResult
  : json -> RecordingsResult -> RecordingsResult * option error :=
  decode_struct (keys RecordingsResult_schema) RecordingsResult_set
    (go_struct [("Recordings", go_slice (go_named "musicbrainz.Recording"))]).

(* ================================================================= *)
(** ** The network *)

(** What [io.ReadAll] finds when it reads a body to its end: the bytes
    read and the error that stopped the reading, if any. *)
Record ReadCloser : Type := mkReadCloser {
  read_data : string;
  read_err : option error }.

Definition io_ReadAll (r : ReadCloser) : string * option error :=
  (read_data r, read_err r).

(** [http.Response], of which the package could see the status and the
    body. *)
Record Response : Type := mkResponse {
  StatusCode : Z;
  Body : ReadCloser }.

(* ================================================================= *)
(** ** A test server

    The operations below are parameterised by the network and by the
    scanner of [encoding/json].  For closed examples they are run against
    a server that is a function from URLs to answers, in a world that is
    the list of the URLs requested so far (the latest first), and with a
    scanner for the JSON texts of the examples: objects, arrays, strings
    without escape sequences, integers, [true], [false] and [null]. *)
Module Mock.

Definition World : Type := list string.

Definition Get (server : string -> result Response) (u : string) (w : World)
  : result Response * World :=
  (server u, u :: w).

Definition dquote : ascii := ascii_of_nat 34.

(** JSON texts are written with [']  for the double quote. *)
Fixpoint text (s : string) : string :=
  match s with
  | EmptyString => EmptyString
  | String c rest =>
      String (if Ascii.eqb c "'" then dquote else c) (text rest)
  end.

Definition is_space (c : ascii) : bool :=
  let n := nat_of_ascii c in
  ((n =? 32) || (n =? 9) || (n =? 10) || (n =? 13))%nat.

Definition is_digit (c : ascii) : bool :=
  let n := nat_of_ascii c in ((48 <=? n) && (n <=? 57))%nat.

Fixpoint skip_space (s : string) : string :=
  match s with
  | String c rest => if is_space c then skip_space rest else s
  | EmptyString => s
  end.

(** The characters of a string up to the closing quote, and what follows
    it. *)
Fixpoint scan_string (s : string) : option (string * string) :=
  match s with
  | EmptyString => None
  | String c rest =>
      if Ascii.eqb c dquote then Some (EmptyString, rest)
      else if Ascii.eqb c "\" then None
      else match scan_string rest with
           | Some (x, r) => Some (String c x, r)
           | None => None
           end
  end.

Fixpoint scan_digits (s : string) : string * string :=
  match s with
  | String c rest =>
      if is_digit c
      then let (d, r) := scan_digits rest in (String c d, r)
      else (EmptyString, s)
  | EmptyString => (EmptyString, s)
  end.

Definition scan_literal (word : string) (j : json) (s : string)
  : option (json * string) :=
  if String.prefix word s
  then Some (j, substring (String.length word)
                          (String.length s - String.length word) s)
  else None.

Fixpoint scan_value (fuel : nat) (s : string) : option (json * string) :=
  match fuel with
  | O => None
  | S fuel =>
      match skip_space s with
      | EmptyString => None
      | String c rest =>
          if Ascii.eqb c "{" then
            match skip_space rest with
            | String "}" r => Some (JObject [], r)
            | _ => match scan_members fuel rest with
                   | Some (ms, r) => Some (JObject ms, r)
                   | None => None
                   end
            end
          else if Ascii.eqb c "[" then
            match skip_space rest with
            | String "]" r => Some (JArray [], r)
            | _ => match scan_elems fuel rest with
                   | Some (l, r) => Some (JArray l, r)
                   | None => None
                   end
            end
          else if Ascii.eqb c dquote then
            match scan_string rest with
            | Some (x, r) => Some (JString x, r)
            | None => None
            end
          else if Ascii.eqb c "-" then
            match scan_digits rest with
            | (EmptyString, _) => None
            | (d, r) => Some (JNumber (String c d), r)
            end
          else if is_digit c then
            let (d, r) := scan_digits rest in Some (JNumber (String c d), r)
          else if Ascii.eqb c "t" then scan_literal "rue" (JBool true) rest
          else if Ascii.eqb c "f" then scan_literal "alse" (JBool false) rest
          else if Ascii.eqb c "n" then scan_literal "ull" JNull rest
          else None
      end
  end
with scan_elems (fuel : nat) (s : string) : option (list json * string) :=
  match fuel with
  | O => None
  | S fuel =>
      match scan_value fuel s with
      | Some (j, r) =>
          match skip_space r with
          | String "]" r' => Some ([j], r')
          | String "," r' =>
              match scan_elems fuel r' with
              | Some (l, r'') => Some (j :: l, r'')
              | None => None
              end
          | _ => None
          end
      | None => None
      end
  end
with scan_members (fuel : nat) (s : string)
  : option (list (string * json) * string) :=
  match fuel with
  | O => None
  | S fuel =>
      match skip_space s with
      | String c rest =>
          if Ascii.eqb c dquote then
            match scan_string rest with
            | Some (k, r) =>
                match skip_space r with
                | String ":" r1 =>
                    match scan_value fuel r1 with
                    | Some (j, r2) =>
                        match skip_space r2 with
                        | String "}" r3 => Some ([(k, j)], r3)
                        | String "," r3 =>
                            match scan_members fuel r3 with
                            | Some (ms, r4) => Some ((k, j) :: ms, r4)
                            | None => None
                            end
                        | _ => None
                        end
                    | None => None
                    end
                | _ => None
                end
            | None => None
            end
          else None
      | EmptyString => None
      end
  end.

Definition scan (data : string) : result json :=
  match scan_value (S (String.length data)) data with
  | Some (j, rest) =>
      match skip_space rest with
      | EmptyString => Ok j
      | _ => Err (SyntaxError "invalid character after top-level value" 0)
      end
  | None => Err (SyntaxError "invalid JSON text" 0)
  end.

(** An answer with the given status whose body reads without error. *)
Definition answer (status : Z) (body : string) : result Response :=
  Ok (mkResponse status (mkReadCloser (text body) None)).

(** A server given by a table from URLs to answers; a URL that is not in
    the table cannot be reached. *)
Fixpoint serve (table : list (string * result Response)) (u : string)
  : result Response :=
  match table with
  | [] => Err (url_Error "Get" u "connection refused")
  | (u', r) :: table' => if String.eqb u u' then r else serve table' u
  end.

End Mock.

(* ================================================================= *)
(** ** The operations of the package *)

Section Client.

(** The state of everything outside the program, and [http.Get]: the
    answer of the network to a GET of a URL, and the world afterwards. *)
Variable World : Type.
Variable http_Get : string -> World -> result Response * World.

(** The scanner of [encoding/json]: the value a text stands for, or the
    [SyntaxError] of a text that is not JSON. *)
Variable json_scan : string -> result json.

(** [json.Unmarshal(data, &v)]: a text that is not JSON leaves [v] as it
    is; otherwise the value is decoded into [v]. *)
Definition json_Unmarshal {T : Type}
    (decode : json -> T -> T * option error) (data : string) (v : T)
  : T * option error :=
  match json_scan data with
  | Err e => (v, Some e)
  | Ok j => decode j v
  end.

(** Computations that talk to the network. *)
Definition M (A : Type) : Type := World -> A * World.

Definition ret {A : Type} (a : A) : M A := fun w => (a, w).

Definition bind {A B : Type} (m : M A) (k : A -> M B) : M B :=
  fun w => let (a, w') := m w in k a w'.

Notation "x <- m ;; k" := (bind m (fun x => k))
  (at level 61, m at next level, right associativity).

(** [SearchArtists] searches for artists by their name. *)
Definition SearchArtists (name : string) (limit : Z)
  : M (slice Artist * option error) :=
  let params := url.empty in
  let params := url.Set_ "query" name params in
  let params := url.Set_ "limit" (strconv_Itoa limit) params in
  let params := url.Set_ "fmt" "json" params in
  let url := MusicBrainzAPIEndpoint ++ "artist/?" ++ url.Encode params in
  response <- http_Get url ;;
  match response with
  | Err err => ret (None, Some err)
  | Ok response =>
      let (body, err) := io_ReadAll (Body response) in
      match err with
      | Some err => ret (None, Some err)
      | None =>
          let (result, err) :=
            json_Unmarshal decode_ArtistsResult body ArtistsResult_zero in
          match err with
          | Some err => ret (None, Some err)
          | None => ret (Artists result, None)
          end
      end
  end.

(** [GetArtistByID] retrieves an artist by their ID. *)
Definition GetArtistByID (id : string) : M (option Artist * option error) :=
  let url := MusicBrainzAPIEndpoint ++ "artist/" ++ id ++ "?fmt=json" in
  response <- http_Get url ;;
  match response with
  | Err err => ret (None, Some err)
  | Ok response =>
      let (body, err) := io_ReadAll (Body response) in
      match err with
      | Some err => ret (None, Some err)
      | None =>
          let (artist, err) :=
            json_Unmarshal decode_Artist body Artist_zero in
          match err with
          | Some err => ret (None, Some err)
          | None => ret (Some artist, None)
          end
      end
  end.

(** [SearchReleases] searches for releases by their title. *)
Definition SearchReleases (title : string) (limit : Z)
  : M (slice Release * option error) :=
  let params := url.empty in
  let params := url.Set_ "query" title params in
  let params := url.Set_ "limit" (strconv_Itoa limit) params in
  let params := url.Set_ "fmt" "json" params in
  let url := MusicBrainzAPIEndpoint ++ "release/?" ++ url.Encode params in
  response <- http_Get url ;;
  match response with
  | Err err => ret (None, Some err)
  | Ok response =>
      let (body, err) := io_ReadAll (Body response) in
      match err with
      | Some err => ret (None, Some err)
      | None =>
          let (result, err) :=
            json_Unmarshal decode_ReleasesResult body ReleasesResult_zero in
          match err with
          | Some err => ret (None, Some err)
          | None => ret (Releases result, None)
          end
      end
  end.

(** [GetReleaseByID] retrieves a release by its ID. *)
Definition GetReleaseByID (id : string) : M (option Release * option error) :=
  let url := MusicBrainzAPIEndpoint ++ "release/" ++ id ++ "?fmt=json" in
  response <- http_Get url ;;
  match response with
  | Err err => ret (None, Some err)
  | Ok response =>
      let (body, err) := io_ReadAll (Body response) in
      match err with
      | Some err => ret (None, Some err)
      | None =>
          let (release, err) :=
            json_Unmarshal decode_Release body Release_zero in
          match err with
          | Some err => ret (None, Some err)
          | None => ret (Some release, None)
          end
      end
  end.

(** [SearchRecordings] searches for recordings by their title. *)
Definition SearchRecordings (title : string) (limit : Z)
  : M (slice Recording * option error) :=
  let params := url.empty in
  let params := url.Set_ "query" title params in
  let params := url.Set_ "limit" (strconv_Itoa limit) params in
  let params := url.Set_ "fmt" "json" params in
  let url := MusicBrainzAPIEndpoint ++ "recording/?" ++ url.Encode params in
  response <- http_Get url ;;
  match response with
  | Err err => ret (None, Some err)
  | Ok response =>
      let (body, err) := io_ReadAll (Body response) in
      match err with
      | Some err => ret (None, Some err)
      | None =>
          let (result, err) :=
            json_Unmarshal decode_RecordingsResult body
                           RecordingsResult_zero in
          match err with
          | Some err => ret (None, Some err)
          | None => ret (Recordings result, None)
          end
      end
  end.

(** [GetRecordingByID] retrieves a recording by its ID. *)
Definition GetRecordingByID (id : string)
  : M (option Recording * option error) :=
  let url := MusicBrainzAPIEndpoint ++ "recording/" ++ id ++ "?fmt=json" in
  response <- http_Get url ;;
  match response with
  | Err err => ret (None, Some err)
  | Ok response =>
      let (body, err) := io_ReadAll (Body response) in
      match err with
      | Some err => ret (None, Some err)
      | None =>
          let (recording, err) :=
            json_Unmarshal decode_Recording body Recording_zero in
          match err with
          | Some err => ret (None, Some err)
          | None => ret (Some recording, None)
          end
      end
  end.

(** [SearchRecordingsByTitleAndArtist] searches for recordings by song
    title and artist name. *)
Definition SearchRecordingsByTitleAndArtist (title artist : string)
  : M (slice Recording * option error) :=
  let query :=
    url.QueryEscape ("recording:" ++ title ++ " artist:" ++ artist) in
  let url := MusicBrainzAPIEndpoint ++ "recording/?query=" ++ query
               ++ "&limit=20&fmt=json" in
  response <- http_Get url ;;
  match response with
  | Err err => ret (None, Some err)
  | Ok response =>
      let (body, err) := io_ReadAll (Body response) in
      match err with
      | Some err => ret (None, Some err)
      | None =>
          let (result, err) :=
            json_Unmarshal decode_RecordingsResult body
                           RecordingsResult_zero in
          match err with
          | Some err => ret (None, Some err)
          | None => ret (Recordings result, None)
          end
      end
  end.

(** [GetRecordingByIDWithTags]. *)
Definition GetRecordingByIDWithTags (id : string)
  : M (option Recording * option error) :=
  let url := MusicBrainzAPIEndpoint ++ "recording/" ++ id ++ "?fmt=json" in
  response <- http_Get url ;;
  match response with
  | Err err => ret (None, Some err)
  | Ok response =>
      let (body, err) := io_ReadAll (Body response) in
      match err with
      | Some err => ret (None, Some err)
      | None =>
          let (recording, err) :=
            json_Unmarshal decode_Recording body Recording_zero in
          match err with
          | Some err => ret (None, Some err)
          | None => ret (Some recording, None)
          end
      end
  end.

(** [GetTagsByTitleAndArtistAndAlbum].  The test
    [len(result.Recordings) == 1] and the index [result.Recordings[0]] are
    one pattern: the elements of the slice are exactly one, [first] (see
    [len_one]); every other slice, the nil one included, takes the [else]
    branch.
    [GetRecordingByIDWithTags] never returns a nil recording with a nil
    error (see [GetRecordingByIDWithTags_not_nil]), so the branch
    [(None, None)], where the Go code would dereference a nil pointer, is
    never taken. *)
Definition GetTagsByTitleAndArtistAndAlbum (title artist album : string)
  : M (slice Tag * string * option error) :=
  let query :=
    url.QueryEscape ("recording:" ++ title ++ " artist:" ++ artist
                       ++ " release:" ++ album) in
  let url := MusicBrainzAPIEndpoint ++ "recording/?query=" ++ query
               ++ "&limit=1&fmt=json" in
  response <- http_Get url ;;
  match response with
  | Err err => ret (None, "", Some err)
  | Ok response =>
      let (body, err) := io_ReadAll (Body response) in
      match err with
      | Some err => ret (None, "", Some err)
      | None =>
          let (result, err) :=
            json_Unmarshal decode_RecordingsResult body
                           RecordingsResult_zero in
          match err with
          | Some err => ret (None, "", Some err)
          | None =>
              match elements (Recordings result) with
              | [first] =>
                  r <- GetRecordingByIDWithTags (Recording_ID first) ;;
                  match r with
                  | (_, Some err) => ret (None, "", Some err)
                  | (Some recording, None) =>
                      ret (Recording_Tags recording,
                           Recording_ReleaseDate recording, None)
                  | (None, None) => ret (None, "", None)
                  end
              | _ =>
                  let err := errors_New "MusicBrainz didn't find the song" in
                  ret (None, "", Some err)
              end
          end
      end
  end.

(** *** The request cycle of the specification

    Section 2 of the specification gives one control flow for every
    operation: construct the URL, issue the GET, read the full body,
    unmarshal into the target, and return the value with a nil error, or
    the nil value with the error of the step that failed.  [round_trip] is
    that flow for the URL [u], the target [zero] decoded by [decode], and
    the part [project] of the target that is returned. *)
Definition round_trip {T R : Type} (decode : json -> T -> T * option error)
    (zero : T) (project : T -> R) (nil : R) (u : string)
  : M (R * option error) :=
  fun w =>
    match http_Get u w with
    | (Err e, w') => ((nil, Some e), w')
    | (Ok response, w') =>
        match read_err (Body response) with
        | Some e => ((nil, Some e), w')
        | None =>
            match json_scan (read_data (Body response)) with
            | Err e => ((nil, Some e), w')
            | Ok j =>
                match decode j zero with
                | (_, Some e) => ((nil, Some e), w')
                | (v, None) => ((project v, None), w')
                end
            end
        end
    end.

(** The four ways a request cycle can end, started in the world [w]: each
    names the step that failed, the error of that step, and the world
    after the one GET. *)
Inductive cycle_outcome {T R : Type} (decode : json -> T -> T * option error)
    (zero : T) (project : T -> R) (nil : R) (u : string) (w : World)
  : (R * option error) * World -> Prop :=
| transport_failed (e : error) (w' : World) :
    http_Get u w = (Err e, w') ->
    cycle_outcome decode zero project nil u w ((nil, Some e), w')
| read_failed (response : Response) (e : error) (w' : World) :
    http_Get u w = (Ok response, w') ->
    read_err (Body response) = Some e ->
    cycle_outcome decode zero project nil u w ((nil, Some e), w')
| decode_failed (response : Response) (v : T) (e : error) (w' : World) :
    http_Get u w = (Ok response, w') ->
    read_err (Body response) = None ->
    json_Unmarshal decode (read_data (Body response)) zero = (v, Some e) ->
    cycle_outcome decode zero project nil u w ((nil, Some e), w')
| cycle_succeeded (response : Response) (v : T) (w' : World) :
    http_Get u w = (Ok response, w') ->
    read_err (Body response) = None ->
    json_Unmarshal decode (read_data (Body response)) zero = (v, None) ->
    cycle_outcome decode zero project nil u w ((project v, None), w').

(** The URL of the search of [GetTagsByTitleAndArtistAndAlbum]. *)
Definition tags_query_url (title artist album : string) : string :=
  MusicBrainzAPIEndpoint ++ "recording/?query="
    ++ url.QueryEscape ("recording:" ++ title ++ " artist:" ++ artist
                          ++ " release:" ++ album)
    ++ "&limit=1&fmt=json".

(** The search of [GetTagsByTitleAndArtistAndAlbum] answered with a body
    that was read to its end and decoded, without error, into [result];
    [w1] is the world after the search. *)
Definition search_decoded (title artist album : string) (w : World)
    (result : RecordingsResult) (w1 : World) : Prop :=
  exists response,
    http_Get (tags_query_url title artist album) w = (Ok response, w1)
    /\ read_err (Body response) = None
    /\ json_Unmarshal decode_RecordingsResult (read_data (Body response))
                      RecordingsResult_zero = (result, None).

(** The ways [GetTagsByTitleAndArtistAndAlbum] can end. *)
Inductive tags_outcome (title artist album : string) (w : World)
  : (slice Tag * string * option error) * World -> Prop :=
| search_failed (x : slice Recording) (e : error) (w1 : World) :
    cycle_outcome decode_RecordingsResult RecordingsResult_zero Recordings
                  None (tags_query_url title artist album) w
                  ((x, Some e), w1) ->
    tags_outcome title artist album w ((None, "", Some e), w1)
| no_single_match (result : RecordingsResult) (w1 : World) :
    search_decoded title artist album w result w1 ->
    len (Recordings result) <> 1%nat ->
    tags_outcome title artist album w
      ((None, "", Some (errors_New "MusicBrainz didn't find the song")), w1)
| lookup_failed (result : RecordingsResult) (first : Recording)
    (x : option Recording) (e : error) (w1 w2 : World) :
    search_decoded title artist album w result w1 ->
    elements (Recordings result) = [first] ->
    GetRecordingByIDWithTags (Recording_ID first) w1 = ((x, Some e), w2) ->
    tags_outcome title artist album w ((None, "", Some e), w2)
| tags_found (result : RecordingsResult) (first recording : Recording)
    (w1 w2 : World) :
    search_decoded title artist album w result w1 ->
    elements (Recordings result) = [first] ->
    GetRecordingByIDWithTags (Recording_ID first) w1
      = ((Some recording, None), w2) ->
    tags_outcome title artist album w
      ((Recording_Tags recording, Recording_ReleaseDate recording, None), w2).

End Client.

(** The network [get] with every status code replaced by [f] of it. *)
Definition with_status {World : Type} (f : Z -> Z)
    (get : string -> World -> result Response * World)
  : string -> World -> result Response * World :=
  fun u w =>
    match get u w with
    | (Ok response, w') =>
        (Ok (mkResponse (f (StatusCode response)) (Body response)), w')
    | (Err e, w') => (Err e, w')
    end.

(** The body the service sends with an error status: an object with the
    members [error] and [help]. *)
Definition error_object (j : json) : Prop :=
  exists ms, j = JObject ms
             /\ Forall (fun kv => fst kv = "error" \/ fst kv = "help") ms.

(** The service answers the GET of [u] in the world [w] with an error
    object, under whatever status code. *)
Definition answers_error_object {World : Type}
    (http_Get : string -> World -> result Response * World)
    (json_scan : string -> result json) (u : string) (w : World) : Prop :=
  exists response w' j,
    http_Get u w = (Ok response, w')
    /\ read_err (Body response) = None
    /\ json_scan (read_data (Body response)) = Ok j
    /\ error_object j.

(** *** Tolerating absent fields *)

(** The [i]-th field of the schema has the same contents in [x] and [y]. *)
Definition same_field {T : Type} (s : schema T) (i : nat) (x y : T) : Prop :=
  match nth_error s i with
  | Some (_, existT _ _ acc) => acc x = acc y
  | None => True
  end.

(** No member of the object is decoded into the [i]-th field. *)
Definition absent {T : Type} (s : schema T) (i : nat)
    (ms : list (string * json)) : Prop :=
  forall k v, In (k, v) ms -> find_field (keys s) k <> Some i.

(** A decoder tolerates absence when the empty object gives the zero
    value, a field that no member is decoded into keeps its zero value,
    and taking members away from an object that decodes without error
    gives an object that decodes without error. *)
Definition tolerates_absence {T : Type} (s : schema T)
    (decode : json -> T -> T * option error) (zero : T) : Prop :=
  decode (JObject []) zero = (zero, None)
  /\ (forall ms i, absent s i ms ->
        same_field s i (fst (decode (JObject ms) zero)) zero)
  /\ (forall ms keep,
        snd (decode (JObject ms) zero) = None ->
        snd (decode (JObject (filter keep ms)) zero) = None).

(* ================================================================= *)
(** ** Answers of the test server *)
Module Examples.

(** The search for the recording Creep of Radiohead on Pablo Honey. *)
Definition creep_search : string :=
  "https://musicbrainz.org/ws/2/recording/?query=recording%3ACreep+artist%3ARadiohead+release%3APablo+Honey&limit=1&fmt=json".

Definition creep_lookup : string :=
  "https://musicbrainz.org/ws/2/recording/r1?fmt=json".

(** One match; the search answer carries other tags than the lookup. *)
Definition one_match : string -> result Response :=
  Mock.serve
    [ (creep_search,
       Mock.answer 200
         "{'recordings':[{'id':'r1','title':'Creep','tags':[{'name':'from-search'}]}]}");
      (creep_lookup,
       Mock.answer 200
         "{'id':'r1','title':'Creep','first-release-date':'1992-09-21','tags':[{'name':'rock'}]}") ].

(** One match, and a recording without tags and without a date. *)
Definition one_bare_match : string -> result Response :=
  Mock.serve
    [ (creep_search, Mock.answer 200 "{'recordings':[{'id':'r1'}]}");
      (creep_lookup, Mock.answer 200 "{'id':'r1','title':'Creep'}") ].

(** No match, and two matches. *)
Definition no_match : string -> result Response :=
  Mock.serve [ (creep_search, Mock.answer 200 "{'recordings':[]}") ].

Definition two_matches : string -> result Response :=
  Mock.serve
    [ (creep_search,
       Mock.answer 200 "{'recordings':[{'id':'r1'},{'id':'r2'}]}") ].

(** The service answers every URL with status 404 and its error body. *)
Definition not_found : string -> result Response :=
  fun _ =>
    Mock.answer 404
      "{'error':'Not Found','help':'For usage, please see: https://musicbrainz.org/development/mmd'}".

(** The envelope of the example of section 8 of the specification, at
    the URL that [SearchArtists "Radiohead" 5] requests. *)
Definition radiohead : string -> result Response :=
  Mock.serve
    [ ("https://musicbrainz.org/ws/2/artist/?fmt=json&limit=5&query=Radiohead",
       Mock.answer 200 "{'artists':[{'id':'a','name':'Radiohead'}]}") ].

(** An artist whose aliases come under a key in upper case. *)
Definition shouting_artist : list (string * json) :=
  [ ("id", JString "a");
    ("ALIASES", JArray [JObject [("name", JString "On a Friday")]]) ].

(** The network is down. *)
Definition down : string -> result Response := Mock.serve [].

(** Two recordings, at the URL that
    [SearchRecordingsByTitleAndArtist "Creep" "Radiohead"] requests. *)
Definition creep_of_radiohead : string -> result Response :=
  Mock.serve
    [ ("https://musicbrainz.org/ws/2/recording/?query=recording%3ACreep+artist%3ARadiohead&limit=20&fmt=json",
       Mock.answer 200
         "{'count':2,'recordings':[{'id':'r1','title':'Creep','first-release-date':'1992-09-21'},{'id':'r2','title':'Creep (acoustic)','first-release-date':'1993'}]}") ].

End Examples.

(* ================================================================= *)
(** ** More answers of the test server *)
Module Answers.

(** An artist whose area is an object. *)
Definition artist_with_area : string -> result Response :=
  fun _ =>
    Mock.answer 200
      "{'id':'a','name':'Radiohead','area':{'id':'uk','name':'United Kingdom'}}".

(** A release whose cover art archive is an object. *)
Definition release_with_cover_art : string -> result Response :=
  fun _ =>
    Mock.answer 200
      "{'id':'r','title':'Pablo Honey','cover-art-archive':{'artwork':true,'count':1}}".

(** A recording with a length, and one whose length is [2^63]. *)
Definition recording_with_length : string -> result Response :=
  fun _ => Mock.answer 200 "{'id':'r1','title':'Creep','length':238000}".

Definition recording_too_long : string -> result Response :=
  fun _ =>
    Mock.answer 200 "{'id':'r1','title':'Creep','length':9223372036854775808}".

(** The body is the literal [null], and the body is an array. *)
Definition null_body : string -> result Response :=
  fun _ => Mock.answer 200 "null".

Definition array_body : string -> result Response :=
  fun _ => Mock.answer 200 "[]".

(** One match that has no id; the path [recording/] without an id is
    answered with an empty list of recordings. *)
Definition match_without_id : string -> result Response :=
  Mock.serve
    [ (Examples.creep_search,
       Mock.answer 200 "{'recordings':[{'title':'Creep'}]}");
      ("https://musicbrainz.org/ws/2/recording/?fmt=json",
       Mock.answer 200 "{'recording-count':0,'recordings':[]}") ].

(** Two artists, the second with an area that is an object. *)
Definition artists_one_with_area : string -> result Response :=
  fun _ =>
    Mock.answer 200
      "{'artists':[{'id':'a','name':'Radiohead'},{'id':'b','area':{'name':'Oxford'}}]}".

End Answers.

(* ================================================================= *)
(** ** Observing runs *)

(** The network [get] with a counter of the GETs issued so far. *)
Definition counted {World : Type}
    (get : string -> World -> result Response * World)
  : string -> World * nat -> result Response * (World * nat) :=
  fun u wn =>
    let (r, w') := get u (fst wn) in (r, (w', S (snd wn))).

(** The earliest of a list of errors. *)
Definition first_error (es : list (option error)) : option error :=
  fold_right saveError None es.

(** The outcome of a search that found exactly one recording. *)
Definition single_match (r : slice Recording * option error) : bool :=
  match r with
  | (s, None) => match elements s with [_] => true | _ => false end
  | _ => false
  end.

(** The service answers the GET of [u] in the world [w] with an object
    that has the array [l] under [key] and no other member that is decoded
    into the field of that key; [w'] is the world afterwards. *)
Definition answers_envelope {World : Type}
    (http_Get : string -> World -> result Response * World)
    (json_scan : string -> result json) (key u : string) (w : World)
    (l : list json) (w' : World) : Prop :=
  exists response ms1 ms2,
    http_Get u w = (Ok response, w')
    /\ read_err (Body response) = None
    /\ json_scan (read_data (Body response))
       = Ok (JObject (ms1 ++ (key, JArray l) :: ms2))
    /\ (forall k v, In (k, v) (ms1 ++ ms2) -> find_field [key] k = None).

(** The service answers the GET of [u] in the world [w] with the JSON
    value [j]; [w'] is the world afterwards. *)
Definition answers_json {World : Type}
    (http_Get : string -> World -> result Response * World)
    (json_scan : string -> result json) (u : string) (w : World)
    (j : json) (w' : World) : Prop :=
  exists response,
    http_Get u w = (Ok response, w')
    /\ read_err (Body response) = None
    /\ json_scan (read_data (Body response)) = Ok j.

(** A member that is decoded into some field. *)
Definition known (names : list string) (kv : string * json) : bool :=
  match find_field names (fst kv) with
  | Some _ => true
  | None => false
  end.

(** The values of a Go [int]. *)
Definition int64 (z : Z) : Prop := - 2 ^ 63 <= z <= 2 ^ 63 - 1.

(** The objects that the service sends for an artist with an id and a
    name, for a release with an id, a title and a status, and for a
    recording with an id, a title and a date of first release; the
    argument holds these values in this order. *)
Definition artist_object (a : string * string) : json :=
  JObject [("id", JString (fst a)); ("name", JString (snd a))].

Definition release_object (r : string * string * string) : json :=
  JObject [("id", JString (fst (fst r))); ("title", JString (snd (fst r)));
           ("status", JString (snd r))].

Definition recording_object (r : string * string * string) : json :=
  JObject [("id", JString (fst (fst r))); ("title", JString (snd (fst r)));
           ("first-release-date", JString (snd r))].

(** A recording with another length. *)
Definition with_Length (z : Z) (r : Recording) : Recording :=
  mkRecording (Recording_ID r) (Recording_Title r) z
              (Recording_ReleaseDate r) (Recording_Relations r)
              (Recording_Tags r) (Recording_ArtistCredit r)
              (Recording_Releases r).

(** The entities these objects stand for: every other field is zero. *)
Definition artist_of (a : string * string) : Artist :=
  mkArtist (fst a) (snd a) "" "" "" "" "" "" "" None None None.

Definition release_of (r : string * string * string) : Release :=
  mkRelease (fst (fst r)) (snd (fst r)) (snd r) TextRepresentation_zero None
            ReleaseGroup_zero None None None.

Definition recording_of (r : string * string * string) : Recording :=
  mkRecording (fst (fst r)) (snd (fst r)) 0 (snd r) None None None None.

(** A string with its ASCII lower case letters in upper case. *)
Fixpoint upcase (s : string) : string :=
  match s with
  | EmptyString => EmptyString
  | String c rest => String (upper c) (upcase rest)
  end.

(* ================================================================= *)
(** * Properties *)

(** ** The decoder of objects *)

Section MemberFacts.
Variable T : Type.
Variable names : list string.
Variable set : nat -> json -> T -> T * option error.

(** Once a type error is saved, it is the error of the whole object. *)
Lemma decode_members_saved (ms : list (string * json)) (x : T) (e : error) :
  snd (decode_members names set ms (x, Some e)) = Some e.
Proof.
  revert x. induction ms as [|[k v] ms IH]; intros x; simpl.
  - reflexivity.
  - destruct (find_field names k) as [i|]; [|apply IH].
    destruct (set i v x) as [y e']. simpl. apply IH.
Qed.

(** A member that no field matches is skipped. *)
Lemma decode_members_unmatched (ms : list (string * json)) (st : T * option error) :
  Forall (fun kv => find_field names (fst kv) = None) ms ->
  decode_members names set ms st = st.
Proof.
  intros H. induction H as [|[k v] ms Hk _ IH]; simpl.
  - reflexivity.
  - simpl in Hk. rewrite Hk. exact IH.
Qed.

(** A projection that only the [i]-th setter can change is not changed
    by an object none of whose members goes to the [i]-th field. *)
Lemma decode_members_kept (A : Type) (acc : T -> A) (i : nat) :
  (forall i' v x, i' <> i -> acc (fst (set i' v x)) = acc x) ->
  forall ms st,
    (forall k v, In (k, v) ms -> find_field names k <> Some i) ->
    acc (fst (decode_members names set ms st)) = acc (fst st).
Proof.
  intros Hset ms. induction ms as [|[k v] ms IH]; intros st Habs; simpl.
  - reflexivity.
  - assert (Hk : find_field names k <> Some i) by (apply (Habs k v); left; reflexivity).
    assert (Hms : forall k' v', In (k', v') ms -> find_field names k' <> Some i)
      by (intros k' v' Hin; apply (Habs k' v'); right; exact Hin).
    destruct (find_field names k) as [i'|].
    + destruct (set i' v (fst st)) as [y e'] eqn:Hy.
      rewrite (IH _ Hms). simpl.
      change y with (fst (y, e')). rewrite <- Hy.
      apply Hset. intros ->. apply Hk. reflexivity.
    + apply IH. exact Hms.
Qed.

(** When the error of a setter does not depend on the contents of the
    struct, neither does the error of an object. *)
Hypothesis set_error :
  forall i v x y, snd (set i v x) = snd (set i v y).

Lemma decode_members_error (ms : list (string * json)) (x y : T) (e : option error) :
  snd (decode_members names set ms (x, e))
  = snd (decode_members names set ms (y, e)).
Proof.
  revert x y e. induction ms as [|[k v] ms IH]; intros x y e; simpl.
  - reflexivity.
  - destruct (find_field names k) as [i|]; [|apply IH].
    pose proof (set_error i v x y) as Hxy.
    destruct (set i v x) as [x' ex], (set i v y) as [y' ey].
    simpl in Hxy. subst ey. apply IH.
Qed.

(** Taking members away cannot introduce an error. *)
Lemma decode_members_filter (keep : string * json -> bool)
    (ms : list (string * json)) (x : T) :
  snd (decode_members names set ms (x, None)) = None ->
  snd (decode_members names set (filter keep ms) (x, None)) = None.
Proof.
  revert x. induction ms as [|[k v] ms IH]; intros x H; simpl in *.
  - reflexivity.
  - destruct (find_field names k) as [i|] eqn:Hk.
    + destruct (set i v x) as [x' e'] eqn:Hx. simpl in H.
      destruct e' as [e'|].
      { rewrite decode_members_saved in H. discriminate. }
      destruct (keep (k, v)); simpl.
      * rewrite Hk, Hx. simpl. apply IH. exact H.
      * apply IH. rewrite (decode_members_error ms x x'). exact H.
    + destruct (keep (k, v)); simpl.
      * rewrite Hk. apply IH. exact H.
      * apply IH. exact H.
Qed.

End MemberFacts.

(** ** Decoding into the structs of the package *)

(** The error of a scalar or of a slice depends on the JSON value only. *)
Lemma decode_string_error (v : json) (x y : string) :
  snd (decode_string v x) = snd (decode_string v y).
Proof. destruct v; reflexivity. Qed.

Lemma decode_int_error (v : json) (x y : Z) :
  snd (decode_int v x) = snd (decode_int v y).
Proof. destruct v; try reflexivity. simpl. destruct (strconv_ParseInt lit); reflexivity. Qed.

Lemma decode_bool_error (v : json) (x y : bool) :
  snd (decode_bool v x) = snd (decode_bool v y).
Proof. destruct v; reflexivity. Qed.

(** Induction on JSON values, with the property for the elements of an
    array and for the values of the members of an object. *)
Lemma json_nested_ind (P : json -> Prop) :
  P JNull ->
  (forall b, P (JBool b)) ->
  (forall lit, P (JNumber lit)) ->
  (forall s, P (JString s)) ->
  (forall l, Forall P l -> P (JArray l)) ->
  (forall ms, Forall (fun kv => P (snd kv)) ms -> P (JObject ms)) ->
  forall j, P j.
Proof.
  intros Hnull Hbool Hnum Hstr Harr Hobj.
  fix IH 1. intros [|b|lit|s|l|ms].
  - exact Hnull.
  - apply Hbool.
  - apply Hnum.
  - apply Hstr.
  - apply Harr. induction l as [|j l IHl]; constructor.
    + apply IH.
    + exact IHl.
  - apply Hobj. induction ms as [|[k v] ms IHms]; constructor.
    + apply IH.
    + exact IHms.
Qed.

(** The error of an array depends on the slots only through the errors
    of its elements. *)
Lemma decode_elems_error_on (T : Type) (zero : T)
    (elem : json -> T -> T * option error) (l : list json) :
  Forall (fun j => forall x y, snd (elem j x) = snd (elem j y)) l ->
  forall s1 s2,
    snd (decode_elems zero elem l s1) = snd (decode_elems zero elem l s2).
Proof.
  intros H. induction H as [|j l Hj _ IH]; intros s1 s2; simpl.
  - reflexivity.
  - pose proof (Hj (hd zero s1) (hd zero s2)) as Hhd.
    pose proof (IH (tl s1) (tl s2)) as Htl.
    destruct (elem j (hd zero s1)) as [x1 e1],
      (elem j (hd zero s2)) as [x2 e2],
      (decode_elems zero elem l (tl s1)) as [xs1 es1],
      (decode_elems zero elem l (tl s2)) as [xs2 es2].
    simpl in *. subst. reflexivity.
Qed.

Lemma decode_slice_error_on (T : Type) (zero : T)
    (elem : json -> T -> T * option error) (ty : gotype) (v : json)
    (x y : slice T) :
  (forall l, v = JArray l ->
             Forall (fun j => forall x y, snd (elem j x) = snd (elem j y)) l) ->
  snd (decode_slice zero elem ty v x) = snd (decode_slice zero elem ty v y).
Proof.
  intros H. destruct v as [|b|lit|s|l|ms]; try reflexivity.
  specialize (H l eq_refl). destruct l as [|j l]; [reflexivity|].
  unfold decode_slice.
  pose proof (@decode_elems_error_on _ zero elem _ H (backing x) (backing y))
    as He.
  destruct (decode_elems zero elem (j :: l) (backing x)),
    (decode_elems zero elem (j :: l) (backing y)).
  exact He.
Qed.

Lemma decode_slice_error (T : Type) (zero : T)
    (elem : json -> T -> T * option error) (ty : gotype) :
  (forall j x y, snd (elem j x) = snd (elem j y)) ->
  forall (v : json) (x y : slice T),
    snd (decode_slice zero elem ty v x) = snd (decode_slice zero elem ty v y).
Proof.
  intros H v x y. apply decode_slice_error_on.
  intros l _. apply Forall_forall. intros j _. apply H.
Qed.

(** The same for an object, with the setters looked at on its members
    only. *)
Lemma decode_members_error_on (T : Type) (names : list string)
    (set : nat -> json -> T -> T * option error)
    (ms : list (string * json)) :
  Forall (fun kv => forall i x y,
              snd (set i (snd kv) x) = snd (set i (snd kv) y)) ms ->
  forall x y e,
    snd (decode_members names set ms (x, e))
    = snd (decode_members names set ms (y, e)).
Proof.
  intros H. induction H as [|[k v] ms Hv _ IH]; intros x y e; simpl.
  - reflexivity.
  - destruct (find_field names k) as [i|]; [|apply IH].
    pose proof (Hv i x y) as Hxy. simpl in Hxy.
    destruct (set i v x) as [x' ex], (set i v y) as [y' ey].
    simpl in Hxy. subst ey. apply IH.
Qed.

Lemma decode_struct_error (T : Type) (names : list string)
    (set : nat -> json -> T -> T * option error) (ty : gotype) :
  (forall i v x y, snd (set i v x) = snd (set i v y)) ->
  forall v x y,
    snd (decode_struct names set ty v x) = snd (decode_struct names set ty v y).
Proof.
  intros H v x y. destruct v; try reflexivity.
  simpl. apply decode_members_error. exact H.
Qed.

Lemma snd_let (A B C : Type) (p : A * C) (f : A -> B) :
  snd (let (y, e) := p in (f y, e)) = snd p.
Proof. destruct p; reflexivity. Qed.

Create HintDb decode_error.
#[local] Hint Resolve decode_string_error decode_int_error decode_bool_error
  decode_slice_error : decode_error.

(** Splits the index of a field into the cases of a setter. *)
Ltac field_cases i :=
  do 13 (try (destruct i as [|i])).

Ltac split_decodes :=
  repeat match goal with
         | |- context [let (_, _) := ?p in _] => destruct p
         end.

Ltac setter_error :=
  let i := fresh "i" in
  let v := fresh "v" in
  let x := fresh "x" in
  let y := fresh "y" in
  intros i v x y; destruct x, y; field_cases i; simpl;
  rewrite ?snd_let; auto with decode_error.

Lemma Alias_set_error i v x y : snd (Alias_set i v x) = snd (Alias_set i v y).
Proof. revert i v x y. setter_error. Qed.

Lemma Tag_set_error i v x y : snd (Tag_set i v x) = snd (Tag_set i v y).
Proof. revert i v x y. setter_error. Qed.

Lemma decode_Alias_error (v : json) (x y : Alias) :
  snd (decode_Alias v x) = snd (decode_Alias v y).
Proof. apply decode_struct_error, Alias_set_error. Qed.

Lemma decode_Tag_error (v : json) (x y : Tag) :
  snd (decode_Tag v x) = snd (decode_Tag v y).
Proof. apply decode_struct_error, Tag_set_error. Qed.

#[local] Hint Resolve decode_Alias_error decode_Tag_error : decode_error.

Lemma decode_Artist_unfold (j : json) (old : Artist) :
  decode_Artist j old
  = decode_struct (keys Artist_schema) (Artist_set decode_Relation)
                  (go_named "musicbrainz.Artist") j old.
Proof. destruct j; reflexivity. Qed.

Lemma decode_Relation_unfold (j : json) (old : Relation) :
  decode_Relation j old
  = decode_struct (keys Relation_schema) (Relation_set decode_Artist)
                  (go_named "musicbrainz.Relation") j old.
Proof. destruct j; reflexivity. Qed.

(** [Artist] and [Relation] hold each other: that their errors do not
    depend on what the variable holds is shown for both at once, together
    with the same for a slice of relations. *)
Lemma decode_Artist_Relation_error (j : json) :
  (forall x y, snd (decode_Artist j x) = snd (decode_Artist j y))
  /\ (forall x y, snd (decode_Relation j x) = snd (decode_Relation j y))
  /\ (forall x y,
         snd (decode_slice Relation_zero decode_Relation
                (go_named "musicbrainz.Relation") j x)
         = snd (decode_slice Relation_zero decode_Relation
                  (go_named "musicbrainz.Relation") j y)).
Proof.
  induction j as [|b|lit|s|l IH|ms IH] using json_nested_ind;
    try (repeat split; reflexivity).
  - repeat split; try reflexivity.
    intros x y. apply decode_slice_error_on. intros l' Hl'.
    injection Hl' as <-.
    eapply Forall_impl; [|exact IH].
    intros j [_ [Hr _]]. exact Hr.
  - repeat split; try reflexivity.
    + intros x y. rewrite !decode_Artist_unfold. simpl.
      apply decode_members_error_on.
      eapply Forall_impl; [|exact IH].
      intros [k v] [_ [_ Hs]] i x0 y0. simpl in *.
      destruct x0, y0; field_cases i; simpl;
        rewrite ?snd_let; auto with decode_error.
    + intros x y. rewrite !decode_Relation_unfold. simpl.
      apply decode_members_error_on.
      eapply Forall_impl; [|exact IH].
      intros [k v] [Ha _] i x0 y0. simpl in *.
      destruct x0, y0; field_cases i; simpl;
        rewrite ?snd_let; auto with decode_error.
Qed.

Lemma decode_Artist_error (v : json) (x y : Artist) :
  snd (decode_Artist v x) = snd (decode_Artist v y).
Proof. apply decode_Artist_Relation_error. Qed.

Lemma decode_Relation_error (v : json) (x y : Relation) :
  snd (decode_Relation v x) = snd (decode_Relation v y).
Proof. apply decode_Artist_Relation_error. Qed.

#[local] Hint Resolve decode_Artist_error decode_Relation_error
  : decode_error.

Lemma Artist_set_error i v x y :
  snd (Artist_set decode_Relation i v x)
  = snd (Artist_set decode_Relation i v y).
Proof. revert i v x y. setter_error. Qed.

Lemma Relation_set_error i v x y :
  snd (Relation_set decode_Artist i v x) = snd (Relation_set decode_Artist i v y).
Proof. revert i v x y. setter_error. Qed.

Lemma GBImage_set_error i v x y :
  snd (GBImage_set i v x) = snd (GBImage_set i v y).
Proof. revert i v x y. setter_error. Qed.

Lemma decode_GBImage_error (v : json) (x y : GBImage) :
  snd (decode_GBImage v x) = snd (decode_GBImage v y).
Proof. apply decode_struct_error, GBImage_set_error. Qed.

#[local] Hint Resolve decode_GBImage_error : decode_error.

Lemma CoverArtURL_set_error i v x y :
  snd (CoverArtURL_set i v x) = snd (CoverArtURL_set i v y).
Proof. revert i v x y. setter_error. Qed.

Lemma decode_CoverArtURL_error (v : json) (x y : CoverArtURL) :
  snd (decode_CoverArtURL v x) = snd (decode_CoverArtURL v y).
Proof. apply decode_struct_error, CoverArtURL_set_error. Qed.

Lemma TextRepresentation_set_error i v x y :
  snd (TextRepresentation_set i v x) = snd (TextRepresentation_set i v y).
Proof. revert i v x y. setter_error. Qed.

Lemma ArtistCredit_set_error i v x y :
  snd (ArtistCredit_set i v x) = snd (ArtistCredit_set i v y).
Proof. revert i v x y. setter_error. Qed.

Lemma decode_ArtistCredit_error (v : json) (x y : ArtistCredit) :
  snd (decode_ArtistCredit v x) = snd (decode_ArtistCredit v y).
Proof. apply decode_struct_error, ArtistCredit_set_error. Qed.

Lemma ArtistName_set_error i v x y :
  snd (ArtistName_set i v x) = snd (ArtistName_set i v y).
Proof. revert i v x y. setter_error. Qed.

Lemma decode_ArtistName_error (v : json) (x y : ArtistName) :
  snd (decode_ArtistName v x) = snd (decode_ArtistName v y).
Proof. apply decode_struct_error, ArtistName_set_error. Qed.

Lemma ReleaseGroup_set_error i v x y :
  snd (ReleaseGroup_set i v x) = snd (ReleaseGroup_set i v y).
Proof. revert i v x y. setter_error. Qed.

Lemma decode_TextRepresentation_error (v : json) (x y : TextRepresentation) :
  snd (decode_TextRepresentation v x) = snd (decode_TextRepresentation v y).
Proof. apply decode_struct_error, TextRepresentation_set_error. Qed.

Lemma decode_ReleaseGroup_error (v : json) (x y : ReleaseGroup) :
  snd (decode_ReleaseGroup v x) = snd (decode_ReleaseGroup v y).
Proof. apply decode_struct_error, ReleaseGroup_set_error. Qed.

#[local] Hint Resolve decode_TextRepresentation_error
  decode_ReleaseGroup_error decode_CoverArtURL_error
  decode_ArtistCredit_error decode_ArtistName_error : decode_error.

Lemma Release_set_error i v x y :
  snd (Release_set i v x) = snd (Release_set i v y).
Proof. revert i v x y. setter_error. Qed.

Lemma decode_Release_error (v : json) (x y : Release) :
  snd (decode_Release v x) = snd (decode_Release v y).
Proof. apply decode_struct_error, Release_set_error. Qed.

#[local] Hint Resolve decode_Release_error : decode_error.

Lemma Recording_set_error i v x y :
  snd (Recording_set i v x) = snd (Recording_set i v y).
Proof. revert i v x y. setter_error. Qed.

Lemma decode_Recording_error (v : json) (x y : Recording) :
  snd (decode_Recording v x) = snd (decode_Recording v y).
Proof. apply decode_struct_error, Recording_set_error. Qed.

#[local] Hint Resolve decode_Recording_error : decode_error.

Lemma ArtistsResult_set_error i v x y :
  snd (ArtistsResult_set i v x) = snd (ArtistsResult_set i v y).
Proof. revert i v x y. setter_error. Qed.

Lemma ReleasesResult_set_error i v x y :
  snd (ReleasesResult_set i v x) = snd (ReleasesResult_set i v y).
Proof. revert i v x y. setter_error. Qed.

Lemma RecordingsResult_set_error i v x y :
  snd (RecordingsResult_set i v x) = snd (RecordingsResult_set i v y).
Proof. revert i v x y. setter_error. Qed.

(** A struct decoder whose setters touch their own field only, and fail
    or not whatever the struct holds, tolerates absence. *)
Lemma decode_struct_tolerates (T : Type) (s : schema T)
    (set : nat -> json -> T -> T * option error) (ty : gotype) (zero : T) :
  (forall i v x y, snd (set i v x) = snd (set i v y)) ->
  (forall i i' v x, i' <> i -> same_field s i (fst (set i' v x)) x) ->
  tolerates_absence s (decode_struct (keys s) set ty) zero.
Proof.
  intros Herr Hown. repeat split.
  - intros ms i Habs. unfold same_field.
    pose proof (Hown i) as Hi. unfold same_field in Hi.
    destruct (nth_error s i) as [[key [A acc]]|]; [|exact I].
    simpl. apply (decode_members_kept (keys s) set acc (i := i)).
    + exact Hi.
    + exact Habs.
  - intros ms keep H. simpl in *.
    apply decode_members_filter; assumption.
Qed.

Ltac setter_own :=
  let i := fresh "i" in
  let i' := fresh "i'" in
  let v := fresh "v" in
  let x := fresh "x" in
  let H := fresh "H" in
  intros i i' v x H; destruct x; field_cases i; field_cases i';
  try (exfalso; apply H; reflexivity);
  try exact I;
  unfold same_field; simpl; split_decodes; reflexivity.

Lemma Alias_set_own i i' v x :
  i' <> i -> same_field Alias_schema i (fst (Alias_set i' v x)) x.
Proof. revert i i' v x. setter_own. Qed.

Lemma Tag_set_own i i' v x :
  i' <> i -> same_field Tag_schema i (fst (Tag_set i' v x)) x.
Proof. revert i i' v x. setter_own. Qed.

Lemma Artist_set_own dec i i' v x :
  i' <> i -> same_field Artist_schema i (fst (Artist_set dec i' v x)) x.
Proof. revert i i' v x. setter_own. Qed.

Lemma Relation_set_own dec i i' v x :
  i' <> i -> same_field Relation_schema i (fst (Relation_set dec i' v x)) x.
Proof. revert i i' v x. setter_own. Qed.

Lemma GBImage_set_own i i' v x :
  i' <> i -> same_field GBImage_schema i (fst (GBImage_set i' v x)) x.
Proof. revert i i' v x. setter_own. Qed.

Lemma CoverArtURL_set_own i i' v x :
  i' <> i -> same_field CoverArtURL_schema i (fst (CoverArtURL_set i' v x)) x.
Proof. revert i i' v x. setter_own. Qed.

Lemma TextRepresentation_set_own i i' v x :
  i' <> i ->
  same_field TextRepresentation_schema i
             (fst (TextRepresentation_set i' v x)) x.
Proof. revert i i' v x. setter_own. Qed.

Lemma ArtistCredit_set_own i i' v x :
  i' <> i -> same_field ArtistCredit_schema i (fst (ArtistCredit_set i' v x)) x.
Proof. revert i i' v x. setter_own. Qed.

Lemma ArtistName_set_own i i' v x :
  i' <> i -> same_field ArtistName_schema i (fst (ArtistName_set i' v x)) x.
Proof. revert i i' v x. setter_own. Qed.

Lemma ReleaseGroup_set_own i i' v x :
  i' <> i -> same_field ReleaseGroup_schema i (fst (ReleaseGroup_set i' v x)) x.
Proof. revert i i' v x. setter_own. Qed.

Lemma Release_set_own i i' v x :
  i' <> i -> same_field Release_schema i (fst (Release_set i' v x)) x.
Proof. revert i i' v x. setter_own. Qed.

Lemma Recording_set_own i i' v x :
  i' <> i -> same_field Recording_schema i (fst (Recording_set i' v x)) x.
Proof. revert i i' v x. setter_own. Qed.

Lemma ArtistsResult_set_own i i' v x :
  i' <> i ->
  same_field ArtistsResult_schema i (fst (ArtistsResult_set i' v x)) x.
Proof. revert i i' v x. setter_own. Qed.

Lemma ReleasesResult_set_own i i' v x :
  i' <> i ->
  same_field ReleasesResult_schema i (fst (ReleasesResult_set i' v x)) x.
Proof. revert i i' v x. setter_own. Qed.

Lemma RecordingsResult_set_own i i' v x :
  i' <> i ->
  same_field RecordingsResult_schema i (fst (RecordingsResult_set i' v x)) x.
Proof. revert i i' v x. setter_own. Qed.

(** The two decoders that are fixpoints tolerate absence as well. *)
Lemma decode_Artist_tolerates :
  tolerates_absence Artist_schema decode_Artist Artist_zero.
Proof.
  pose proof (@decode_struct_tolerates _ Artist_schema
                (Artist_set decode_Relation) (go_named "musicbrainz.Artist")
                Artist_zero Artist_set_error
                (Artist_set_own decode_Relation)) as [H0 [H1 H2]].
  repeat split.
  - intros ms i. rewrite decode_Artist_unfold. apply H1.
  - intros ms keep. rewrite !decode_Artist_unfold. apply H2.
Qed.

Lemma decode_Relation_tolerates :
  tolerates_absence Relation_schema decode_Relation Relation_zero.
Proof.
  pose proof (@decode_struct_tolerates _ Relation_schema
                (Relation_set decode_Artist) (go_named "musicbrainz.Relation")
                Relation_zero Relation_set_error
                (Relation_set_own decode_Artist)) as [H0 [H1 H2]].
  repeat split.
  - intros ms i. rewrite decode_Relation_unfold. apply H1.
  - intros ms keep. rewrite !decode_Relation_unfold. apply H2.
Qed.

(** ** URLs *)

Lemma QueryEscape_digits (d : Decimal.uint) :
  url.QueryEscape (NilEmpty.string_of_uint d) = NilEmpty.string_of_uint d.
Proof. induction d; simpl; try rewrite IHd; reflexivity. Qed.

(** A decimal numeral needs no escaping. *)
Lemma QueryEscape_Itoa (i : Z) :
  url.QueryEscape (strconv_Itoa i) = strconv_Itoa i.
Proof.
  unfold strconv_Itoa.
  destruct (Z.to_int i) as [d|d]; simpl.
  - destruct d; try apply QueryEscape_digits; reflexivity.
  - change (String "-" (url.QueryEscape (NilZero.string_of_uint d))
            = String "-" (NilZero.string_of_uint d)).
    f_equal. destruct d; try apply QueryEscape_digits; reflexivity.
Qed.

Lemma append_assoc (a b c : string) : (a ++ b) ++ c = a ++ (b ++ c).
Proof. induction a; simpl; [reflexivity | rewrite IHa; reflexivity]. Qed.

(** The query string that [url.Values.Encode] makes of the three
    parameters of a simple search: the keys come out sorted. *)
Lemma Encode_search (text : string) (limit : Z) :
  url.Encode (url.Set_ "fmt" "json"
               (url.Set_ "limit" (strconv_Itoa limit)
                  (url.Set_ "query" text url.empty)))
  = "fmt=json&limit=" ++ strconv_Itoa limit ++ "&query="
      ++ url.QueryEscape text.
Proof.
  unfold url.Encode. simpl.
  rewrite QueryEscape_Itoa, append_assoc. reflexivity.
Qed.

(** ** The operations as request cycles *)

Section ClientFacts.
Variable World : Type.
Variable http_Get : string -> World -> result Response * World.
Variable json_scan : string -> result json.

Ltac run_cycle :=
  unfold round_trip, bind, ret, json_Unmarshal, io_ReadAll,
    MusicBrainzAPIEndpoint;
  cbn [append];
  repeat match goal with
         | |- context [http_Get ?u ?w] => destruct (http_Get u w) as [[? | ?] ?]
         | |- context [read_err ?b] => destruct (read_err b)
         | |- context [json_scan ?d] => destruct (json_scan d)
         | |- context [let (_, _) := ?p in _] => destruct p as [? [? | ]]
         end;
  reflexivity.

Lemma SearchArtists_cycle (name : string) (limit : Z) (w : World) :
  SearchArtists http_Get json_scan name limit w
  = round_trip http_Get json_scan decode_ArtistsResult ArtistsResult_zero
      Artists None
      (MusicBrainzAPIEndpoint ++ "artist/?fmt=json&limit="
         ++ strconv_Itoa limit ++ "&query=" ++ url.QueryEscape name) w.
Proof.
  unfold SearchArtists. rewrite Encode_search. run_cycle.
Qed.

Lemma SearchReleases_cycle (title : string) (limit : Z) (w : World) :
  SearchReleases http_Get json_scan title limit w
  = round_trip http_Get json_scan decode_ReleasesResult ReleasesResult_zero
      Releases None
      (MusicBrainzAPIEndpoint ++ "release/?fmt=json&limit="
         ++ strconv_Itoa limit ++ "&query=" ++ url.QueryEscape title) w.
Proof.
  unfold SearchReleases. rewrite Encode_search. run_cycle.
Qed.

Lemma SearchRecordings_cycle (title : string) (limit : Z) (w : World) :
  SearchRecordings http_Get json_scan title limit w
  = round_trip http_Get json_scan decode_RecordingsResult
      RecordingsResult_zero Recordings None
      (MusicBrainzAPIEndpoint ++ "recording/?fmt=json&limit="
         ++ strconv_Itoa limit ++ "&query=" ++ url.QueryEscape title) w.
Proof.
  unfold SearchRecordings. rewrite Encode_search. run_cycle.
Qed.

Lemma GetArtistByID_cycle (id : string) (w : World) :
  GetArtistByID http_Get json_scan id w
  = round_trip http_Get json_scan decode_Artist Artist_zero
      (@Some Artist) None
      (MusicBrainzAPIEndpoint ++ "artist/" ++ id ++ "?fmt=json") w.
Proof. unfold GetArtistByID. run_cycle. Qed.

Lemma GetReleaseByID_cycle (id : string) (w : World) :
  GetReleaseByID http_Get json_scan id w
  = round_trip http_Get json_scan decode_Release Release_zero
      (@Some Release) None
      (MusicBrainzAPIEndpoint ++ "release/" ++ id ++ "?fmt=json") w.
Proof. unfold GetReleaseByID. run_cycle. Qed.

Lemma GetRecordingByID_cycle (id : string) (w : World) :
  GetRecordingByID http_Get json_scan id w
  = round_trip http_Get json_scan decode_Recording Recording_zero
      (@Some Recording) None
      (MusicBrainzAPIEndpoint ++ "recording/" ++ id ++ "?fmt=json") w.
Proof. unfold GetRecordingByID. run_cycle. Qed.

Lemma GetRecordingByIDWithTags_cycle (id : string) (w : World) :
  GetRecordingByIDWithTags http_Get json_scan id w
  = round_trip http_Get json_scan decode_Recording Recording_zero
      (@Some Recording) None
      (MusicBrainzAPIEndpoint ++ "recording/" ++ id ++ "?fmt=json") w.
Proof. unfold GetRecordingByIDWithTags. run_cycle. Qed.

Lemma SearchRecordingsByTitleAndArtist_cycle (title artist : string)
    (w : World) :
  SearchRecordingsByTitleAndArtist http_Get json_scan title artist w
  = round_trip http_Get json_scan decode_RecordingsResult
      RecordingsResult_zero Recordings None
      (MusicBrainzAPIEndpoint ++ "recording/?query="
         ++ url.QueryEscape ("recording:" ++ title ++ " artist:" ++ artist)
         ++ "&limit=20&fmt=json") w.
Proof. unfold SearchRecordingsByTitleAndArtist. run_cycle. Qed.

(** Every request cycle ends in one of the four ways. *)
Lemma round_trip_outcome (T R : Type)
    (decode : json -> T -> T * option error) (zero : T) (project : T -> R)
    (nil : R) (u : string) (w : World) :
  cycle_outcome http_Get json_scan decode zero project nil u w
    (round_trip http_Get json_scan decode zero project nil u w).
Proof.
  unfold round_trip.
  destruct (http_Get u w) as [[response|e] w'] eqn:Hget.
  - destruct (read_err (Body response)) as [e|] eqn:Hread.
    + eapply read_failed; eassumption.
    + destruct (json_scan (read_data (Body response))) as [j|e] eqn:Hscan.
      * destruct (decode j zero) as [v [e|]] eqn:Hdec.
        -- eapply decode_failed; try eassumption.
           unfold json_Unmarshal. rewrite Hscan. exact Hdec.
        -- eapply cycle_succeeded; try eassumption.
           unfold json_Unmarshal. rewrite Hscan. exact Hdec.
      * eapply decode_failed with (v := zero); try eassumption.
        unfold json_Unmarshal. rewrite Hscan. reflexivity.
  - apply transport_failed. exact Hget.
Qed.

(** A cycle that returns an error returns the nil value with it. *)
Lemma cycle_outcome_nil (T R : Type)
    (decode : json -> T -> T * option error) (zero : T) (project : T -> R)
    (nil : R) (u : string) (w w' : World) (r : R) (e : error) :
  cycle_outcome http_Get json_scan decode zero project nil u w
                ((r, Some e), w') ->
  r = nil.
Proof. intros H. inversion H; reflexivity. Qed.

(** A lookup never returns a nil pointer with a nil error. *)
Lemma GetRecordingByIDWithTags_not_nil (id : string) (w w' : World) :
  GetRecordingByIDWithTags http_Get json_scan id w <> ((None, None), w').
Proof.
  rewrite GetRecordingByIDWithTags_cycle.
  intros H.
  pose proof (round_trip_outcome decode_Recording Recording_zero
                (@Some Recording) None
                (MusicBrainzAPIEndpoint ++ "recording/" ++ id ++ "?fmt=json")
                w) as Hout.
  rewrite H in Hout. inversion Hout.
Qed.

(** Exactly one element: the elements of the slice are a list of one. *)
Lemma len_one (A : Type) (s : slice A) :
  len s = 1%nat <-> exists x, elements s = [x].
Proof.
  unfold len. split.
  - destruct (elements s) as [|x [|y l]]; simpl; intros H; try discriminate.
    exists x. reflexivity.
  - intros [x ->]. reflexivity.
Qed.

(** The search of the strict-match helper is the request cycle at
    [tags_query_url]; when it ends without error it has decoded a result. *)
Lemma search_decoded_cycle (title artist album : string) (w w1 : World)
    (recs : slice Recording) :
  round_trip http_Get json_scan decode_RecordingsResult RecordingsResult_zero
    Recordings None (tags_query_url title artist album) w
  = ((recs, None), w1) ->
  exists result,
    search_decoded http_Get json_scan title artist album w result w1
    /\ recs = Recordings result.
Proof.
  intros H.
  pose proof (round_trip_outcome decode_RecordingsResult RecordingsResult_zero
                Recordings None (tags_query_url title artist album) w) as Hout.
  rewrite H in Hout. inversion Hout; subst.
  exists v. split; [|reflexivity].
  exists response. repeat split; assumption.
Qed.

(** What [GetTagsByTitleAndArtistAndAlbum] does after its search. *)
Lemma GetTags_after_search (title artist album : string) (w : World) :
  GetTagsByTitleAndArtistAndAlbum http_Get json_scan title artist album w
  = match round_trip http_Get json_scan decode_RecordingsResult
            RecordingsResult_zero Recordings None
            (tags_query_url title artist album) w with
    | ((_, Some e), w1) => ((None, "", Some e), w1)
    | ((recs, None), w1) =>
        match elements recs with
        | [first] =>
            match GetRecordingByIDWithTags http_Get json_scan
                    (Recording_ID first) w1 with
            | ((_, Some e), w2) => ((None, "", Some e), w2)
            | ((Some recording, None), w2) =>
                ((Recording_Tags recording, Recording_ReleaseDate recording,
                  None), w2)
            | ((None, None), w2) => ((None, "", None), w2)
            end
        | _ =>
            ((None, "",
              Some (errors_New "MusicBrainz didn't find the song")), w1)
        end
    end.
Proof.
  unfold GetTagsByTitleAndArtistAndAlbum, tags_query_url, round_trip, bind,
    ret, json_Unmarshal, io_ReadAll.
  match goal with
  | |- context [http_Get ?u ?w] => destruct (http_Get u w) as [[response|e] w1]
  end; [|reflexivity].
  destruct (read_err (Body response)); [reflexivity|].
  destruct (json_scan (read_data (Body response))); [|reflexivity].
  match goal with
  | |- context [decode_RecordingsResult ?j ?z] =>
      destruct (decode_RecordingsResult j z) as [result [e|]]
  end; [reflexivity|].
  destruct (elements (Recordings result)) as [|first [|second rest]];
    try reflexivity.
  destruct (GetRecordingByIDWithTags http_Get json_scan (Recording_ID first) w1)
    as [[[recording|] [e|]] w2]; reflexivity.
Qed.

(** Every run of [GetTagsByTitleAndArtistAndAlbum] ends in one of the four
    ways of [tags_outcome]. *)
Lemma GetTags_outcome (title artist album : string) (w : World) :
  tags_outcome http_Get json_scan title artist album w
    (GetTagsByTitleAndArtistAndAlbum http_Get json_scan title artist album w).
Proof.
  rewrite GetTags_after_search.
  pose proof (round_trip_outcome decode_RecordingsResult RecordingsResult_zero
                Recordings None (tags_query_url title artist album) w) as Hout.
  destruct (round_trip http_Get json_scan decode_RecordingsResult
              RecordingsResult_zero Recordings None
              (tags_query_url title artist album) w)
    as [[recs [e|]] w1] eqn:Hsearch.
  - rewrite (cycle_outcome_nil Hout) in *.
    eapply search_failed. exact Hout.
  - destruct (search_decoded_cycle _ _ _ _ Hsearch) as [result [Hdec ->]].
    destruct (elements (Recordings result)) as [|first [|second rest]]
      eqn:Hrecs;
      try (apply no_single_match with (result := result);
           [exact Hdec | unfold len; rewrite Hrecs; simpl; lia]).
    destruct (GetRecordingByIDWithTags http_Get json_scan (Recording_ID first) w1)
      as [[[recording|] [e|]] w2] eqn:Hlookup.
    + eapply lookup_failed; eassumption.
    + eapply tags_found; eassumption.
    + eapply lookup_failed; eassumption.
    + exfalso. eapply GetRecordingByIDWithTags_not_nil. exact Hlookup.
Qed.

End ClientFacts.

(** ** Escaping *)

Lemma upperhex_unreserved (n : nat) :
  (n < 16)%nat -> url.unreserved (url.upperhex n) = true.
Proof.
  intros H. do 16 (destruct n as [|n]; [reflexivity|]). lia.
Qed.

(** An escaped string is safe in a query component. *)
Lemma QueryEscape_safe (s : string) :
  url.safe_in_query (url.QueryEscape s) = true.
Proof.
  induction s as [|c s IH]; [reflexivity|].
  cbn [url.QueryEscape]. destruct (Ascii.eqb c " ").
  - cbn [url.safe_in_query]. rewrite IH. reflexivity.
  - destruct (url.shouldEscape c) eqn:Hc.
    + cbn [url.safe_in_query]. rewrite IH.
      rewrite !upperhex_unreserved.
      * reflexivity.
      * apply Nat.mod_upper_bound. discriminate.
      * apply Nat.Div0.div_lt_upper_bound.
        pose proof (nat_ascii_bounded c). lia.
    + cbn [url.safe_in_query]. rewrite IH.
      unfold url.shouldEscape in Hc.
      destruct (url.unreserved c); [reflexivity|discriminate].
Qed.

Lemma unhex_upperhex (n : nat) :
  (n < 16)%nat -> url.unhex (url.upperhex n) = Some n.
Proof.
  intros H. do 16 (destruct n as [|n]; [reflexivity|]). lia.
Qed.

Lemma unreserved_not_escape (c : ascii) :
  url.unreserved c = true -> c <> "+"%char /\ c <> "%"%char.
Proof. intros H. split; intros ->; discriminate. Qed.

(** Unescaping an escaped text gives the text back. *)
Lemma QueryUnescape_QueryEscape (s : string) :
  url.QueryUnescape (url.QueryEscape s) = Some s.
Proof.
  induction s as [|c s IH]; [reflexivity|].
  cbn [url.QueryEscape]. destruct (Ascii.eqb_spec c " ") as [->|Hspace].
  - cbn [url.QueryUnescape].
    change (Ascii.eqb "+" "%") with false.
    change (Ascii.eqb "+" "+") with true. cbv iota.
    rewrite IH. reflexivity.
  - destruct (url.shouldEscape c) eqn:Hc.
    + cbn [url.QueryUnescape].
      change (Ascii.eqb "%" "%") with true. cbv iota.
      rewrite !unhex_upperhex, IH.
      * rewrite <- Nat.div_mod_eq, ascii_nat_embedding. reflexivity.
      * apply Nat.mod_upper_bound. discriminate.
      * apply Nat.Div0.div_lt_upper_bound.
        pose proof (nat_ascii_bounded c). lia.
    + unfold url.shouldEscape in Hc.
      destruct (url.unreserved c) eqn:Hu; [|discriminate].
      destruct (unreserved_not_escape c Hu) as [Hplus Hpercent].
      cbn [url.QueryUnescape].
      destruct (Ascii.eqb_spec c "%"); [contradiction|].
      destruct (Ascii.eqb_spec c "+"); [contradiction|].
      rewrite IH. reflexivity.
Qed.

(** ** Decimal numerals *)

Lemma digits_of_uint_acc (d : Decimal.uint) (acc : positive) :
  digits (NilEmpty.string_of_uint d) (Z.pos acc)
  = Some (Z.pos (Pos.of_uint_acc d acc)).
Proof.
  revert acc.
  induction d as [|d IH|d IH|d IH|d IH|d IH|d IH|d IH|d IH|d IH|d IH];
    intros acc; cbn [NilEmpty.string_of_uint Pos.of_uint_acc];
    [reflexivity|..];
    cbn [digits]; rewrite <- IH.
  all: match goal with
       | |- (if ?b then _ else _) = _ => change b with true
       end; cbv iota.
  all: match goal with
       | |- context [Z.of_nat ?n] =>
           let v := eval vm_compute in (Z.of_nat n) in
           change (Z.of_nat n) with v
       end.
  all: f_equal; lia.
Qed.

Lemma digits_of_uint (d : Decimal.uint) :
  digits (NilEmpty.string_of_uint d) 0 = Some (Z.of_N (Pos.of_uint d)).
Proof.
  induction d as [|d IH|d IH|d IH|d IH|d IH|d IH|d IH|d IH|d IH|d IH];
    cbn [NilEmpty.string_of_uint Pos.of_uint];
    [reflexivity|exact IH|..];
    cbn [digits Z.of_N]; rewrite <- digits_of_uint_acc; reflexivity.
Qed.

Lemma digits_to_uint (p : positive) :
  digits (NilEmpty.string_of_uint (Pos.to_uint p)) 0 = Some (Z.pos p).
Proof.
  rewrite digits_of_uint, DecimalPos.Unsigned.of_to. reflexivity.
Qed.

Lemma ParseInt_unsigned (d : Decimal.uint) :
  d <> Decimal.Nil ->
  strconv_ParseInt (NilEmpty.string_of_uint d)
  = match digits (NilEmpty.string_of_uint d) 0 with
    | Some z => if (- 2 ^ 63 <=? z) && (z <=? 2 ^ 63 - 1) then Some z else None
    | None => None
    end.
Proof. destruct d; [contradiction|..]; reflexivity. Qed.

Lemma ParseInt_negative (d : Decimal.uint) :
  d <> Decimal.Nil ->
  strconv_ParseInt (String "-" (NilEmpty.string_of_uint d))
  = match option_map Z.opp (digits (NilEmpty.string_of_uint d) 0) with
    | Some z => if (- 2 ^ 63 <=? z) && (z <=? 2 ^ 63 - 1) then Some z else None
    | None => None
    end.
Proof. destruct d; [contradiction|..]; reflexivity. Qed.

(** [strconv.ParseInt] reads back what [strconv.Itoa] writes, as far as
    the number fits 64 bits. *)
Lemma ParseInt_Itoa (z : Z) :
  strconv_ParseInt (strconv_Itoa z)
  = if (- 2 ^ 63 <=? z) && (z <=? 2 ^ 63 - 1) then Some z else None.
Proof.
  unfold strconv_Itoa.
  destruct z as [|p|p]; cbn [Z.to_int NilZero.string_of_int].
  - reflexivity.
  - pose proof (Unsigned.to_uint_nonnil p) as Hnil.
    replace (NilZero.string_of_uint (Pos.to_uint p))
      with (NilEmpty.string_of_uint (Pos.to_uint p))
      by (destruct (Pos.to_uint p); [contradiction|..]; reflexivity).
    rewrite (ParseInt_unsigned Hnil), digits_to_uint. reflexivity.
  - pose proof (Unsigned.to_uint_nonnil p) as Hnil.
    replace (NilZero.string_of_uint (Pos.to_uint p))
      with (NilEmpty.string_of_uint (Pos.to_uint p))
      by (destruct (Pos.to_uint p); [contradiction|..]; reflexivity).
    rewrite (ParseInt_negative Hnil), digits_to_uint. reflexivity.
Qed.

Lemma ParseInt_Itoa_int64 (z : Z) :
  int64 z -> strconv_ParseInt (strconv_Itoa z) = Some z.
Proof.
  intros [Hlo Hhi]. rewrite ParseInt_Itoa.
  apply Z.leb_le in Hlo, Hhi. rewrite Hlo, Hhi. reflexivity.
Qed.

Lemma ParseInt_Itoa_out (z : Z) :
  ~ int64 z -> strconv_ParseInt (strconv_Itoa z) = None.
Proof.
  intros Hout. rewrite ParseInt_Itoa.
  destruct ((- 2 ^ 63 <=? z) && (z <=? 2 ^ 63 - 1)) eqn:Hrange;
    [|reflexivity].
  exfalso. apply Hout.
  apply andb_true_iff in Hrange as [Hlo Hhi].
  apply Z.leb_le in Hlo, Hhi. split; assumption.
Qed.

(** ** Envelopes *)

Lemma decode_members_app (T : Type) (names : list string)
    (set : nat -> json -> T -> T * option error)
    (ms1 ms2 : list (string * json)) (st : T * option error) :
  decode_members names set (ms1 ++ ms2) st
  = decode_members names set ms2 (decode_members names set ms1 st).
Proof.
  revert st. induction ms1 as [|[k v] ms1 IH]; intros st; simpl.
  - reflexivity.
  - destruct (find_field names k) as [i|]; [|apply IH].
    destruct (set i v (fst st)) as [x e]. apply IH.
Qed.

(** An object with one member for a field, and no other member that is
    decoded into any field, is decoded by the setter of that field. *)
Lemma decode_members_single (T : Type) (names : list string)
    (set : nat -> json -> T -> T * option error)
    (ms1 ms2 : list (string * json)) (k : string) (v : json) (i : nat)
    (x : T) :
  (forall k' v', In (k', v') (ms1 ++ ms2) -> find_field names k' = None) ->
  find_field names k = Some i ->
  decode_members names set (ms1 ++ (k, v) :: ms2) (x, None) = set i v x.
Proof.
  intros Hother Hk.
  rewrite decode_members_app.
  rewrite (decode_members_unmatched names set (ms := ms1)).
  - simpl. rewrite Hk. simpl.
    destruct (set i v x) as [y e].
    apply decode_members_unmatched.
    apply Forall_forall. intros [k' v'] Hin. simpl.
    apply (Hother k' v'). apply in_or_app. right. exact Hin.
  - apply Forall_forall. intros [k' v'] Hin. simpl.
    apply (Hother k' v'). apply in_or_app. left. exact Hin.
Qed.

(** Into a slice that never held anything, the elements of an array are
    decoded one by one, in order, each into a zero value; the error is the
    earliest one. *)
Lemma decode_elems_map (T : Type) (zero : T)
    (elem : json -> T -> T * option error) (l : list json) :
  decode_elems zero elem l []
  = (map (fun j => fst (elem j zero)) l,
     first_error (map (fun j => snd (elem j zero)) l)).
Proof.
  induction l as [|j l IH]; simpl.
  - reflexivity.
  - rewrite IH. destruct (elem j zero) as [x e]. reflexivity.
Qed.

(** An array decoded into the nil slice. *)
Lemma decode_slice_nil (T : Type) (zero : T)
    (elem : json -> T -> T * option error) (ty : gotype) (l : list json) :
  decode_slice zero elem ty (JArray l) None
  = (Some (mkSlice (map (fun j => fst (elem j zero)) l) []),
     first_error (map (fun j => snd (elem j zero)) l)).
Proof.
  destruct l as [|j l]; [reflexivity|].
  unfold decode_slice. cbn [backing].
  rewrite decode_elems_map. destruct (length (j :: l)); reflexivity.
Qed.

Lemma find_field_single (key : string) : find_field [key] key = Some O.
Proof. unfold find_field. simpl. rewrite String.eqb_refl. reflexivity. Qed.

(** A request cycle for an envelope that holds the array [l]. *)
Lemma round_trip_envelope (World : Type)
    (http_Get : string -> World -> result Response * World)
    (json_scan : string -> result json) (T E : Type) (key : string)
    (set : nat -> json -> T -> T * option error) (ty : gotype) (zero : T)
    (project : T -> slice E) (zeroE : E)
    (elem : json -> E -> E * option error)
    (u : string) (w w' : World) (l : list json) :
  (forall j,
      project (fst (set O (JArray j) zero))
      = Some (mkSlice (map (fun j => fst (elem j zeroE)) j) [])
      /\ snd (set O (JArray j) zero)
         = first_error (map (fun j => snd (elem j zeroE)) j)) ->
  answers_envelope http_Get json_scan key u w l w' ->
  round_trip http_Get json_scan (decode_struct [key] set ty) zero project
    None u w
  = (match first_error (map (fun j => snd (elem j zeroE)) l) with
     | None => (Some (mkSlice (map (fun j => fst (elem j zeroE)) l) []), None)
     | Some e => (None, Some e)
     end, w').
Proof.
  intros Hset [response [ms1 [ms2 [Hget [Hread [Hscan Hother]]]]]].
  unfold round_trip. rewrite Hget, Hread, Hscan. simpl.
  rewrite (@decode_members_single _ [key] set ms1 ms2 key (JArray l) O zero
             Hother (find_field_single key)).
  destruct (Hset l) as [Hproj Herr].
  destruct (set O (JArray l) zero) as [x e]. simpl in Hproj, Herr.
  subst e. rewrite Hproj.
  destruct (first_error (map (fun j => snd (elem j zeroE)) l)); reflexivity.
Qed.

Lemma first_error_none (A : Type) (f : A -> option error) (l : list A) :
  (forall a, f a = None) -> first_error (map f l) = None.
Proof.
  intros H. induction l as [|a l IH]; [reflexivity|].
  simpl. rewrite H. exact IH.
Qed.

(** The objects of the entities decode to the entities. *)
Lemma decode_artist_object (a : string * string) :
  decode_Artist (artist_object a) Artist_zero = (artist_of a, None).
Proof. reflexivity. Qed.

Lemma decode_release_object (r : string * string * string) :
  decode_Release (release_object r) Release_zero = (release_of r, None).
Proof. reflexivity. Qed.

Lemma decode_recording_object (r : string * string * string) :
  decode_Recording (recording_object r) Recording_zero
  = (recording_of r, None).
Proof. reflexivity. Qed.

(** An array of such objects decodes to the list of the entities. *)
Lemma decode_objects (A E : Type) (zeroE : E)
    (elem : json -> E -> E * option error) (object : A -> json)
    (entity : A -> E) (l : list A) :
  (forall a, elem (object a) zeroE = (entity a, None)) ->
  match first_error (map (fun j => snd (elem j zeroE)) (map object l)) with
  | None =>
      (Some (mkSlice (map (fun j => fst (elem j zeroE)) (map object l)) []),
       @None error)
  | Some e => (None, Some e)
  end
  = (Some (mkSlice (map entity l) []), None).
Proof.
  intros H. rewrite !map_map.
  rewrite first_error_none by (intros a; rewrite H; reflexivity).
  do 3 f_equal. apply map_ext. intros a. rewrite H. reflexivity.
Qed.

(** The three envelopes of the package. *)
Lemma Artists_envelope (World : Type)
    (http_Get : string -> World -> result Response * World)
    (json_scan : string -> result json) (u : string) (w w' : World)
    (l : list json) :
  answers_envelope http_Get json_scan "artists" u w l w' ->
  round_trip http_Get json_scan decode_ArtistsResult ArtistsResult_zero
    Artists None u w
  = (match first_error (map (fun j => snd (decode_Artist j Artist_zero)) l) with
     | None =>
         (Some (mkSlice (map (fun j => fst (decode_Artist j Artist_zero)) l)
                        []), None)
     | Some e => (None, Some e)
     end, w').
Proof.
  intros Hans.
  apply (round_trip_envelope (key := "artists") ArtistsResult_set
           (go_struct [("Artists", go_slice (go_named "musicbrainz.Artist"))])
           ArtistsResult_zero Artists Artist_zero decode_Artist);
    [intros j; cbn [ArtistsResult_set Artists ArtistsResult_zero fst snd];
     rewrite decode_slice_nil; split; reflexivity
    |exact Hans].
Qed.

Lemma Releases_envelope (World : Type)
    (http_Get : string -> World -> result Response * World)
    (json_scan : string -> result json) (u : string) (w w' : World)
    (l : list json) :
  answers_envelope http_Get json_scan "releases" u w l w' ->
  round_trip http_Get json_scan decode_ReleasesResult ReleasesResult_zero
    Releases None u w
  = (match first_error
             (map (fun j => snd (decode_Release j Release_zero)) l) with
     | None =>
         (Some (mkSlice (map (fun j => fst (decode_Release j Release_zero)) l)
                        []), None)
     | Some e => (None, Some e)
     end, w').
Proof.
  intros Hans.
  apply (round_trip_envelope (key := "releases") ReleasesResult_set
           (go_struct [("Releases", go_slice (go_named "musicbrainz.Release"))])
           ReleasesResult_zero Releases Release_zero decode_Release);
    [intros j; cbn [ReleasesResult_set Releases ReleasesResult_zero fst snd];
     rewrite decode_slice_nil; split; reflexivity
    |exact Hans].
Qed.

Lemma Recordings_envelope (World : Type)
    (http_Get : string -> World -> result Response * World)
    (json_scan : string -> result json) (u : string) (w w' : World)
    (l : list json) :
  answers_envelope http_Get json_scan "recordings" u w l w' ->
  round_trip http_Get json_scan decode_RecordingsResult RecordingsResult_zero
    Recordings None u w
  = (match first_error
             (map (fun j => snd (decode_Recording j Recording_zero)) l) with
     | None =>
         (Some (mkSlice
                  (map (fun j => fst (decode_Recording j Recording_zero)) l)
                  []), None)
     | Some e => (None, Some e)
     end, w').
Proof.
  intros Hans.
  apply (round_trip_envelope (key := "recordings") RecordingsResult_set
           (go_struct
              [("Recordings", go_slice (go_named "musicbrainz.Recording"))])
           RecordingsResult_zero Recordings Recording_zero decode_Recording);
    [intros j;
     cbn [RecordingsResult_set Recordings RecordingsResult_zero fst snd];
     rewrite decode_slice_nil; split; reflexivity
    |exact Hans].
Qed.

(* ================================================================= *)
(** * The claims of the specification *)

Section Claims.
Variable World : Type.
Variable http_Get : string -> World -> result Response * World.
Variable json_scan : string -> result json.

(** A decoded search is a request cycle that ended without error. *)
Lemma search_decoded_round_trip (title artist album : string) (w w1 : World)
    (result : RecordingsResult) :
  search_decoded http_Get json_scan title artist album w result w1 ->
  round_trip http_Get json_scan decode_RecordingsResult RecordingsResult_zero
    Recordings None (tags_query_url title artist album) w
  = ((Recordings result, None), w1).
Proof.
  intros [response [Hget [Hread Hdec]]].
  unfold round_trip. rewrite Hget, Hread.
  unfold json_Unmarshal in Hdec.
  destruct (json_scan (read_data (Body response))); [|discriminate].
  rewrite Hdec. reflexivity.
Qed.

(** C1.  [GetTagsByTitleAndArtistAndAlbum] is a strict-match helper.
    Whenever the search was decoded into a slice of recordings whose
    length is not one (none, or two or more), the result is the nil tag
    slice, the empty date and the error made by [errors.New]; and whenever
    the operation returns a nil error, the search was decoded into exactly
    one recording. *)
Theorem GetTags_strict_match (title artist album : string) (w : World) :
  (forall result w1,
      search_decoded http_Get json_scan title artist album w result w1 ->
      len (Recordings result) <> 1%nat ->
      GetTagsByTitleAndArtistAndAlbum http_Get json_scan title artist album w
      = ((None, "", Some (errors_New "MusicBrainz didn't find the song")),
         w1))
  /\ (forall tags date w',
         GetTagsByTitleAndArtistAndAlbum http_Get json_scan title artist
                                         album w
         = ((tags, date, None), w') ->
         exists result w1,
           search_decoded http_Get json_scan title artist album w result w1
           /\ len (Recordings result) = 1%nat).
Proof.
  split.
  - intros result w1 Hdec Hlen.
    rewrite GetTags_after_search, (search_decoded_round_trip Hdec).
    unfold len in Hlen.
    destruct (elements (Recordings result)) as [|first [|second rest]];
      try reflexivity.
    exfalso. apply Hlen. reflexivity.
  - intros tags date w' Hrun.
    pose proof (GetTags_outcome http_Get json_scan title artist album w)
      as Hout.
    rewrite Hrun in Hout. inversion Hout; subst.
    do 2 eexists. split; [eassumption|].
    apply len_one. eexists. eassumption.
Qed.

(** C2.  When the search was decoded into exactly one recording, the
    helper looks that recording up by its ID, a request cycle at
    [recording/<ID>?fmt=json], and when the lookup succeeds it returns the
    tags and the first release date of the recording that the lookup
    fetched, with a nil error. *)
Theorem GetTags_single_match (title artist album : string) (w w1 w2 : World)
    (result : RecordingsResult) (first recording : Recording) :
  search_decoded http_Get json_scan title artist album w result w1 ->
  elements (Recordings result) = [first] ->
  GetRecordingByIDWithTags http_Get json_scan (Recording_ID first) w1
  = ((Some recording, None), w2) ->
  GetTagsByTitleAndArtistAndAlbum http_Get json_scan title artist album w
  = ((Recording_Tags recording, Recording_ReleaseDate recording, None), w2)
  /\ GetRecordingByIDWithTags http_Get json_scan (Recording_ID first) w1
     = round_trip http_Get json_scan decode_Recording Recording_zero
         (@Some Recording) None
         (MusicBrainzAPIEndpoint ++ "recording/" ++ Recording_ID first
            ++ "?fmt=json") w1.
Proof.
  intros Hdec Hone Hlookup. split.
  - rewrite GetTags_after_search, (search_decoded_round_trip Hdec), Hone,
      Hlookup.
    reflexivity.
  - apply GetRecordingByIDWithTags_cycle.
Qed.

(** C4.  [GetRecordingByIDWithTags] and [GetRecordingByID] are the same
    operation: for every id, every network and every world they return
    the same recording, the same error and leave the same world. *)
Theorem GetRecordingByIDWithTags_same (id : string) (w : World) :
  GetRecordingByIDWithTags http_Get json_scan id w
  = GetRecordingByID http_Get json_scan id w.
Proof.
  rewrite GetRecordingByIDWithTags_cycle, GetRecordingByID_cycle.
  reflexivity.
Qed.

(** C5.  [SearchRecordingsByTitleAndArtist] is one request cycle at the
    URL [recording/?query=<q>&limit=20&fmt=json] under the base endpoint,
    where [q] is the escaped text [recording:<title> artist:<artist>]:
    [q] holds only bytes that are safe in a query component, and
    unescaping [q] gives the text back.  The cycle decodes the field
    [recordings] of the envelope: when the answer is an object with an
    array under the key [recordings] (and no other member that is decoded
    into that field), the operation returns one recording per element of
    the array, in the order of the array, each the decoding of its element,
    with a nil error, or, when an element fails to decode, the nil slice
    and the earliest error; and when the elements are objects with an id,
    a title and a date of first release, it returns the recordings with
    these ids, titles and dates. *)
Theorem SearchRecordingsByTitleAndArtist_request (title artist : string)
    (w : World) :
  SearchRecordingsByTitleAndArtist http_Get json_scan title artist w
  = round_trip http_Get json_scan decode_RecordingsResult
      RecordingsResult_zero Recordings None
      ("https://musicbrainz.org/ws/2/" ++ "recording/?query="
         ++ url.QueryEscape ("recording:" ++ title ++ " artist:" ++ artist)
         ++ "&limit=20&fmt=json") w
  /\ url.safe_in_query
       (url.QueryEscape ("recording:" ++ title ++ " artist:" ++ artist))
     = true
  /\ url.QueryUnescape
       (url.QueryEscape ("recording:" ++ title ++ " artist:" ++ artist))
     = Some ("recording:" ++ title ++ " artist:" ++ artist)
  /\ (forall l w',
         answers_envelope http_Get json_scan "recordings"
           ("https://musicbrainz.org/ws/2/" ++ "recording/?query="
              ++ url.QueryEscape
                   ("recording:" ++ title ++ " artist:" ++ artist)
              ++ "&limit=20&fmt=json") w l w' ->
         SearchRecordingsByTitleAndArtist http_Get json_scan title artist w
         = (match first_error
                    (map (fun j => snd (decode_Recording j Recording_zero))
                         l) with
            | None =>
                (Some (mkSlice
                         (map (fun j => fst (decode_Recording j Recording_zero))
                              l) []),
                 None)
            | Some e => (None, Some e)
            end, w'))
  /\ (forall rs w',
         answers_envelope http_Get json_scan "recordings"
           ("https://musicbrainz.org/ws/2/" ++ "recording/?query="
              ++ url.QueryEscape
                   ("recording:" ++ title ++ " artist:" ++ artist)
              ++ "&limit=20&fmt=json") w (map recording_object rs) w' ->
         SearchRecordingsByTitleAndArtist http_Get json_scan title artist w
         = ((Some (mkSlice (map recording_of rs) []), None), w')).
Proof.
  split; [apply SearchRecordingsByTitleAndArtist_cycle|].
  split; [apply QueryEscape_safe|].
  split; [apply QueryUnescape_QueryEscape|].
  split.
  - intros l w' Hans.
    rewrite SearchRecordingsByTitleAndArtist_cycle.
    apply Recordings_envelope. exact Hans.
  - intros rs w' Hans.
    rewrite SearchRecordingsByTitleAndArtist_cycle.
    etransitivity; [exact (Recordings_envelope Hans)|].
    rewrite (decode_objects Recording_zero decode_Recording recording_object
               recording_of rs decode_recording_object).
    reflexivity.
Qed.

(** C6, as the code has it.  [SearchArtists] is one request cycle at the
    URL [artist/?fmt=json&limit=<n>&query=<escaped name>] under the base
    endpoint: the three parameters and nothing else, in the order of their
    keys.  [<n>] is the decimal numeral of the limit, which reads back as
    the limit, and the escaped name holds only bytes that are safe in a
    query component and unescapes to the name.  The cycle decodes the field
    [artists] of the envelope: when the answer is an object with an array
    under the key [artists] (and no other member that is decoded into that
    field), the operation returns one artist per element of the array, in
    the order of the array, each the decoding of its element, with a nil
    error, or, when an element fails to decode, the nil slice and the
    earliest error; and when the elements are objects with an id and a
    name, it returns the artists with these ids and names.
    [SearchReleases] and [SearchRecordings] do the same at [release/] and
    [recording/] with the fields [releases] and [recordings]. *)
Theorem simple_search_request (text : string) (limit : Z) (w : World) :
  (SearchArtists http_Get json_scan text limit w
   = round_trip http_Get json_scan decode_ArtistsResult ArtistsResult_zero
       Artists None
       ("https://musicbrainz.org/ws/2/" ++ "artist/" ++ "?fmt=json&limit="
          ++ strconv_Itoa limit ++ "&query=" ++ url.QueryEscape text) w
   /\ SearchReleases http_Get json_scan text limit w
      = round_trip http_Get json_scan decode_ReleasesResult
          ReleasesResult_zero Releases None
          ("https://musicbrainz.org/ws/2/" ++ "release/" ++ "?fmt=json&limit="
             ++ strconv_Itoa limit ++ "&query=" ++ url.QueryEscape text) w
   /\ SearchRecordings http_Get json_scan text limit w
      = round_trip http_Get json_scan decode_RecordingsResult
          RecordingsResult_zero Recordings None
          ("https://musicbrainz.org/ws/2/" ++ "recording/"
             ++ "?fmt=json&limit=" ++ strconv_Itoa limit ++ "&query="
             ++ url.QueryEscape text) w)
  /\ (url.safe_in_query (url.QueryEscape text) = true
      /\ url.QueryUnescape (url.QueryEscape text) = Some text
      /\ (int64 limit -> strconv_ParseInt (strconv_Itoa limit) = Some limit))
  /\ (forall l w',
         (answers_envelope http_Get json_scan "artists"
            ("https://musicbrainz.org/ws/2/" ++ "artist/"
               ++ "?fmt=json&limit=" ++ strconv_Itoa limit ++ "&query="
               ++ url.QueryEscape text) w l w' ->
          SearchArtists http_Get json_scan text limit w
          = (match first_error
                     (map (fun j => snd (decode_Artist j Artist_zero)) l) with
             | None =>
                 (Some (mkSlice
                          (map (fun j => fst (decode_Artist j Artist_zero)) l)
                          []),
                  None)
             | Some e => (None, Some e)
             end, w'))
         /\ (answers_envelope http_Get json_scan "releases"
               ("https://musicbrainz.org/ws/2/" ++ "release/"
                  ++ "?fmt=json&limit=" ++ strconv_Itoa limit ++ "&query="
                  ++ url.QueryEscape text) w l w' ->
             SearchReleases http_Get json_scan text limit w
             = (match first_error
                        (map (fun j => snd (decode_Release j Release_zero))
                             l) with
                | None =>
                    (Some (mkSlice
                             (map (fun j => fst (decode_Release j Release_zero))
                                  l) []),
                     None)
                | Some e => (None, Some e)
                end, w'))
         /\ (answers_envelope http_Get json_scan "recordings"
               ("https://musicbrainz.org/ws/2/" ++ "recording/"
                  ++ "?fmt=json&limit=" ++ strconv_Itoa limit ++ "&query="
                  ++ url.QueryEscape text) w l w' ->
             SearchRecordings http_Get json_scan text limit w
             = (match first_error
                        (map (fun j => snd (decode_Recording j Recording_zero))
                             l) with
                | None =>
                    (Some (mkSlice
                             (map (fun j =>
                                     fst (decode_Recording j Recording_zero))
                                  l) []),
                     None)
                | Some e => (None, Some e)
                end, w')))
  /\ (forall w',
         (forall artists,
             answers_envelope http_Get json_scan "artists"
               ("https://musicbrainz.org/ws/2/" ++ "artist/"
                  ++ "?fmt=json&limit=" ++ strconv_Itoa limit ++ "&query="
                  ++ url.QueryEscape text) w (map artist_object artists) w' ->
             SearchArtists http_Get json_scan text limit w
             = ((Some (mkSlice (map artist_of artists) []), None), w'))
         /\ (forall releases,
                answers_envelope http_Get json_scan "releases"
                  ("https://musicbrainz.org/ws/2/" ++ "release/"
                     ++ "?fmt=json&limit=" ++ strconv_Itoa limit ++ "&query="
                     ++ url.QueryEscape text) w
                  (map release_object releases) w' ->
                SearchReleases http_Get json_scan text limit w
                = ((Some (mkSlice (map release_of releases) []), None), w'))
         /\ (forall recordings,
                answers_envelope http_Get json_scan "recordings"
                  ("https://musicbrainz.org/ws/2/" ++ "recording/"
                     ++ "?fmt=json&limit=" ++ strconv_Itoa limit ++ "&query="
                     ++ url.QueryEscape text) w
                  (map recording_object recordings) w' ->
                SearchRecordings http_Get json_scan text limit w
                = ((Some (mkSlice (map recording_of recordings) []), None),
                   w'))).
Proof.
  split; [|split; [|split]].
  - repeat split.
    + apply SearchArtists_cycle.
    + apply SearchReleases_cycle.
    + apply SearchRecordings_cycle.
  - split; [apply QueryEscape_safe|].
    split; [apply QueryUnescape_QueryEscape|apply ParseInt_Itoa_int64].
  - intros l w'. split; [|split]; intros Hans.
    + rewrite SearchArtists_cycle. apply Artists_envelope. exact Hans.
    + rewrite SearchReleases_cycle. apply Releases_envelope. exact Hans.
    + rewrite SearchRecordings_cycle. apply Recordings_envelope. exact Hans.
  - intros w'. split; [|split]; intros l Hans.
    + rewrite SearchArtists_cycle.
      etransitivity; [exact (Artists_envelope Hans)|].
      f_equal.
      apply (decode_objects Artist_zero decode_Artist artist_object
               artist_of l decode_artist_object).
    + rewrite SearchReleases_cycle.
      etransitivity; [exact (Releases_envelope Hans)|].
      f_equal.
      apply (decode_objects Release_zero decode_Release release_object
               release_of l decode_release_object).
    + rewrite SearchRecordings_cycle.
      etransitivity; [exact (Recordings_envelope Hans)|].
      f_equal.
      apply (decode_objects Recording_zero decode_Recording recording_object
               recording_of l decode_recording_object).
Qed.

(** C8.  Every run of every operation is a request cycle that ends in one
    of the four ways of [cycle_outcome]: the transport failed, the reading
    of the body failed, the decoding failed, each with the nil result and
    the very error of the failing step after the one GET, or the cycle
    succeeded with a nil error.  The strict-match helper ends in one of
    the ways of [tags_outcome]: its search failed or its lookup failed,
    with the nil results and the error of the failing cycle, or it found
    no single match, or it succeeded with a nil error. *)
Theorem errors_propagate_unchanged :
  (forall name limit w,
      cycle_outcome http_Get json_scan decode_ArtistsResult ArtistsResult_zero
        Artists None
        (MusicBrainzAPIEndpoint ++ "artist/?fmt=json&limit="
           ++ strconv_Itoa limit ++ "&query=" ++ url.QueryEscape name) w
        (SearchArtists http_Get json_scan name limit w))
  /\ (forall id w,
         cycle_outcome http_Get json_scan decode_Artist Artist_zero
           (@Some Artist) None
           (MusicBrainzAPIEndpoint ++ "artist/" ++ id ++ "?fmt=json") w
           (GetArtistByID http_Get json_scan id w))
  /\ (forall title limit w,
         cycle_outcome http_Get json_scan decode_ReleasesResult
           ReleasesResult_zero Releases None
           (MusicBrainzAPIEndpoint ++ "release/?fmt=json&limit="
              ++ strconv_Itoa limit ++ "&query=" ++ url.QueryEscape title) w
           (SearchReleases http_Get json_scan title limit w))
  /\ (forall id w,
         cycle_outcome http_Get json_scan decode_Release Release_zero
           (@Some Release) None
           (MusicBrainzAPIEndpoint ++ "release/" ++ id ++ "?fmt=json") w
           (GetReleaseByID http_Get json_scan id w))
  /\ (forall title limit w,
         cycle_outcome http_Get json_scan decode_RecordingsResult
           RecordingsResult_zero Recordings None
           (MusicBrainzAPIEndpoint ++ "recording/?fmt=json&limit="
              ++ strconv_Itoa limit ++ "&query=" ++ url.QueryEscape title) w
           (SearchRecordings http_Get json_scan title limit w))
  /\ (forall id w,
         cycle_outcome http_Get json_scan decode_Recording Recording_zero
           (@Some Recording) None
           (MusicBrainzAPIEndpoint ++ "recording/" ++ id ++ "?fmt=json") w
           (GetRecordingByID http_Get json_scan id w))
  /\ (forall title artist w,
         cycle_outcome http_Get json_scan decode_RecordingsResult
           RecordingsResult_zero Recordings None
           (MusicBrainzAPIEndpoint ++ "recording/?query="
              ++ url.QueryEscape
                   ("recording:" ++ title ++ " artist:" ++ artist)
              ++ "&limit=20&fmt=json") w
           (SearchRecordingsByTitleAndArtist http_Get json_scan title artist
                                             w))
  /\ (forall id w,
         cycle_outcome http_Get json_scan decode_Recording Recording_zero
           (@Some Recording) None
           (MusicBrainzAPIEndpoint ++ "recording/" ++ id ++ "?fmt=json") w
           (GetRecordingByIDWithTags http_Get json_scan id w))
  /\ (forall title artist album w,
         tags_outcome http_Get json_scan title artist album w
           (GetTagsByTitleAndArtistAndAlbum http_Get json_scan title artist
                                            album w)).
Proof.
  repeat split; intros.
  - rewrite SearchArtists_cycle. apply round_trip_outcome.
  - rewrite GetArtistByID_cycle. apply round_trip_outcome.
  - rewrite SearchReleases_cycle. apply round_trip_outcome.
  - rewrite GetReleaseByID_cycle. apply round_trip_outcome.
  - rewrite SearchRecordings_cycle. apply round_trip_outcome.
  - rewrite GetRecordingByID_cycle. apply round_trip_outcome.
  - rewrite SearchRecordingsByTitleAndArtist_cycle. apply round_trip_outcome.
  - rewrite GetRecordingByIDWithTags_cycle. apply round_trip_outcome.
  - apply GetTags_outcome.
Qed.

(** C9.  The four lookups put the id into the path as it is: each is one
    request cycle at [<base><entity>/<id>?fmt=json], whatever the id; for
    the empty id that is [<base><entity>/?fmt=json]. *)
Theorem lookup_by_id_request (id : string) (w : World) :
  (GetArtistByID http_Get json_scan id w
   = round_trip http_Get json_scan decode_Artist Artist_zero
       (@Some Artist) None
       ("https://musicbrainz.org/ws/2/" ++ "artist/" ++ id ++ "?fmt=json") w
   /\ GetReleaseByID http_Get json_scan id w
      = round_trip http_Get json_scan decode_Release Release_zero
          (@Some Release) None
          ("https://musicbrainz.org/ws/2/" ++ "release/" ++ id
             ++ "?fmt=json") w
   /\ GetRecordingByID http_Get json_scan id w
      = round_trip http_Get json_scan decode_Recording Recording_zero
          (@Some Recording) None
          ("https://musicbrainz.org/ws/2/" ++ "recording/" ++ id
             ++ "?fmt=json") w
   /\ GetRecordingByIDWithTags http_Get json_scan id w
      = round_trip http_Get json_scan decode_Recording Recording_zero
          (@Some Recording) None
          ("https://musicbrainz.org/ws/2/" ++ "recording/" ++ id
             ++ "?fmt=json") w)
  /\ (GetArtistByID http_Get json_scan "" w
      = round_trip http_Get json_scan decode_Artist Artist_zero
          (@Some Artist) None
          "https://musicbrainz.org/ws/2/artist/?fmt=json" w
      /\ GetReleaseByID http_Get json_scan "" w
         = round_trip http_Get json_scan decode_Release Release_zero
             (@Some Release) None
             "https://musicbrainz.org/ws/2/release/?fmt=json" w
      /\ GetRecordingByID http_Get json_scan "" w
         = round_trip http_Get json_scan decode_Recording Recording_zero
             (@Some Recording) None
             "https://musicbrainz.org/ws/2/recording/?fmt=json" w
      /\ GetRecordingByIDWithTags http_Get json_scan "" w
         = round_trip http_Get json_scan decode_Recording Recording_zero
             (@Some Recording) None
             "https://musicbrainz.org/ws/2/recording/?fmt=json" w).
Proof.
  repeat split.
  - apply GetArtistByID_cycle.
  - apply GetReleaseByID_cycle.
  - apply GetRecordingByID_cycle.
  - apply GetRecordingByIDWithTags_cycle.
  - apply GetArtistByID_cycle.
  - apply GetReleaseByID_cycle.
  - apply GetRecordingByID_cycle.
  - apply GetRecordingByIDWithTags_cycle.
Qed.

(** C10, as the code has it.  [GetTagsByTitleAndArtistAndAlbum] never
    returns tags or a date together with an error: in every run the error
    is nil, or the tag slice is nil and the date is empty (and both can
    hold at once). *)
Theorem GetTags_result_or_error (title artist album : string) (w : World) :
  let '((tags, date, err), _) :=
    GetTagsByTitleAndArtistAndAlbum http_Get json_scan title artist album w
  in err = None \/ (tags = None /\ date = "").
Proof.
  pose proof (GetTags_outcome http_Get json_scan title artist album w)
    as Hout.
  destruct (GetTagsByTitleAndArtistAndAlbum http_Get json_scan title artist
              album w) as [[[tags date] err] w'].
  inversion Hout; subst; auto.
Qed.

End Claims.

(** ** Status codes and error bodies *)

Lemma round_trip_with_status (World : Type)
    (http_Get : string -> World -> result Response * World)
    (json_scan : string -> result json) (f : Z -> Z) (T R : Type)
    (decode : json -> T -> T * option error) (zero : T) (project : T -> R)
    (nil : R) (u : string) (w : World) :
  round_trip (with_status f http_Get) json_scan decode zero project nil u w
  = round_trip http_Get json_scan decode zero project nil u w.
Proof.
  unfold round_trip, with_status.
  destruct (http_Get u w) as [[response|e] w']; reflexivity.
Qed.

(** An error object has no member for any field whose key is neither
    [error] nor [help]: it decodes to the value the variable held. *)
Lemma error_object_decodes (T : Type) (names : list string)
    (set : nat -> json -> T -> T * option error) (ty : gotype) (zero : T)
    (j : json) :
  find_field names "error" = None ->
  find_field names "help" = None ->
  error_object j ->
  decode_struct names set ty j zero = (zero, None).
Proof.
  intros He Hh [ms [-> Hms]]. simpl.
  apply decode_members_unmatched.
  eapply Forall_impl; [|exact Hms].
  intros [k v] [Hk|Hk]; simpl in *; subst k; assumption.
Qed.

Lemma round_trip_error_object (World : Type)
    (http_Get : string -> World -> result Response * World)
    (json_scan : string -> result json) (T R : Type)
    (decode : json -> T -> T * option error) (zero : T) (project : T -> R)
    (nil : R) (u : string) (w : World) :
  (forall j, error_object j -> decode j zero = (zero, None)) ->
  answers_error_object http_Get json_scan u w ->
  fst (round_trip http_Get json_scan decode zero project nil u w)
  = (project zero, None).
Proof.
  intros Hdec [response [w' [j [Hget [Hread [Hscan Hobj]]]]]].
  unfold round_trip. rewrite Hget, Hread, Hscan, (Hdec j Hobj). reflexivity.
Qed.

Lemma error_object_Artist (j : json) :
  error_object j -> decode_Artist j Artist_zero = (Artist_zero, None).
Proof.
  intros H. rewrite decode_Artist_unfold.
  apply error_object_decodes; [reflexivity | reflexivity | exact H].
Qed.

Lemma error_object_Release (j : json) :
  error_object j -> decode_Release j Release_zero = (Release_zero, None).
Proof.
  intros H. apply error_object_decodes; [reflexivity | reflexivity | exact H].
Qed.

Lemma error_object_Recording (j : json) :
  error_object j -> decode_Recording j Recording_zero = (Recording_zero, None).
Proof.
  intros H. apply error_object_decodes; [reflexivity | reflexivity | exact H].
Qed.

Lemma error_object_ArtistsResult (j : json) :
  error_object j ->
  decode_ArtistsResult j ArtistsResult_zero = (ArtistsResult_zero, None).
Proof.
  intros H. apply error_object_decodes; [reflexivity | reflexivity | exact H].
Qed.

Lemma error_object_ReleasesResult (j : json) :
  error_object j ->
  decode_ReleasesResult j ReleasesResult_zero = (ReleasesResult_zero, None).
Proof.
  intros H. apply error_object_decodes; [reflexivity | reflexivity | exact H].
Qed.

Lemma error_object_RecordingsResult (j : json) :
  error_object j ->
  decode_RecordingsResult j RecordingsResult_zero
  = (RecordingsResult_zero, None).
Proof.
  intros H. apply error_object_decodes; [reflexivity | reflexivity | exact H].
Qed.

Ltac error_cycle Hdec Hall :=
  match goal with
  | |- fst (round_trip ?g ?s ?d ?z ?p ?n ?u ?w) = _ =>
      exact (@round_trip_error_object _ g s _ _ d z p n u w Hdec (Hall u w))
  end.

Lemma GetTags_with_status (World : Type)
    (http_Get : string -> World -> result Response * World)
    (json_scan : string -> result json) (f : Z -> Z)
    (title artist album : string) (w : World) :
  GetTagsByTitleAndArtistAndAlbum (with_status f http_Get) json_scan
    title artist album w
  = GetTagsByTitleAndArtistAndAlbum http_Get json_scan title artist album w.
Proof.
  rewrite !GetTags_after_search, round_trip_with_status.
  destruct (round_trip http_Get json_scan decode_RecordingsResult
              RecordingsResult_zero Recordings None
              (tags_query_url title artist album) w)
    as [[recs [e|]] w1]; try reflexivity.
  destruct (elements recs) as [|first [|second rest]]; try reflexivity.
  rewrite !GetRecordingByIDWithTags_cycle, round_trip_with_status.
  reflexivity.
Qed.

(** C3.  No operation looks at the status code: with the status of every
    answer replaced by any other, every operation returns what it returned
    before.  A body that is an error object of the service is unmarshalled
    into the zero value of every target with a nil error; so when the
    service answers with error objects, under whatever status, the
    searches return the nil slice and the lookups the zero entity, with a
    nil error, and the strict-match helper, whose search then decodes to
    no recording, returns the error it returns for no match. *)
Theorem status_code_ignored (World : Type)
    (http_Get : string -> World -> result Response * World)
    (json_scan : string -> result json) :
  (forall (f : Z -> Z) (w : World),
      (forall name limit,
          SearchArtists (with_status f http_Get) json_scan name limit w
          = SearchArtists http_Get json_scan name limit w)
      /\ (forall id,
             GetArtistByID (with_status f http_Get) json_scan id w
             = GetArtistByID http_Get json_scan id w)
      /\ (forall title limit,
             SearchReleases (with_status f http_Get) json_scan title limit w
             = SearchReleases http_Get json_scan title limit w)
      /\ (forall id,
             GetReleaseByID (with_status f http_Get) json_scan id w
             = GetReleaseByID http_Get json_scan id w)
      /\ (forall title limit,
             SearchRecordings (with_status f http_Get) json_scan title limit w
             = SearchRecordings http_Get json_scan title limit w)
      /\ (forall id,
             GetRecordingByID (with_status f http_Get) json_scan id w
             = GetRecordingByID http_Get json_scan id w)
      /\ (forall title artist,
             SearchRecordingsByTitleAndArtist (with_status f http_Get)
               json_scan title artist w
             = SearchRecordingsByTitleAndArtist http_Get json_scan title
                 artist w)
      /\ (forall title artist album,
             GetTagsByTitleAndArtistAndAlbum (with_status f http_Get)
               json_scan title artist album w
             = GetTagsByTitleAndArtistAndAlbum http_Get json_scan title
                 artist album w)
      /\ (forall id,
             GetRecordingByIDWithTags (with_status f http_Get) json_scan id w
             = GetRecordingByIDWithTags http_Get json_scan id w))
  /\ (forall body j,
         json_scan body = Ok j ->
         error_object j ->
         json_Unmarshal json_scan decode_ArtistsResult body ArtistsResult_zero
         = (ArtistsResult_zero, None)
         /\ json_Unmarshal json_scan decode_Artist body Artist_zero
            = (Artist_zero, None)
         /\ json_Unmarshal json_scan decode_ReleasesResult body
                           ReleasesResult_zero
            = (ReleasesResult_zero, None)
         /\ json_Unmarshal json_scan decode_Release body Release_zero
            = (Release_zero, None)
         /\ json_Unmarshal json_scan decode_RecordingsResult body
                           RecordingsResult_zero
            = (RecordingsResult_zero, None)
         /\ json_Unmarshal json_scan decode_Recording body Recording_zero
            = (Recording_zero, None))
  /\ ((forall u w, answers_error_object http_Get json_scan u w) ->
      forall w,
        (forall name limit,
            fst (SearchArtists http_Get json_scan name limit w)
            = (None, None))
        /\ (forall id,
               fst (GetArtistByID http_Get json_scan id w)
               = (Some Artist_zero, None))
        /\ (forall title limit,
               fst (SearchReleases http_Get json_scan title limit w)
               = (None, None))
        /\ (forall id,
               fst (GetReleaseByID http_Get json_scan id w)
               = (Some Release_zero, None))
        /\ (forall title limit,
               fst (SearchRecordings http_Get json_scan title limit w)
               = (None, None))
        /\ (forall id,
               fst (GetRecordingByID http_Get json_scan id w)
               = (Some Recording_zero, None))
        /\ (forall title artist,
               fst (SearchRecordingsByTitleAndArtist http_Get json_scan
                      title artist w)
               = (None, None))
        /\ (forall id,
               fst (GetRecordingByIDWithTags http_Get json_scan id w)
               = (Some Recording_zero, None))
        /\ (forall title artist album,
               fst (GetTagsByTitleAndArtistAndAlbum http_Get json_scan
                      title artist album w)
               = (None, "",
                  Some (errors_New "MusicBrainz didn't find the song")))).
Proof.
  split; [|split].
  - intros f w. repeat split; intros.
    + rewrite !SearchArtists_cycle. apply round_trip_with_status.
    + rewrite !GetArtistByID_cycle. apply round_trip_with_status.
    + rewrite !SearchReleases_cycle. apply round_trip_with_status.
    + rewrite !GetReleaseByID_cycle. apply round_trip_with_status.
    + rewrite !SearchRecordings_cycle. apply round_trip_with_status.
    + rewrite !GetRecordingByID_cycle. apply round_trip_with_status.
    + rewrite !SearchRecordingsByTitleAndArtist_cycle.
      apply round_trip_with_status.
    + apply GetTags_with_status.
    + rewrite !GetRecordingByIDWithTags_cycle. apply round_trip_with_status.
  - intros body j Hscan Hobj. unfold json_Unmarshal. rewrite Hscan.
    repeat split.
    + apply error_object_ArtistsResult, Hobj.
    + apply error_object_Artist, Hobj.
    + apply error_object_ReleasesResult, Hobj.
    + apply error_object_Release, Hobj.
    + apply error_object_RecordingsResult, Hobj.
    + apply error_object_Recording, Hobj.
  - intros Hall w. repeat split; intros.
    + rewrite SearchArtists_cycle.
      error_cycle error_object_ArtistsResult Hall.
    + rewrite GetArtistByID_cycle.
      error_cycle error_object_Artist Hall.
    + rewrite SearchReleases_cycle.
      error_cycle error_object_ReleasesResult Hall.
    + rewrite GetReleaseByID_cycle.
      error_cycle error_object_Release Hall.
    + rewrite SearchRecordings_cycle.
      error_cycle error_object_RecordingsResult Hall.
    + rewrite GetRecordingByID_cycle.
      error_cycle error_object_Recording Hall.
    + rewrite SearchRecordingsByTitleAndArtist_cycle.
      error_cycle error_object_RecordingsResult Hall.
    + rewrite GetRecordingByIDWithTags_cycle.
      error_cycle error_object_Recording Hall.
    + rewrite GetTags_after_search.
      pose proof (@round_trip_error_object _ http_Get json_scan _ _
                    decode_RecordingsResult RecordingsResult_zero Recordings
                    None (tags_query_url title artist album) w
                    error_object_RecordingsResult (Hall _ w)) as H.
      destruct (round_trip http_Get json_scan decode_RecordingsResult
                  RecordingsResult_zero Recordings None
                  (tags_query_url title artist album) w) as [[recs e] w1].
      simpl in H. injection H as -> ->. reflexivity.
Qed.

(** ** Absent fields *)

(** C7, as the code has it.  The decoder of every struct of the package
    tolerates absence: the empty object gives the zero value with a nil
    error; a field that no member of the object is decoded into (no key
    equals the JSON name of the field, exactly or up to case) keeps its
    zero value; and taking members away from an object never turns a
    decoding without error into one with an error. *)
Theorem decoding_tolerates_absence :
  tolerates_absence Artist_schema decode_Artist Artist_zero
  /\ tolerates_absence Alias_schema decode_Alias Alias_zero
  /\ tolerates_absence Relation_schema decode_Relation Relation_zero
  /\ tolerates_absence Tag_schema decode_Tag Tag_zero
  /\ tolerates_absence Release_schema decode_Release Release_zero
  /\ tolerates_absence TextRepresentation_schema decode_TextRepresentation
       TextRepresentation_zero
  /\ tolerates_absence ArtistCredit_schema decode_ArtistCredit
       ArtistCredit_zero
  /\ tolerates_absence ArtistName_schema decode_ArtistName ArtistName_zero
  /\ tolerates_absence ReleaseGroup_schema decode_ReleaseGroup
       ReleaseGroup_zero
  /\ tolerates_absence CoverArtURL_schema decode_CoverArtURL CoverArtURL_zero
  /\ tolerates_absence GBImage_schema decode_GBImage GBImage_zero
  /\ tolerates_absence Recording_schema decode_Recording Recording_zero
  /\ tolerates_absence ArtistsResult_schema decode_ArtistsResult
       ArtistsResult_zero
  /\ tolerates_absence ReleasesResult_schema decode_ReleasesResult
       ReleasesResult_zero
  /\ tolerates_absence RecordingsResult_schema decode_RecordingsResult
       RecordingsResult_zero.
Proof.
  split; [exact decode_Artist_tolerates|].
  split; [apply decode_struct_tolerates;
          [exact Alias_set_error | exact Alias_set_own]|].
  split; [exact decode_Relation_tolerates|].
  split; [apply decode_struct_tolerates;
          [exact Tag_set_error | exact Tag_set_own]|].
  split; [apply decode_struct_tolerates;
          [exact Release_set_error | exact Release_set_own]|].
  split; [apply decode_struct_tolerates;
          [exact TextRepresentation_set_error
          | exact TextRepresentation_set_own]|].
  split; [apply decode_struct_tolerates;
          [exact ArtistCredit_set_error | exact ArtistCredit_set_own]|].
  split; [apply decode_struct_tolerates;
          [exact ArtistName_set_error | exact ArtistName_set_own]|].
  split; [apply decode_struct_tolerates;
          [exact ReleaseGroup_set_error | exact ReleaseGroup_set_own]|].
  split; [apply decode_struct_tolerates;
          [exact CoverArtURL_set_error | exact CoverArtURL_set_own]|].
  split; [apply decode_struct_tolerates;
          [exact GBImage_set_error | exact GBImage_set_own]|].
  split; [apply decode_struct_tolerates;
          [exact Recording_set_error | exact Recording_set_own]|].
  split; [apply decode_struct_tolerates;
          [exact ArtistsResult_set_error | exact ArtistsResult_set_own]|].
  split; [apply decode_struct_tolerates;
          [exact ReleasesResult_set_error | exact ReleasesResult_set_own]|].
  apply decode_struct_tolerates;
    [exact RecordingsResult_set_error | exact RecordingsResult_set_own].
Qed.

(* ================================================================= *)
(** * Runs against the test server *)

(** The example of section 8 of the specification. *)
Example SearchArtists_Radiohead :
  SearchArtists (Mock.Get Examples.radiohead) Mock.scan "Radiohead" 5 []
  = ((Some (mkSlice
              [mkArtist "a" "Radiohead" "" "" "" "" "" "" "" None None None]
              []),
      None),
     ["https://musicbrainz.org/ws/2/artist/?fmt=json&limit=5&query=Radiohead"]).
Proof. vm_compute. reflexivity. Qed.

(** An object that repeats a key of a slice: the second array is decoded
    into the elements that the first one left, so an empty object keeps
    the name [rock]; the element [pop] stays behind the length, and a third
    array that is longer than the second finds it there. *)
Example repeated_key_reuses_elements :
  json_Unmarshal Mock.scan decode_Recording
    (Mock.text
       "{'id':'r1','tags':[{'name':'rock'},{'name':'pop'}],'tags':[{}]}")
    Recording_zero
  = (mkRecording "r1" "" 0 "" None
       (Some (mkSlice [mkTag "rock"] [mkTag "pop"])) None None,
     None)
  /\ json_Unmarshal Mock.scan decode_Recording
       (Mock.text
          "{'tags':[{'name':'rock'},{'name':'pop'}],'tags':[{}],'tags':[{},{},{}]}")
       Recording_zero
     = (mkRecording "" "" 0 "" None
          (Some (mkSlice [mkTag "rock"; mkTag "pop"; mkTag ""] [])) None None,
        None)
  /\ json_Unmarshal Mock.scan decode_Recording
       (Mock.text "{'tags':[{'name':'rock'}],'tags':[],'tags':[{}]}")
       Recording_zero
     = (mkRecording "" "" 0 "" None (Some (mkSlice [mkTag ""] [])) None None,
        None).
Proof. repeat split; vm_compute; reflexivity. Qed.

(** A refused connection: one request, the error of the transport, no
    result. *)
Example SearchArtists_down :
  SearchArtists (Mock.Get Examples.down) Mock.scan "Radiohead" 5 []
  = ((None,
      Some (url_Error "Get"
              "https://musicbrainz.org/ws/2/artist/?fmt=json&limit=5&query=Radiohead"
              "connection refused")),
     ["https://musicbrainz.org/ws/2/artist/?fmt=json&limit=5&query=Radiohead"]).
Proof. vm_compute. reflexivity. Qed.

(** An id goes into the path as it is. *)
Example GetArtistByID_verbatim :
  snd (GetArtistByID (Mock.Get Examples.down) Mock.scan "a b/../c?inc=x#y" [])
  = ["https://musicbrainz.org/ws/2/artist/a b/../c?inc=x#y?fmt=json"].
Proof. vm_compute. reflexivity. Qed.

Example tags_query_url_Creep :
  tags_query_url "Creep" "Radiohead" "Pablo Honey" = Examples.creep_search.
Proof. vm_compute. reflexivity. Qed.

(** C1 at two matches and at no match. *)
Lemma GetTags_strict_match_witness :
  GetTagsByTitleAndArtistAndAlbum (Mock.Get Examples.two_matches) Mock.scan
    "Creep" "Radiohead" "Pablo Honey" []
  = ((None, "", Some (errors_New "MusicBrainz didn't find the song")),
     [Examples.creep_search])
  /\ GetTagsByTitleAndArtistAndAlbum (Mock.Get Examples.no_match) Mock.scan
       "Creep" "Radiohead" "Pablo Honey" []
     = ((None, "", Some (errors_New "MusicBrainz didn't find the song")),
        [Examples.creep_search]).
Proof.
  split.
  - apply (proj1 (GetTags_strict_match (Mock.Get Examples.two_matches)
                    Mock.scan "Creep" "Radiohead" "Pablo Honey" []))
      with (result := mkRecordingsResult
                        (Some (mkSlice
                           [mkRecording "r1" "" 0 "" None None None None;
                            mkRecording "r2" "" 0 "" None None None None]
                           []))).
    + eexists. split; [vm_compute; reflexivity|].
      split; vm_compute; reflexivity.
    + vm_compute. discriminate.
  - apply (proj1 (GetTags_strict_match (Mock.Get Examples.no_match)
                    Mock.scan "Creep" "Radiohead" "Pablo Honey" []))
      with (result := mkRecordingsResult (Some (mkSlice [] []))).
    + eexists. split; [vm_compute; reflexivity|].
      split; vm_compute; reflexivity.
    + vm_compute. discriminate.
Defined.

(** C2 at one match: the tags are those of the lookup, not those of the
    search answer. *)
Lemma GetTags_single_match_witness :
  GetTagsByTitleAndArtistAndAlbum (Mock.Get Examples.one_match) Mock.scan
    "Creep" "Radiohead" "Pablo Honey" []
  = ((Some (mkSlice [mkTag "rock"] []), "1992-09-21", None),
     [Examples.creep_lookup; Examples.creep_search]).
Proof.
  apply (proj1 (@GetTags_single_match _ (Mock.Get Examples.one_match)
                  Mock.scan "Creep" "Radiohead" "Pablo Honey" []
                  [Examples.creep_search]
                  [Examples.creep_lookup; Examples.creep_search]
                  (mkRecordingsResult
                     (Some (mkSlice
                        [mkRecording "r1" "Creep" 0 "" None
                           (Some (mkSlice [mkTag "from-search"] []))
                           None None] [])))
                  (mkRecording "r1" "Creep" 0 "" None
                     (Some (mkSlice [mkTag "from-search"] [])) None None)
                  (mkRecording "r1" "Creep" 0 "1992-09-21" None
                     (Some (mkSlice [mkTag "rock"] [])) None None)
                  (ex_intro _ _ (conj eq_refl (conj eq_refl eq_refl)))
                  eq_refl eq_refl)).
Defined.

(** C5 at the search for Creep of Radiohead: the request, and the two
    recordings of the envelope. *)
Lemma SearchRecordingsByTitleAndArtist_request_witness :
  SearchRecordingsByTitleAndArtist (Mock.Get Examples.creep_of_radiohead)
    Mock.scan "Creep" "Radiohead" []
  = ((Some (mkSlice
              [mkRecording "r1" "Creep" 0 "1992-09-21" None None None None;
               mkRecording "r2" "Creep (acoustic)" 0 "1993" None None None
                           None]
              []),
      None),
     ["https://musicbrainz.org/ws/2/recording/?query=recording%3ACreep+artist%3ARadiohead&limit=20&fmt=json"]).
Proof.
  apply (proj2 (proj2 (proj2 (proj2
           (@SearchRecordingsByTitleAndArtist_request _
              (Mock.Get Examples.creep_of_radiohead) Mock.scan
              "Creep" "Radiohead" []))))
           [("r1", "Creep", "1992-09-21"); ("r2", "Creep (acoustic)", "1993")]).
  eexists _, [("count", JNumber "2")], []. split; [reflexivity|].
  split; [reflexivity|].
  split; [vm_compute; reflexivity|].
  intros k v [H|[]]. injection H as <- _. reflexivity.
Defined.

(** C6 at the example of section 8 of the specification: the request,
    the artist of the envelope, and the limit read back. *)
Lemma simple_search_request_witness :
  SearchArtists (Mock.Get Examples.radiohead) Mock.scan "Radiohead" 5 []
  = ((Some (mkSlice
              [mkArtist "a" "Radiohead" "" "" "" "" "" "" "" None None None]
              []),
      None),
     ["https://musicbrainz.org/ws/2/artist/?fmt=json&limit=5&query=Radiohead"])
  /\ strconv_ParseInt (strconv_Itoa 5) = Some 5.
Proof.
  pose proof (@simple_search_request _ (Mock.Get Examples.radiohead) Mock.scan
                "Radiohead" 5 []) as [_ [[_ [_ Hlimit]] [_ Hentities]]].
  split.
  - apply (proj1 (Hentities _) [("a", "Radiohead")]).
    eexists _, [], []. split; [reflexivity|].
    split; [reflexivity|].
    split; [vm_compute; reflexivity|].
    intros k v [].
  - apply Hlimit. split; vm_compute; discriminate.
Defined.

(** The error body of the service, as the scanner reads it. *)
Lemma not_found_answers (u : string) (w : Mock.World) :
  answers_error_object (Mock.Get Examples.not_found) Mock.scan u w.
Proof.
  eexists _, _, _. split; [reflexivity|].
  split; [reflexivity|].
  split; [vm_compute; reflexivity|].
  eexists. split; [reflexivity|].
  constructor; [left; reflexivity|].
  constructor; [right; reflexivity|].
  constructor.
Defined.

(** C3 at a service that answers 404 with its error body: a search gives
    the nil slice and a lookup the zero artist, both with a nil error. *)
Lemma status_code_ignored_witness :
  fst (SearchArtists (Mock.Get Examples.not_found) Mock.scan "Radiohead" 5 [])
  = (None, None)
  /\ fst (GetArtistByID (Mock.Get Examples.not_found) Mock.scan "nope" [])
     = (Some Artist_zero, None).
Proof.
  pose proof (proj2 (proj2 (status_code_ignored (Mock.Get Examples.not_found)
                              Mock.scan))
                not_found_answers []) as H.
  split.
  - apply (proj1 H).
  - apply (proj1 (proj2 H)).
Defined.

(** C6 as stated fails at [SearchArtists "Radiohead" 5]: the URL that is
    requested has the parameters in the order [fmt], [limit], [query]. *)
Lemma SearchArtists_query_order :
  snd (SearchArtists (Mock.Get Examples.radiohead) Mock.scan "Radiohead" 5 [])
  = ["https://musicbrainz.org/ws/2/artist/?fmt=json&limit=5&query=Radiohead"]
  /\ snd (SearchArtists (Mock.Get Examples.radiohead) Mock.scan
            "Radiohead" 5 [])
     <> ["https://musicbrainz.org/ws/2/artist/?query=Radiohead&limit=5&fmt=json"].
Proof.
  split.
  - vm_compute. reflexivity.
  - vm_compute. discriminate.
Qed.

(** C7 at the envelope of section 8: the artist has no [aliases], and the
    field is nil. *)
Lemma decoding_tolerates_absence_witness :
  absent Artist_schema 9
         [("id", JString "a"); ("name", JString "Radiohead")]
  /\ Artist_Aliases
       (fst (decode_Artist
               (JObject [("id", JString "a"); ("name", JString "Radiohead")])
               Artist_zero))
     = None.
Proof.
  assert (Habs : absent Artist_schema 9
                   [("id", JString "a"); ("name", JString "Radiohead")]).
  { intros k v [H|[H|[]]]; inversion H; subst; vm_compute; discriminate. }
  split; [exact Habs|].
  exact (proj1 (proj2 (proj1 decoding_tolerates_absence)) _ 9%nat Habs).
Defined.

(** C7 as stated fails at an object whose aliases come under the key
    [ALIASES]: no member has the key [aliases], and the field [Aliases] is
    not nil. *)
Lemma aliases_missing_yet_decoded :
  Mock.scan (Mock.text "{'id':'a','ALIASES':[{'name':'On a Friday'}]}")
  = Ok (JObject Examples.shouting_artist)
  /\ (forall k v, In (k, v) Examples.shouting_artist -> k <> "aliases")
  /\ decode_Artist (JObject Examples.shouting_artist) Artist_zero
     = (mkArtist "a" "" "" "" "" "" "" "" ""
                 (Some (mkSlice [mkAlias "On a Friday" ""] [])) None None,
               None)
  /\ Artist_Aliases
       (fst (decode_Artist (JObject Examples.shouting_artist) Artist_zero))
     <> Artist_Aliases Artist_zero.
Proof.
  split; [vm_compute; reflexivity|].
  split.
  - intros k v [H|[H|[]]]; inversion H; subst; discriminate.
  - split; [vm_compute; reflexivity|].
    vm_compute. discriminate.
Qed.

(** C10 as stated fails at a single match whose recording has no tags and
    no date: the error is nil and the tag slice is nil and the date is
    empty, so it is not exactly one of the two that holds. *)
Lemma GetTags_both_hold :
  let '((tags, date, err), _) :=
    GetTagsByTitleAndArtistAndAlbum (Mock.Get Examples.one_bare_match)
      Mock.scan "Creep" "Radiohead" "Pablo Honey" []
  in (err = None /\ (tags = None /\ date = ""))
     /\ ~ ((err = None /\ ~ (tags = None /\ date = ""))
           \/ (err <> None /\ (tags = None /\ date = ""))).
Proof.
  vm_compute. split.
  - repeat split.
  - intros [[_ H]|[H _]].
    + apply H. split; reflexivity.
    + apply H. reflexivity.
Qed.

(* ================================================================= *)
(** * Further properties of the operations *)

(** ** How many requests an operation makes *)

Lemma round_trip_counted (World : Type)
    (get : string -> World -> result Response * World)
    (json_scan : string -> result json) (T R : Type)
    (decode : json -> T -> T * option error) (zero : T) (project : T -> R)
    (nil : R) (u : string) (w : World) (n : nat) :
  round_trip (counted get) json_scan decode zero project nil u (w, n)
  = let (r, w') := round_trip get json_scan decode zero project nil u w in
    (r, (w', S n)).
Proof.
  unfold round_trip, counted. simpl.
  destruct (get u w) as [[response|e] w']; [|reflexivity].
  destruct (read_err (Body response)); [reflexivity|].
  destruct (json_scan (read_data (Body response))) as [j|e]; [|reflexivity].
  destruct (decode j zero) as [v [e|]]; reflexivity.
Qed.

(** X1.  Each of the eight operations other than the strict-match helper
    issues exactly one GET in every run, whatever the outcome, and
    counting the requests changes neither the result nor the world. *)
Theorem one_request_per_operation (World : Type)
    (get : string -> World -> result Response * World)
    (json_scan : string -> result json) (w : World) (n : nat) :
  (forall name limit,
      SearchArtists (counted get) json_scan name limit (w, n)
      = let (r, w') := SearchArtists get json_scan name limit w in
        (r, (w', S n)))
  /\ (forall id,
         GetArtistByID (counted get) json_scan id (w, n)
         = let (r, w') := GetArtistByID get json_scan id w in
           (r, (w', S n)))
  /\ (forall title limit,
         SearchReleases (counted get) json_scan title limit (w, n)
         = let (r, w') := SearchReleases get json_scan title limit w in
           (r, (w', S n)))
  /\ (forall id,
         GetReleaseByID (counted get) json_scan id (w, n)
         = let (r, w') := GetReleaseByID get json_scan id w in
           (r, (w', S n)))
  /\ (forall title limit,
         SearchRecordings (counted get) json_scan title limit (w, n)
         = let (r, w') := SearchRecordings get json_scan title limit w in
           (r, (w', S n)))
  /\ (forall id,
         GetRecordingByID (counted get) json_scan id (w, n)
         = let (r, w') := GetRecordingByID get json_scan id w in
           (r, (w', S n)))
  /\ (forall title artist,
         SearchRecordingsByTitleAndArtist (counted get) json_scan title
           artist (w, n)
         = let (r, w') :=
             SearchRecordingsByTitleAndArtist get json_scan title artist w in
           (r, (w', S n)))
  /\ (forall id,
         GetRecordingByIDWithTags (counted get) json_scan id (w, n)
         = let (r, w') := GetRecordingByIDWithTags get json_scan id w in
           (r, (w', S n))).
Proof.
  repeat split; intros.
  - rewrite !SearchArtists_cycle. apply round_trip_counted.
  - rewrite !GetArtistByID_cycle. apply round_trip_counted.
  - rewrite !SearchReleases_cycle. apply round_trip_counted.
  - rewrite !GetReleaseByID_cycle. apply round_trip_counted.
  - rewrite !SearchRecordings_cycle. apply round_trip_counted.
  - rewrite !GetRecordingByID_cycle. apply round_trip_counted.
  - rewrite !SearchRecordingsByTitleAndArtist_cycle. apply round_trip_counted.
  - rewrite !GetRecordingByIDWithTags_cycle. apply round_trip_counted.
Qed.

(** X2.  The strict-match helper issues two GETs when its search found
    exactly one recording, and one GET in every other run: never none,
    never more than two. *)
Theorem GetTags_requests (World : Type)
    (get : string -> World -> result Response * World)
    (json_scan : string -> result json) (title artist album : string)
    (w : World) (n : nat) :
  GetTagsByTitleAndArtistAndAlbum (counted get) json_scan title artist album
    (w, n)
  = let (r, w') :=
      GetTagsByTitleAndArtistAndAlbum get json_scan title artist album w in
    (r, (w',
         if single_match
              (fst (round_trip get json_scan decode_RecordingsResult
                      RecordingsResult_zero Recordings None
                      (tags_query_url title artist album) w))
         then S (S n) else S n)).
Proof.
  rewrite !GetTags_after_search, round_trip_counted.
  destruct (round_trip get json_scan decode_RecordingsResult
              RecordingsResult_zero Recordings None
              (tags_query_url title artist album) w)
    as [[recs [e|]] w1]; try reflexivity.
  cbn [fst single_match].
  destruct (elements recs) as [|first [|second rest]]; try reflexivity.
  rewrite !GetRecordingByIDWithTags_cycle, round_trip_counted.
  match goal with
  | |- context [round_trip get ?s ?d ?z ?p ?nl ?u w1] =>
      destruct (round_trip get s d z p nl u w1) as [[[recording|] [e|]] w2]
  end; reflexivity.
Qed.

(** ** Field values are not quoted in a structured query *)

(** X3.  The title, the artist and the album are spliced into the query
    text as they are, so what ends one field and starts the next is not
    kept: moving the text [ artist:x] from the end of the title to the
    start of the artist (or [ release:x] from the artist to the album)
    gives the same run. *)
Theorem structured_query_collides (World : Type)
    (http_Get : string -> World -> result Response * World)
    (json_scan : string -> result json) (a b c x : string) (w : World) :
  SearchRecordingsByTitleAndArtist http_Get json_scan
    (a ++ " artist:" ++ x) b w
  = SearchRecordingsByTitleAndArtist http_Get json_scan
      a (x ++ " artist:" ++ b) w
  /\ GetTagsByTitleAndArtistAndAlbum http_Get json_scan
       (a ++ " artist:" ++ x) b c w
     = GetTagsByTitleAndArtistAndAlbum http_Get json_scan
         a (x ++ " artist:" ++ b) c w
  /\ GetTagsByTitleAndArtistAndAlbum http_Get json_scan
       a (b ++ " release:" ++ x) c w
     = GetTagsByTitleAndArtistAndAlbum http_Get json_scan
         a b (x ++ " release:" ++ c) w.
Proof.
  repeat split.
  - rewrite !SearchRecordingsByTitleAndArtist_cycle.
    rewrite !append_assoc. reflexivity.
  - rewrite !GetTags_after_search. unfold tags_query_url.
    rewrite !append_assoc. reflexivity.
  - rewrite !GetTags_after_search. unfold tags_query_url.
    rewrite !append_assoc. reflexivity.
Qed.

(** ** What a search returns for an envelope *)

(** X4.  When the service answers a search with an object that has
    exactly one member whose key matches the key of the envelope (the key
    itself, and no other member whose key is that key or equals it up to
    case), and that member holds an array, the search returns one entity
    per element of the array, in the order of the array, each the decoding
    of its element into a zero value, with a nil error; unless some
    element fails to decode, in which case it returns the nil slice, no
    partial list, and the error of the earliest element that failed. *)
Theorem search_returns_the_array (World : Type)
    (http_Get : string -> World -> result Response * World)
    (json_scan : string -> result json) (w w' : World) (l : list json) :
  (forall name limit,
      answers_envelope http_Get json_scan "artists"
        (MusicBrainzAPIEndpoint ++ "artist/?fmt=json&limit="
           ++ strconv_Itoa limit ++ "&query=" ++ url.QueryEscape name)
        w l w' ->
      SearchArtists http_Get json_scan name limit w
      = (match first_error
                 (map (fun j => snd (decode_Artist j Artist_zero)) l) with
         | None =>
             (Some (mkSlice
                      (map (fun j => fst (decode_Artist j Artist_zero)) l) []),
              None)
         | Some e => (None, Some e)
         end, w'))
  /\ (forall title limit,
         answers_envelope http_Get json_scan "releases"
           (MusicBrainzAPIEndpoint ++ "release/?fmt=json&limit="
              ++ strconv_Itoa limit ++ "&query=" ++ url.QueryEscape title)
           w l w' ->
         SearchReleases http_Get json_scan title limit w
         = (match first_error
                    (map (fun j => snd (decode_Release j Release_zero)) l) with
            | None =>
                (Some (mkSlice
                         (map (fun j => fst (decode_Release j Release_zero)) l)
                         []),
                 None)
            | Some e => (None, Some e)
            end, w'))
  /\ (forall title limit,
         answers_envelope http_Get json_scan "recordings"
           (MusicBrainzAPIEndpoint ++ "recording/?fmt=json&limit="
              ++ strconv_Itoa limit ++ "&query=" ++ url.QueryEscape title)
           w l w' ->
         SearchRecordings http_Get json_scan title limit w
         = (match first_error
                    (map (fun j => snd (decode_Recording j Recording_zero))
                         l) with
            | None =>
                (Some (mkSlice
                         (map (fun j => fst (decode_Recording j Recording_zero))
                              l) []),
                 None)
            | Some e => (None, Some e)
            end, w'))
  /\ (forall title artist,
         answers_envelope http_Get json_scan "recordings"
           (MusicBrainzAPIEndpoint ++ "recording/?query="
              ++ url.QueryEscape
                   ("recording:" ++ title ++ " artist:" ++ artist)
              ++ "&limit=20&fmt=json")
           w l w' ->
         SearchRecordingsByTitleAndArtist http_Get json_scan title artist w
         = (match first_error
                    (map (fun j => snd (decode_Recording j Recording_zero))
                         l) with
            | None =>
                (Some (mkSlice
                         (map (fun j => fst (decode_Recording j Recording_zero))
                              l) []),
                 None)
            | Some e => (None, Some e)
            end, w')).
Proof.
  repeat split; intros.
  - rewrite SearchArtists_cycle. apply Artists_envelope. assumption.
  - rewrite SearchReleases_cycle. apply Releases_envelope. assumption.
  - rewrite SearchRecordings_cycle. apply Recordings_envelope. assumption.
  - rewrite SearchRecordingsByTitleAndArtist_cycle.
    apply Recordings_envelope. assumption.
Qed.

(** ** Which requests coincide *)

Lemma upperhex_inj (a b : nat) :
  (a < 16)%nat -> (b < 16)%nat -> url.upperhex a = url.upperhex b -> a = b.
Proof.
  intros Ha Hb.
  do 16 (destruct a as [|a]; [do 16 (destruct b as [|b];
          [solve [reflexivity | discriminate]|]); lia|]).
  lia.
Qed.

Lemma hex_pair_inj (c1 c2 : ascii) :
  url.upperhex (nat_of_ascii c1 / 16) = url.upperhex (nat_of_ascii c2 / 16) ->
  url.upperhex (nat_of_ascii c1 mod 16)
  = url.upperhex (nat_of_ascii c2 mod 16) ->
  c1 = c2.
Proof.
  intros Hhi Hlo.
  pose proof (nat_ascii_bounded c1) as B1.
  pose proof (nat_ascii_bounded c2) as B2.
  apply upperhex_inj in Hhi;
    [|apply Nat.Div0.div_lt_upper_bound; lia
     |apply Nat.Div0.div_lt_upper_bound; lia].
  apply upperhex_inj in Hlo;
    [|apply Nat.mod_upper_bound; discriminate
     |apply Nat.mod_upper_bound; discriminate].
  rewrite <- (ascii_nat_embedding c1), <- (ascii_nat_embedding c2).
  f_equal.
  rewrite (Nat.div_mod_eq (nat_of_ascii c1) 16),
    (Nat.div_mod_eq (nat_of_ascii c2) 16).
  rewrite Hhi, Hlo. reflexivity.
Qed.

(** Escaping loses nothing: two texts with the same escaped form are the
    same text. *)
Lemma QueryEscape_inj (s1 s2 : string) :
  url.QueryEscape s1 = url.QueryEscape s2 -> s1 = s2.
Proof.
  revert s2. induction s1 as [|c1 s1 IH]; intros [|c2 s2] H.
  - reflexivity.
  - cbn [url.QueryEscape] in H.
    destruct (Ascii.eqb c2 " "); [discriminate|].
    destruct (url.shouldEscape c2); discriminate.
  - cbn [url.QueryEscape] in H.
    destruct (Ascii.eqb c1 " "); [discriminate|].
    destruct (url.shouldEscape c1); discriminate.
  - cbn [url.QueryEscape] in H.
    destruct (Ascii.eqb c1 " ") eqn:E1, (Ascii.eqb c2 " ") eqn:E2.
    + apply Ascii.eqb_eq in E1, E2. subst. injection H as H.
      f_equal. apply IH. exact H.
    + destruct (url.shouldEscape c2) eqn:S2; [discriminate|].
      injection H as Hc H. unfold url.shouldEscape in S2.
      destruct (url.unreserved c2) eqn:U2; [|discriminate].
      destruct (unreserved_not_escape c2 U2) as [Hp _]. congruence.
    + destruct (url.shouldEscape c1) eqn:S1; [discriminate|].
      injection H as Hc H. unfold url.shouldEscape in S1.
      destruct (url.unreserved c1) eqn:U1; [|discriminate].
      destruct (unreserved_not_escape c1 U1) as [Hp _]. congruence.
    + destruct (url.shouldEscape c1) eqn:S1, (url.shouldEscape c2) eqn:S2.
      * injection H as Hhi Hlo H.
        rewrite (hex_pair_inj c1 c2 Hhi Hlo). f_equal. apply IH. exact H.
      * injection H as Hc H. unfold url.shouldEscape in S2.
        destruct (url.unreserved c2) eqn:U2; [|discriminate].
        destruct (unreserved_not_escape c2 U2) as [_ Hp]. congruence.
      * injection H as Hc H. unfold url.shouldEscape in S1.
        destruct (url.unreserved c1) eqn:U1; [|discriminate].
        destruct (unreserved_not_escape c1 U1) as [_ Hp]. congruence.
      * injection H as Hc H. subst. f_equal. apply IH. exact H.
Qed.

(** A decimal numeral determines its number. *)
Lemma strconv_Itoa_inj (i j : Z) : strconv_Itoa i = strconv_Itoa j -> i = j.
Proof.
  unfold strconv_Itoa. intros H.
  assert (Hnorm : forall z,
             NilZero.int_of_string (NilZero.string_of_int (Z.to_int z))
             = Some (Z.to_int z)).
  { intros z. apply NilZero.isi; destruct z; simpl; try discriminate;
      intros Hnil; injection Hnil as Hnil;
      exact (DecimalPos.Unsigned.to_uint_nonnil _ Hnil). }
  pose proof (Hnorm i) as Hi. rewrite H, Hnorm in Hi.
  injection Hi as Hi.
  rewrite <- (DecimalZ.of_to i), <- (DecimalZ.of_to j), Hi. reflexivity.
Qed.

Lemma Itoa_safe (i : Z) : url.safe_in_query (strconv_Itoa i) = true.
Proof. rewrite <- QueryEscape_Itoa. apply QueryEscape_safe. Qed.

(** Two texts without [&] that are followed by [&] end at the same place. *)
Lemma split_at_amp (a1 a2 r1 r2 : string) :
  url.safe_in_query a1 = true ->
  url.safe_in_query a2 = true ->
  a1 ++ String "&" r1 = a2 ++ String "&" r2 ->
  a1 = a2 /\ r1 = r2.
Proof.
  revert a2. induction a1 as [|c1 a1 IH]; intros [|c2 a2] H1 H2 H.
  - injection H as H. split; [reflexivity|exact H].
  - simpl in H. injection H as Hc _. subst c2. discriminate.
  - simpl in H. injection H as Hc _. subst c1. discriminate.
  - simpl in H. injection H as Hc H. subst c2.
    cbn [url.safe_in_query] in H1, H2.
    apply andb_true_iff in H1 as [_ H1].
    apply andb_true_iff in H2 as [_ H2].
    destruct (IH a2 H1 H2 H) as [-> ->]. split; reflexivity.
Qed.

Lemma append_inj_l (p a b : string) : p ++ a = p ++ b -> a = b.
Proof.
  induction p as [|c p IH]; simpl; intros H.
  - exact H.
  - injection H as H. apply IH. exact H.
Qed.

Lemma length_append (a b : string) :
  String.length (a ++ b) = (String.length a + String.length b)%nat.
Proof. induction a; simpl; [reflexivity | rewrite IHa; reflexivity]. Qed.

Lemma append_inj_r (a b s : string) : a ++ s = b ++ s -> a = b.
Proof.
  revert b. induction a as [|c a IH]; intros [|c' b] H.
  - reflexivity.
  - apply (f_equal String.length) in H. simpl in H.
    rewrite length_append in H. lia.
  - apply (f_equal String.length) in H. simpl in H.
    rewrite length_append in H. lia.
  - simpl in H. injection H as Hc H. subst c'. f_equal. apply IH. exact H.
Qed.

(** The query string of a simple search determines the text and the
    limit. *)
Lemma search_url_inj (path : string) (n1 n2 : string) (l1 l2 : Z) :
  MusicBrainzAPIEndpoint ++ path ++ "?fmt=json&limit="
    ++ strconv_Itoa l1 ++ "&query=" ++ url.QueryEscape n1
  = MusicBrainzAPIEndpoint ++ path ++ "?fmt=json&limit="
      ++ strconv_Itoa l2 ++ "&query=" ++ url.QueryEscape n2 ->
  n1 = n2 /\ l1 = l2.
Proof.
  intros H.
  do 3 apply append_inj_l in H.
  apply split_at_amp in H; try apply Itoa_safe.
  destruct H as [Hl Hn].
  split.
  - apply QueryEscape_inj.
    apply (append_inj_l "query=") in Hn. exact Hn.
  - apply strconv_Itoa_inj. exact Hl.
Qed.

(** The world of the test server after a request cycle. *)
Lemma round_trip_logged (server : string -> result Response)
    (json_scan : string -> result json) (T R : Type)
    (decode : json -> T -> T * option error) (zero : T) (project : T -> R)
    (nil : R) (u : string) (w : Mock.World) :
  snd (round_trip (Mock.Get server) json_scan decode zero project nil u w)
  = u :: w.
Proof.
  unfold round_trip, Mock.Get.
  destruct (server u) as [response|e]; [|reflexivity].
  destruct (read_err (Body response)); [reflexivity|].
  destruct (json_scan (read_data (Body response))) as [j|e]; [|reflexivity].
  destruct (decode j zero) as [v [e|]]; reflexivity.
Qed.

(** X5.  Two simple searches that differ in their text or in their limit
    request different URLs: against a server that logs the URLs it is
    asked for, the logs differ. *)
Theorem simple_searches_do_not_collide (server : string -> result Response)
    (json_scan : string -> result json) (n1 n2 : string) (l1 l2 : Z)
    (w : Mock.World) :
  (n1, l1) <> (n2, l2) ->
  snd (SearchArtists (Mock.Get server) json_scan n1 l1 w)
  <> snd (SearchArtists (Mock.Get server) json_scan n2 l2 w)
  /\ snd (SearchReleases (Mock.Get server) json_scan n1 l1 w)
     <> snd (SearchReleases (Mock.Get server) json_scan n2 l2 w)
  /\ snd (SearchRecordings (Mock.Get server) json_scan n1 l1 w)
     <> snd (SearchRecordings (Mock.Get server) json_scan n2 l2 w).
Proof.
  intros Hne. repeat split; intros H.
  - rewrite !SearchArtists_cycle, !round_trip_logged in H.
    apply (f_equal (hd EmptyString)) in H. cbn [hd] in H.
    apply (search_url_inj "artist/") in H. destruct H as [-> ->].
    apply Hne. reflexivity.
  - rewrite !SearchReleases_cycle, !round_trip_logged in H.
    apply (f_equal (hd EmptyString)) in H. cbn [hd] in H.
    apply (search_url_inj "release/") in H. destruct H as [-> ->].
    apply Hne. reflexivity.
  - rewrite !SearchRecordings_cycle, !round_trip_logged in H.
    apply (f_equal (hd EmptyString)) in H. cbn [hd] in H.
    apply (search_url_inj "recording/") in H. destruct H as [-> ->].
    apply Hne. reflexivity.
Qed.

(** X6.  Two lookups of the same kind by different ids request different
    URLs. *)
Theorem lookups_do_not_collide (server : string -> result Response)
    (json_scan : string -> result json) (id1 id2 : string) (w : Mock.World) :
  id1 <> id2 ->
  snd (GetArtistByID (Mock.Get server) json_scan id1 w)
  <> snd (GetArtistByID (Mock.Get server) json_scan id2 w)
  /\ snd (GetReleaseByID (Mock.Get server) json_scan id1 w)
     <> snd (GetReleaseByID (Mock.Get server) json_scan id2 w)
  /\ snd (GetRecordingByID (Mock.Get server) json_scan id1 w)
     <> snd (GetRecordingByID (Mock.Get server) json_scan id2 w)
  /\ snd (GetRecordingByIDWithTags (Mock.Get server) json_scan id1 w)
     <> snd (GetRecordingByIDWithTags (Mock.Get server) json_scan id2 w).
Proof.
  intros Hne. repeat split; intros H.
  - rewrite !GetArtistByID_cycle, !round_trip_logged in H.
    apply (f_equal (hd EmptyString)) in H. cbn [hd] in H.
    do 2 apply append_inj_l in H.
    apply append_inj_r in H. contradiction.
  - rewrite !GetReleaseByID_cycle, !round_trip_logged in H.
    apply (f_equal (hd EmptyString)) in H. cbn [hd] in H.
    do 2 apply append_inj_l in H.
    apply append_inj_r in H. contradiction.
  - rewrite !GetRecordingByID_cycle, !round_trip_logged in H.
    apply (f_equal (hd EmptyString)) in H. cbn [hd] in H.
    do 2 apply append_inj_l in H.
    apply append_inj_r in H. contradiction.
  - rewrite !GetRecordingByIDWithTags_cycle, !round_trip_logged in H.
    apply (f_equal (hd EmptyString)) in H. cbn [hd] in H.
    do 2 apply append_inj_l in H.
    apply append_inj_r in H. contradiction.
Qed.

(** ** Members of the wrong kind *)

(** A member whose value does not fit its field makes the object fail,
    wherever the member stands and whatever the other members are. *)
Lemma decode_members_member_error (T : Type) (names : list string)
    (set : nat -> json -> T -> T * option error)
    (ms : list (string * json)) (k : string) (v : json) (i : nat) :
  In (k, v) ms ->
  find_field names k = Some i ->
  (forall x, snd (set i v x) <> None) ->
  forall st, snd (decode_members names set ms st) <> None.
Proof.
  intros Hin Hk Hbad.
  induction ms as [|[k' v'] ms IH]; intros st; [destruct Hin|].
  simpl. destruct Hin as [Heq|Hin].
  - injection Heq as -> ->. rewrite Hk.
    pose proof (Hbad (fst st)) as Hx.
    destruct (set i v (fst st)) as [x [e|]]; [|exfalso; apply Hx; reflexivity].
    destruct (snd st) as [e0|]; simpl; rewrite decode_members_saved;
      discriminate.
  - destruct (find_field names k') as [i'|]; [|apply IH; exact Hin].
    destruct (set i' v' (fst st)) as [x e]. apply IH. exact Hin.
Qed.

Lemma round_trip_member_error (World : Type)
    (http_Get : string -> World -> result Response * World)
    (json_scan : string -> result json) (T R : Type) (names : list string)
    (set : nat -> json -> T -> T * option error) (ty : gotype)
    (decode : json -> T -> T * option error) (zero : T) (project : T -> R)
    (nil : R) (u : string) (w w' : World) (ms : list (string * json))
    (k : string) (v : json) (i : nat) :
  (forall j x, decode j x = decode_struct names set ty j x) ->
  answers_json http_Get json_scan u w (JObject ms) w' ->
  In (k, v) ms ->
  find_field names k = Some i ->
  (forall x, snd (set i v x) <> None) ->
  exists e,
    round_trip http_Get json_scan decode zero project nil u w
    = ((nil, Some e), w').
Proof.
  intros Hdec [response [Hget [Hread Hscan]]] Hin Hk Hbad.
  unfold round_trip. rewrite Hget, Hread, Hscan, Hdec. simpl.
  pose proof (@decode_members_member_error _ names set ms k v i Hin Hk Hbad
                (zero, None)) as Herr.
  destruct (decode_members names set ms (zero, None)) as [x [e|]].
  - exists e. reflexivity.
  - exfalso. apply Herr. reflexivity.
Qed.

(** X7.  The field [Area] of [Artist] is a string.  When the answer to a
    lookup of an artist is an object with a member [area] that is neither
    a string nor null (an object, say), [GetArtistByID] returns the nil
    pointer and an error, whatever else the object holds. *)
Theorem GetArtistByID_area_not_a_string (World : Type)
    (http_Get : string -> World -> result Response * World)
    (json_scan : string -> result json) (id : string) (w w' : World)
    (ms : list (string * json)) (v : json) :
  answers_json http_Get json_scan
    (MusicBrainzAPIEndpoint ++ "artist/" ++ id ++ "?fmt=json") w
    (JObject ms) w' ->
  In ("area", v) ms ->
  v <> JNull ->
  (forall s, v <> JString s) ->
  exists e, GetArtistByID http_Get json_scan id w = ((None, Some e), w').
Proof.
  intros Hans Hin Hnull Hstr.
  rewrite GetArtistByID_cycle.
  apply (@round_trip_member_error _ http_Get json_scan _ _
           (keys Artist_schema) (Artist_set decode_Relation)
           (go_named "musicbrainz.Artist") decode_Artist Artist_zero
           (@Some Artist) None _ w w' ms "area" v 5%nat
           decode_Artist_unfold Hans Hin).
  - reflexivity.
  - intros [id0 name sort type country area begin_ end_ dis al rel tags].
    destruct v; simpl; try discriminate.
    + exfalso. apply Hnull. reflexivity.
    + exfalso. apply (Hstr s). reflexivity.
Qed.

(** X8.  The field [CoverArtURL] of [Release] is a slice.  When the answer
    to a lookup of a release is an object with a member
    [cover-art-archive] that is neither an array nor null (an object,
    say), [GetReleaseByID] returns the nil pointer and an error, whatever
    else the object holds. *)
Theorem GetReleaseByID_cover_art_not_an_array (World : Type)
    (http_Get : string -> World -> result Response * World)
    (json_scan : string -> result json) (id : string) (w w' : World)
    (ms : list (string * json)) (v : json) :
  answers_json http_Get json_scan
    (MusicBrainzAPIEndpoint ++ "release/" ++ id ++ "?fmt=json") w
    (JObject ms) w' ->
  In ("cover-art-archive", v) ms ->
  v <> JNull ->
  (forall l, v <> JArray l) ->
  exists e, GetReleaseByID http_Get json_scan id w = ((None, Some e), w').
Proof.
  intros Hans Hin Hnull Harr.
  rewrite GetReleaseByID_cycle.
  apply (@round_trip_member_error _ http_Get json_scan _ _
           (keys Release_schema) Release_set
           (go_named "musicbrainz.Release") decode_Release Release_zero
           (@Some Release) None _ w w' ms "cover-art-archive" v 8%nat
           (fun j x => eq_refl (decode_Release j x)) Hans Hin).
  - reflexivity.
  - intros [id0 title status text credit group relations tags cover].
    destruct v as [|b|lit|s|l|members]; simpl; try discriminate.
    + exfalso. apply Hnull. reflexivity.
    + exfalso. apply (Harr l). reflexivity.
Qed.

(** ** Lengths and the range of [int] *)

(** The setter of [Length] at the numeral of a number outside [int] and
    of a number inside. *)
Lemma Recording_set_Length_out (z : Z) (x : Recording) :
  ~ int64 z ->
  Recording_set 2 (JNumber (strconv_Itoa z)) x
  = (x, Some (UnmarshalTypeError ("number " ++ strconv_Itoa z) go_int)).
Proof.
  intros Hout. destruct x. cbn [Recording_set decode_int].
  rewrite (ParseInt_Itoa_out Hout). reflexivity.
Qed.

Lemma Recording_set_Length_in (z : Z) (x : Recording) :
  int64 z ->
  Recording_set 2 (JNumber (strconv_Itoa z)) x = (with_Length z x, None).
Proof.
  intros Hin. destruct x. cbn [Recording_set decode_int].
  rewrite (ParseInt_Itoa_int64 Hin). reflexivity.
Qed.

(** The setters of the other fields do not look at the length. *)
Lemma Recording_set_with_Length (i : nat) (v : json) (z : Z) (x : Recording) :
  i <> 2%nat ->
  Recording_set i v (with_Length z x)
  = (with_Length z (fst (Recording_set i v x)), snd (Recording_set i v x)).
Proof.
  intros Hi. destruct x as [id title length date relations tags credit rel].
  unfold with_Length. cbn [Recording_ID Recording_Title Recording_ReleaseDate
    Recording_Relations Recording_Tags Recording_ArtistCredit
    Recording_Releases].
  field_cases i; try (exfalso; apply Hi; reflexivity);
    cbn [Recording_set]; split_decodes; reflexivity.
Qed.

Lemma decode_members_with_Length (ms : list (string * json)) (z : Z) :
  absent Recording_schema 2 ms ->
  forall x e,
    decode_members (keys Recording_schema) Recording_set ms
      (with_Length z x, e)
    = let (r, e') :=
        decode_members (keys Recording_schema) Recording_set ms (x, e) in
      (with_Length z r, e').
Proof.
  induction ms as [|[k v] ms IH]; intros Habs x e.
  - reflexivity.
  - assert (Hk : find_field (keys Recording_schema) k <> Some 2%nat)
      by (apply (Habs k v); left; reflexivity).
    assert (Hms : absent Recording_schema 2 ms)
      by (intros k' v' Hin; apply (Habs k' v'); right; exact Hin).
    cbn [decode_members fst snd].
    destruct (find_field (keys Recording_schema) k) as [i|]; [|apply IH, Hms].
    rewrite Recording_set_with_Length by (intros ->; apply Hk; reflexivity).
    destruct (Recording_set i v x) as [y e1]. cbn [fst snd].
    apply IH, Hms.
Qed.

(** An object with a member [length] that holds the numeral of [z]. *)
Lemma decode_Recording_Length_out (ms1 ms2 : list (string * json)) (z : Z) :
  ~ int64 z ->
  snd (decode_Recording (JObject ms1) Recording_zero) = None ->
  snd (decode_Recording
         (JObject (ms1 ++ ("length", JNumber (strconv_Itoa z)) :: ms2))
         Recording_zero)
  = Some (UnmarshalTypeError ("number " ++ strconv_Itoa z) go_int).
Proof.
  intros Hout Hms1.
  unfold decode_Recording in *. cbn [decode_struct] in *.
  rewrite decode_members_app.
  destruct (decode_members (keys Recording_schema) Recording_set ms1
              (Recording_zero, None)) as [x1 e1].
  cbn [snd] in Hms1. subst e1.
  cbn [decode_members fst snd].
  change (find_field (keys Recording_schema) "length") with (Some 2%nat).
  cbv iota. rewrite (Recording_set_Length_out x1 Hout). cbn [saveError].
  apply decode_members_saved.
Qed.

Lemma decode_Recording_Length_in (ms1 ms2 : list (string * json)) (z : Z) :
  int64 z ->
  absent Recording_schema 2 ms2 ->
  decode_Recording
    (JObject (ms1 ++ ("length", JNumber (strconv_Itoa z)) :: ms2))
    Recording_zero
  = let (r, e) := decode_Recording (JObject (ms1 ++ ms2)) Recording_zero in
    (with_Length z r, e).
Proof.
  intros Hin Habs.
  unfold decode_Recording. cbn [decode_struct].
  rewrite !decode_members_app.
  destruct (decode_members (keys Recording_schema) Recording_set ms1
              (Recording_zero, None)) as [x1 e1].
  cbn [decode_members fst snd].
  change (find_field (keys Recording_schema) "length") with (Some 2%nat).
  cbv iota. rewrite (Recording_set_Length_in x1 Hin).
  replace (saveError e1 None) with e1 by (destruct e1; reflexivity).
  apply decode_members_with_Length, Habs.
Qed.

(** X9.  The length of a recording is read as a 64-bit integer and never
    wrapped.  When the answer to a lookup of a recording is an object with
    a member [length] that holds the decimal numeral of a number outside
    [-2^63 .. 2^63 - 1], [GetRecordingByID] and [GetRecordingByIDWithTags]
    return the nil pointer and an error, whatever else the object holds;
    the error is the type error that names the literal when the members
    before it decode without error.  When the number is inside the range
    and no later member is decoded into [Length], the lookup returns what
    the other members decode to, with that number as [Length]. *)
Theorem length_literal_must_fit_int (World : Type)
    (http_Get : string -> World -> result Response * World)
    (json_scan : string -> result json) (id : string) (w w' : World)
    (ms1 ms2 : list (string * json)) (z : Z) :
  answers_json http_Get json_scan
    (MusicBrainzAPIEndpoint ++ "recording/" ++ id ++ "?fmt=json") w
    (JObject (ms1 ++ ("length", JNumber (strconv_Itoa z)) :: ms2)) w' ->
  (~ int64 z ->
   (exists e,
       GetRecordingByID http_Get json_scan id w = ((None, Some e), w')
       /\ GetRecordingByIDWithTags http_Get json_scan id w
          = ((None, Some e), w'))
   /\ (snd (decode_Recording (JObject ms1) Recording_zero) = None ->
       GetRecordingByID http_Get json_scan id w
       = ((None,
           Some (UnmarshalTypeError ("number " ++ strconv_Itoa z) go_int)),
          w')))
  /\ (int64 z ->
      absent Recording_schema 2 ms2 ->
      GetRecordingByID http_Get json_scan id w
      = (match decode_Recording (JObject (ms1 ++ ms2)) Recording_zero with
         | (r, None) => (Some (with_Length z r), None)
         | (_, Some e) => (None, Some e)
         end, w')).
Proof.
  intros Hans.
  assert (Hrun :
            round_trip http_Get json_scan decode_Recording Recording_zero
              (@Some Recording) None
              (MusicBrainzAPIEndpoint ++ "recording/" ++ id ++ "?fmt=json") w
            = (match decode_Recording
                       (JObject
                          (ms1 ++ ("length", JNumber (strconv_Itoa z)) :: ms2))
                       Recording_zero with
               | (_, Some e) => (None, Some e)
               | (r, None) => (Some r, None)
               end, w')).
  { destruct Hans as [response [Hget [Hread Hscan]]].
    unfold round_trip. rewrite Hget, Hread, Hscan.
    destruct (decode_Recording _ Recording_zero) as [r [e|]]; reflexivity. }
  split.
  - intros Hout. split.
    + rewrite GetRecordingByIDWithTags_cycle, GetRecordingByID_cycle.
      destruct (@round_trip_member_error _ http_Get json_scan _ _
                  (keys Recording_schema) Recording_set
                  (go_named "musicbrainz.Recording") decode_Recording
                  Recording_zero (@Some Recording) None _ w w'
                  (ms1 ++ ("length", JNumber (strconv_Itoa z)) :: ms2)
                  "length" (JNumber (strconv_Itoa z)) 2%nat
                  (fun j x => eq_refl (decode_Recording j x)) Hans)
        as [e He].
      * apply in_or_app. right. left. reflexivity.
      * reflexivity.
      * intros x. rewrite (Recording_set_Length_out x Hout). discriminate.
      * exists e. split; exact He.
    + intros Hms1. rewrite GetRecordingByID_cycle, Hrun.
      pose proof (@decode_Recording_Length_out ms1 ms2 z Hout Hms1) as Herr.
      destruct (decode_Recording _ Recording_zero) as [r e].
      cbn [snd] in Herr. subst e. reflexivity.
  - intros Hin Habs. rewrite GetRecordingByID_cycle, Hrun.
    rewrite (decode_Recording_Length_in ms1 Hin Habs).
    destruct (decode_Recording (JObject (ms1 ++ ms2)) Recording_zero)
      as [r [e|]]; reflexivity.
Qed.

(** ** Keys are matched without regard to letter case *)

Lemma foldName_step (c : ascii) (rest : string) :
  foldName (String c rest)
  = if (nat_of_ascii c =? 226)%nat then
      match rest with
      | String c1 (String c2 rest') =>
          if ((nat_of_ascii c1 =? 132) && (nat_of_ascii c2 =? 170))%nat
          then String "K" (foldName rest')
          else String c (foldName rest)
      | _ => String (upper c) (foldName rest)
      end
    else if (nat_of_ascii c =? 197)%nat then
      match rest with
      | String c1 rest' =>
          if (nat_of_ascii c1 =? 191)%nat
          then String "S" (foldName rest')
          else String c (foldName rest)
      | _ => String (upper c) (foldName rest)
      end
    else String (upper c) (foldName rest).
Proof.
  destruct c as [[] [] [] [] [] [] [] []]; reflexivity.
Qed.

Lemma upper_code (c : ascii) (n : nat) :
  (128 <= n)%nat ->
  (nat_of_ascii (upper c) =? n)%nat = (nat_of_ascii c =? n)%nat.
Proof.
  intros Hn.
  assert (H : upper c = c \/ (nat_of_ascii c < 128 /\ nat_of_ascii (upper c) < 128)%nat).
  { destruct c as [[] [] [] [] [] [] [] []]; vm_compute; auto; right; split; lia. }
  destruct H as [->|[H1 H2]]; [reflexivity|].
  destruct (Nat.eqb_spec (nat_of_ascii (upper c)) n), (Nat.eqb_spec (nat_of_ascii c) n); try reflexivity; lia.
Qed.

Lemma upper_idem (c : ascii) : upper (upper c) = upper c.
Proof. destruct c as [[] [] [] [] [] [] [] []]; reflexivity. Qed.

Lemma upper_high c : (128 <= nat_of_ascii c)%nat -> upper c = c.
Proof. destruct c as [[] [] [] [] [] [] [] []]; vm_compute; intros; try reflexivity; lia. Qed.

Lemma foldName_upcase_bounded (n : nat) :
  forall s, (String.length s <= n)%nat -> foldName (upcase s) = foldName s.
Proof.
  induction n as [|n IH]; intros [|c rest] Hlen; try reflexivity.
  - simpl in Hlen. lia.
  - simpl in Hlen.
    assert (Hrest : foldName (upcase rest) = foldName rest)
      by (apply IH; lia).
    cbn [upcase]. rewrite !foldName_step.
    rewrite !upper_code by lia. rewrite upper_idem.
    destruct (Nat.eqb_spec (nat_of_ascii c) 226) as [H226|_].
    + assert (Hc : upper c = c) by (apply upper_high; lia).
      destruct rest as [|c1 [|c2 rest']].
      * reflexivity.
      * cbn [upcase] in *. rewrite Hrest. reflexivity.
      * cbn [upcase] in *. rewrite !upper_code by lia.
        destruct ((nat_of_ascii c1 =? 132)%nat && (nat_of_ascii c2 =? 170)%nat).
        -- f_equal. apply IH. simpl in Hlen. lia.
        -- rewrite Hc, Hrest. reflexivity.
    + destruct (Nat.eqb_spec (nat_of_ascii c) 197) as [H197|_].
      * assert (Hc : upper c = c) by (apply upper_high; lia).
        destruct rest as [|c1 rest'].
        -- reflexivity.
        -- cbn [upcase] in *. rewrite !upper_code by lia.
           destruct (nat_of_ascii c1 =? 191)%nat.
           ++ f_equal. apply IH. simpl in Hlen. lia.
           ++ rewrite Hc, Hrest. reflexivity.
      * rewrite Hrest. reflexivity.
Qed.

Lemma foldName_upcase (s : string) : foldName (upcase s) = foldName s.
Proof. apply (@foldName_upcase_bounded (String.length s)). lia. Qed.

Lemma index_where_In (p : string -> bool) (names : list string) (i : nat) :
  index_where p names = Some i ->
  exists n, In n names /\ p n = true.
Proof.
  revert i. induction names as [|n names IH]; intros i H; simpl in H.
  - discriminate.
  - destruct (p n) eqn:Hp.
    + exists n. split; [left; reflexivity|exact Hp].
    + destruct (index_where p names) as [i'|]; [|discriminate].
      destruct (IH i' eq_refl) as [m [Hin Hm]].
      exists m. split; [right; exact Hin|exact Hm].
Qed.

(** When no two names fold to the same text, a key goes to the field whose
    name folds like the key. *)
Lemma find_field_fold (names : list string) (key : string) :
  NoDup (map foldName names) ->
  find_field names key
  = index_where (fun n => String.eqb (foldName n) (foldName key)) names.
Proof.
  unfold find_field. intros Hnd.
  induction names as [|n names IH]; [reflexivity|].
  inversion Hnd as [|x l Hnotin Hnd']; subst.
  simpl. destruct (String.eqb key n) eqn:Hexact.
  - apply String.eqb_eq in Hexact. subst. rewrite String.eqb_refl. reflexivity.
  - destruct (String.eqb (foldName n) (foldName key)) eqn:Hfold.
    + destruct (index_where (String.eqb key) names) as [i|] eqn:Hi;
        [|reflexivity].
      exfalso. apply Hnotin.
      destruct (@index_where_In _ _ _ Hi) as [m [Hin Hm]].
      apply String.eqb_eq in Hm, Hfold. subst m.
      rewrite Hfold. apply in_map. exact Hin.
    + specialize (IH Hnd').
      destruct (index_where (String.eqb key) names) as [i|];
        [rewrite <- IH|]; reflexivity.
Qed.

Lemma find_field_upcase (names : list string) (key : string) :
  NoDup (map foldName names) ->
  find_field names (upcase key) = find_field names key.
Proof.
  intros Hnd. rewrite !find_field_fold by exact Hnd.
  rewrite foldName_upcase. reflexivity.
Qed.

Lemma decode_members_upcase (T : Type) (names : list string)
    (set : nat -> json -> T -> T * option error) :
  NoDup (map foldName names) ->
  forall ms st,
    decode_members names set (map (fun kv => (upcase (fst kv), snd kv)) ms) st
    = decode_members names set ms st.
Proof.
  intros Hnd ms. induction ms as [|[k v] ms IH]; intros st; simpl.
  - reflexivity.
  - rewrite (@find_field_upcase names k Hnd).
    destruct (find_field names k) as [i|]; [|apply IH].
    destruct (set i v (fst st)) as [x e]. apply IH.
Qed.

Ltac distinct_folds :=
  repeat (constructor; [vm_compute; intuition discriminate|]); constructor.

Lemma Artist_folds : NoDup (map foldName (keys Artist_schema)).
Proof. distinct_folds. Qed.
Lemma Release_folds : NoDup (map foldName (keys Release_schema)).
Proof. distinct_folds. Qed.
Lemma Recording_folds : NoDup (map foldName (keys Recording_schema)).
Proof. distinct_folds. Qed.

(** X10.  The keys of an answer are matched to the fields without regard
    to the case of their ASCII letters: with every key of the object in
    upper case, each of the six targets that the operations unmarshal
    into is decoded to the same value, with the same error. *)
Theorem keys_match_without_case (ms : list (string * json)) :
  (forall old,
      decode_Artist
        (JObject (map (fun kv => (upcase (fst kv), snd kv)) ms)) old
      = decode_Artist (JObject ms) old)
  /\ (forall old,
         decode_Release
           (JObject (map (fun kv => (upcase (fst kv), snd kv)) ms)) old
         = decode_Release (JObject ms) old)
  /\ (forall old,
         decode_Recording
           (JObject (map (fun kv => (upcase (fst kv), snd kv)) ms)) old
         = decode_Recording (JObject ms) old)
  /\ (forall old,
         decode_ArtistsResult
           (JObject (map (fun kv => (upcase (fst kv), snd kv)) ms)) old
         = decode_ArtistsResult (JObject ms) old)
  /\ (forall old,
         decode_ReleasesResult
           (JObject (map (fun kv => (upcase (fst kv), snd kv)) ms)) old
         = decode_ReleasesResult (JObject ms) old)
  /\ (forall old,
         decode_RecordingsResult
           (JObject (map (fun kv => (upcase (fst kv), snd kv)) ms)) old
         = decode_RecordingsResult (JObject ms) old).
Proof.
  repeat split; intros old.
  - rewrite !decode_Artist_unfold.
    apply decode_members_upcase, Artist_folds.
  - apply (@decode_members_upcase _ _ Release_set Release_folds).
  - apply (@decode_members_upcase _ _ Recording_set Recording_folds).
  - apply (@decode_members_upcase _ (keys ArtistsResult_schema) ArtistsResult_set).
    distinct_folds.
  - apply (@decode_members_upcase _ (keys ReleasesResult_schema) ReleasesResult_set).
    distinct_folds.
  - apply (@decode_members_upcase _ (keys RecordingsResult_schema) RecordingsResult_set).
    distinct_folds.
Qed.

(** ** Bodies that are not objects *)

Lemma round_trip_not_object (World : Type)
    (http_Get : string -> World -> result Response * World)
    (json_scan : string -> result json) (T R : Type) (names : list string)
    (set : nat -> json -> T -> T * option error) (ty : gotype)
    (decode : json -> T -> T * option error) (zero : T) (project : T -> R)
    (nil : R) (u : string) (w : World) (j : json) :
  (forall j x, decode j x = decode_struct names set ty j x) ->
  (forall ms, j <> JObject ms) ->
  (forall u w, exists w', answers_json http_Get json_scan u w j w') ->
  fst (round_trip http_Get json_scan decode zero project nil u w)
  = match j with
    | JNull => (project zero, None)
    | _ => (nil, Some (UnmarshalTypeError (json_kind j) ty))
    end.
Proof.
  intros Hdec Hobj Hall.
  destruct (Hall u w) as [w' [response [Hget [Hread Hscan]]]].
  unfold round_trip. rewrite Hget, Hread, Hscan, Hdec.
  destruct j; try reflexivity.
  exfalso. apply (Hobj members). reflexivity.
Qed.

(** X11.  A body that is valid JSON but not an object: when it is the
    literal [null], every lookup succeeds with a pointer to the zero
    entity and every search with the nil slice, with a nil error; when it
    is an array, a string, a number or a boolean, every operation returns
    the nil result and the type error that names the kind of the value
    and the type of the target. *)
Theorem bodies_that_are_not_objects (World : Type)
    (http_Get : string -> World -> result Response * World)
    (json_scan : string -> result json) (j : json) (w : World) :
  (forall ms, j <> JObject ms) ->
  (forall u w, exists w', answers_json http_Get json_scan u w j w') ->
  (forall id,
      fst (GetArtistByID http_Get json_scan id w)
      = match j with
        | JNull => (Some Artist_zero, None)
        | _ => (None, Some (UnmarshalTypeError (json_kind j)
                              (go_named "musicbrainz.Artist")))
        end)
  /\ (forall id,
         fst (GetReleaseByID http_Get json_scan id w)
         = match j with
           | JNull => (Some Release_zero, None)
           | _ => (None, Some (UnmarshalTypeError (json_kind j)
                                 (go_named "musicbrainz.Release")))
           end)
  /\ (forall id,
         fst (GetRecordingByID http_Get json_scan id w)
         = match j with
           | JNull => (Some Recording_zero, None)
           | _ => (None, Some (UnmarshalTypeError (json_kind j)
                                 (go_named "musicbrainz.Recording")))
           end)
  /\ (forall name limit,
         fst (SearchArtists http_Get json_scan name limit w)
         = match j with
           | JNull => (None, None)
           | _ =>
               (None,
                Some (UnmarshalTypeError (json_kind j)
                        (go_struct
                           [("Artists",
                             go_slice (go_named "musicbrainz.Artist"))])))
           end)
  /\ (forall title limit,
         fst (SearchReleases http_Get json_scan title limit w)
         = match j with
           | JNull => (None, None)
           | _ =>
               (None,
                Some (UnmarshalTypeError (json_kind j)
                        (go_struct
                           [("Releases",
                             go_slice (go_named "musicbrainz.Release"))])))
           end)
  /\ (forall title limit,
         fst (SearchRecordings http_Get json_scan title limit w)
         = match j with
           | JNull => (None, None)
           | _ =>
               (None,
                Some (UnmarshalTypeError (json_kind j)
                        (go_struct
                           [("Recordings",
                             go_slice (go_named "musicbrainz.Recording"))])))
           end).
Proof.
  intros Hobj Hall. repeat split; intros.
  - rewrite GetArtistByID_cycle.
    apply (@round_trip_not_object _ http_Get json_scan _ _
             (keys Artist_schema) (Artist_set decode_Relation)
             (go_named "musicbrainz.Artist") decode_Artist Artist_zero
             (@Some Artist) None _ w j decode_Artist_unfold Hobj Hall).
  - rewrite GetReleaseByID_cycle.
    apply (@round_trip_not_object _ http_Get json_scan _ _
             (keys Release_schema) Release_set
             (go_named "musicbrainz.Release") decode_Release Release_zero
             (@Some Release) None _ w j
             (fun j x => eq_refl (decode_Release j x)) Hobj Hall).
  - rewrite GetRecordingByID_cycle.
    apply (@round_trip_not_object _ http_Get json_scan _ _
             (keys Recording_schema) Recording_set
             (go_named "musicbrainz.Recording") decode_Recording
             Recording_zero (@Some Recording) None _ w j
             (fun j x => eq_refl (decode_Recording j x)) Hobj Hall).
  - rewrite SearchArtists_cycle.
    apply (@round_trip_not_object _ http_Get json_scan _ _
             (keys ArtistsResult_schema) ArtistsResult_set _
             decode_ArtistsResult ArtistsResult_zero Artists None _ w j
             (fun j x => eq_refl (decode_ArtistsResult j x)) Hobj Hall).
  - rewrite SearchReleases_cycle.
    apply (@round_trip_not_object _ http_Get json_scan _ _
             (keys ReleasesResult_schema) ReleasesResult_set _
             decode_ReleasesResult ReleasesResult_zero Releases None _ w j
             (fun j x => eq_refl (decode_ReleasesResult j x)) Hobj Hall).
  - rewrite SearchRecordings_cycle.
    apply (@round_trip_not_object _ http_Get json_scan _ _
             (keys RecordingsResult_schema) RecordingsResult_set _
             decode_RecordingsResult RecordingsResult_zero Recordings None _
             w j (fun j x => eq_refl (decode_RecordingsResult j x)) Hobj Hall).
Qed.

(** ** The requests of the strict-match helper *)

(** [GetTagsByTitleAndArtistAndAlbum] is a search followed, on a
    single match, by a lookup: the search is one request cycle at
    [recording/?query=<q>&limit=1&fmt=json] under the base endpoint, where
    [q] is the escaped text
    [recording:<title> artist:<artist> release:<album>], decoded as an
    envelope of recordings; a search that failed ends the run with its
    error, a search with one recording is followed by the lookup of its
    ID, started in the world the search left, and every other search ends
    the run with the no-match error. *)
Theorem GetTags_is_search_then_lookup (World : Type)
    (http_Get : string -> World -> result Response * World)
    (json_scan : string -> result json) (title artist album : string)
    (w : World) :
  GetTagsByTitleAndArtistAndAlbum http_Get json_scan title artist album w
  = match round_trip http_Get json_scan decode_RecordingsResult
            RecordingsResult_zero Recordings None
            ("https://musicbrainz.org/ws/2/" ++ "recording/?query="
               ++ url.QueryEscape
                    ("recording:" ++ title ++ " artist:" ++ artist
                       ++ " release:" ++ album)
               ++ "&limit=1&fmt=json") w with
    | ((_, Some e), w1) => ((None, "", Some e), w1)
    | ((recs, None), w1) =>
        match elements recs with
        | [first] =>
            match GetRecordingByIDWithTags http_Get json_scan
                    (Recording_ID first) w1 with
            | ((_, Some e), w2) => ((None, "", Some e), w2)
            | ((Some recording, None), w2) =>
                ((Recording_Tags recording, Recording_ReleaseDate recording,
                  None), w2)
            | ((None, None), w2) => ((None, "", None), w2)
            end
        | _ =>
            ((None, "",
              Some (errors_New "MusicBrainz didn't find the song")), w1)
        end
    end
  /\ url.safe_in_query
       (url.QueryEscape
          ("recording:" ++ title ++ " artist:" ++ artist
             ++ " release:" ++ album)) = true.
Proof.
  split.
  - apply GetTags_after_search.
  - apply QueryEscape_safe.
Qed.

(** X12.  The helper does not check that its match has an ID.  When the
    search is answered with an object that has exactly one member whose
    key matches [recordings], an array of one object, and that object
    decodes without error and has no member whose key matches [id] (the
    key itself or a key that equals it up to case, such as [ID]), the
    lookup requests [<base>recording/?fmt=json], the path without an id,
    and the helper returns what that request gives: the tags and the date
    decoded from its body with a nil error, or its error. *)
Theorem GetTags_match_without_id (World : Type)
    (http_Get : string -> World -> result Response * World)
    (json_scan : string -> result json) (title artist album : string)
    (w w1 : World) (ms : list (string * json)) :
  answers_envelope http_Get json_scan "recordings"
    (tags_query_url title artist album) w [JObject ms] w1 ->
  absent Recording_schema 0 ms ->
  snd (decode_Recording (JObject ms) Recording_zero) = None ->
  GetTagsByTitleAndArtistAndAlbum http_Get json_scan title artist album w
  = match round_trip http_Get json_scan decode_Recording Recording_zero
            (@Some Recording) None
            "https://musicbrainz.org/ws/2/recording/?fmt=json" w1 with
    | ((_, Some e), w2) => ((None, "", Some e), w2)
    | ((Some recording, None), w2) =>
        ((Recording_Tags recording, Recording_ReleaseDate recording, None),
         w2)
    | ((None, None), w2) => ((None, "", None), w2)
    end.
Proof.
  intros Hans Habs Hok.
  rewrite GetTags_after_search.
  rewrite (Recordings_envelope Hans).
  cbn [map first_error fold_right]. rewrite Hok.
  cbn [saveError elements elems].
  rewrite GetRecordingByIDWithTags_cycle.
  pose proof (@decode_struct_tolerates _ Recording_schema Recording_set
                (go_named "musicbrainz.Recording") Recording_zero
                Recording_set_error Recording_set_own) as [_ [Hkept _]].
  specialize (Hkept ms 0%nat Habs). unfold same_field in Hkept.
  cbn [nth_error Recording_schema field] in Hkept.
  change (decode_struct (keys Recording_schema) Recording_set
            (go_named "musicbrainz.Recording"))
    with decode_Recording in Hkept.
  rewrite Hkept. reflexivity.
Qed.

(** ** One element that fails *)

Lemma first_error_In (es : list (option error)) (e : error) :
  In (Some e) es -> first_error es <> None.
Proof.
  induction es as [|[e0|] es IH]; intros Hin; simpl.
  - destruct Hin.
  - discriminate.
  - destruct Hin as [H|Hin]; [discriminate|]. apply IH. exact Hin.
Qed.

Lemma envelope_error (R : Type) (E : Type) (zeroE : E)
    (elem : json -> E -> E * option error) (ok : R) (l : list json)
    (j : json) :
  In j l ->
  snd (elem j zeroE) <> None ->
  exists e,
    match first_error (map (fun j => snd (elem j zeroE)) l) with
    | None => (Some ok, None)
    | Some e => (None, Some e)
    end = (@None R, Some e).
Proof.
  intros Hin Hbad.
  destruct (snd (elem j zeroE)) as [e0|] eqn:He0;
    [|exfalso; apply Hbad; reflexivity].
  assert (Hfirst : first_error (map (fun j => snd (elem j zeroE)) l) <> None).
  { apply (@first_error_In _ e0). rewrite <- He0.
    apply (in_map (fun j => snd (elem j zeroE))). exact Hin. }
  destruct (first_error (map (fun j => snd (elem j zeroE)) l)) as [e|].
  - exists e. reflexivity.
  - exfalso. apply Hfirst. reflexivity.
Qed.

(** X13.  A search gives no partial list: when one artist of the array
    has a member [area] that is neither a string nor null, [SearchArtists]
    returns the nil slice and an error, however many other artists the
    array holds; likewise [SearchReleases] when one release has a member
    [cover-art-archive] that is neither an array nor null. *)
Theorem one_bad_element_fails_the_search (World : Type)
    (http_Get : string -> World -> result Response * World)
    (json_scan : string -> result json) (w w' : World) (l : list json)
    (ms : list (string * json)) (v : json) :
  In (JObject ms) l ->
  v <> JNull ->
  (forall name limit,
      answers_envelope http_Get json_scan "artists"
        (MusicBrainzAPIEndpoint ++ "artist/?fmt=json&limit="
           ++ strconv_Itoa limit ++ "&query=" ++ url.QueryEscape name)
        w l w' ->
      In ("area", v) ms ->
      (forall s, v <> JString s) ->
      exists e,
        SearchArtists http_Get json_scan name limit w = ((None, Some e), w'))
  /\ (forall title limit,
         answers_envelope http_Get json_scan "releases"
           (MusicBrainzAPIEndpoint ++ "release/?fmt=json&limit="
              ++ strconv_Itoa limit ++ "&query=" ++ url.QueryEscape title)
           w l w' ->
         In ("cover-art-archive", v) ms ->
         (forall a, v <> JArray a) ->
         exists e,
           SearchReleases http_Get json_scan title limit w
           = ((None, Some e), w')).
Proof.
  intros Hl Hnull. split.
  - intros name limit Hans Hin Hstr.
    rewrite SearchArtists_cycle, (Artists_envelope Hans).
    destruct (@envelope_error (Slice Artist) _ Artist_zero decode_Artist
                (mkSlice (map (fun j => fst (decode_Artist j Artist_zero)) l)
                         []) l (JObject ms) Hl) as [e He].
    + rewrite decode_Artist_unfold.
      apply (@decode_members_member_error _ (keys Artist_schema)
               (Artist_set decode_Relation) ms "area" v 5%nat Hin eq_refl).
      intros [id0 name0 sort type country area begin_ end_ dis al rel tags].
      destruct v; simpl; try discriminate.
      * exfalso. apply Hnull. reflexivity.
      * exfalso. apply (Hstr s). reflexivity.
    + exists e. rewrite He. reflexivity.
  - intros title limit Hans Hin Harr.
    rewrite SearchReleases_cycle, (Releases_envelope Hans).
    destruct (@envelope_error (Slice Release) _ Release_zero decode_Release
                (mkSlice (map (fun j => fst (decode_Release j Release_zero)) l)
                         []) l (JObject ms) Hl) as [e He].
    + apply (@decode_members_member_error _ (keys Release_schema)
               Release_set ms "cover-art-archive" v 8%nat Hin eq_refl).
      intros [id0 title0 status text credit group relations tags cover].
      destruct v as [|b|lit|s|a|members]; simpl; try discriminate.
      * exfalso. apply Hnull. reflexivity.
      * exfalso. apply (Harr a). reflexivity.
    + exists e. rewrite He. reflexivity.
Qed.

(** ** Members that no field takes *)

Lemma decode_members_known (T : Type) (names : list string)
    (set : nat -> json -> T -> T * option error)
    (ms : list (string * json)) (st : T * option error) :
  decode_members names set (filter (known names) ms) st
  = decode_members names set ms st.
Proof.
  revert st. induction ms as [|[k v] ms IH]; intros st; simpl.
  - reflexivity.
  - unfold known at 1. simpl.
    destruct (find_field names k) as [i|] eqn:Hk; simpl.
    + rewrite Hk. destruct (set i v (fst st)) as [x e]. apply IH.
    + apply IH.
Qed.

(** X14.  Members whose key matches no field of the target are ignored:
    dropping all of them from an object changes neither the decoded value
    nor the error, for each of the six targets that the operations
    unmarshal into. *)
Theorem unknown_members_are_ignored (ms : list (string * json)) :
  (forall old,
      decode_Artist (JObject (filter (known (keys Artist_schema)) ms)) old
      = decode_Artist (JObject ms) old)
  /\ (forall old,
         decode_Release (JObject (filter (known (keys Release_schema)) ms))
                        old
         = decode_Release (JObject ms) old)
  /\ (forall old,
         decode_Recording
           (JObject (filter (known (keys Recording_schema)) ms)) old
         = decode_Recording (JObject ms) old)
  /\ (forall old,
         decode_ArtistsResult
           (JObject (filter (known (keys ArtistsResult_schema)) ms)) old
         = decode_ArtistsResult (JObject ms) old)
  /\ (forall old,
         decode_ReleasesResult
           (JObject (filter (known (keys ReleasesResult_schema)) ms)) old
         = decode_ReleasesResult (JObject ms) old)
  /\ (forall old,
         decode_RecordingsResult
           (JObject (filter (known (keys RecordingsResult_schema)) ms)) old
         = decode_RecordingsResult (JObject ms) old).
Proof.
  repeat split; intros old.
  - rewrite !decode_Artist_unfold. apply decode_members_known.
  - apply (@decode_members_known _ (keys Release_schema) Release_set).
  - apply (@decode_members_known _ (keys Recording_schema) Recording_set).
  - apply (@decode_members_known _ (keys ArtistsResult_schema)
             ArtistsResult_set).
  - apply (@decode_members_known _ (keys ReleasesResult_schema)
             ReleasesResult_set).
  - apply (@decode_members_known _ (keys RecordingsResult_schema)
             RecordingsResult_set).
Qed.

(** ** Members that are null *)

Lemma saveError_None (e : option error) : saveError e None = e.
Proof. destruct e; reflexivity. Qed.

(** A null member for a field that no earlier member went to is as good
    as absent. *)
Lemma decode_struct_null_member (T : Type) (s : schema T)
    (set : nat -> json -> T -> T * option error) (ty : gotype) (zero : T)
    (i : nat) (k : string) (ms1 ms2 : list (string * json)) :
  (forall i v x y, snd (set i v x) = snd (set i v y)) ->
  (forall i i' v x, i' <> i -> same_field s i (fst (set i' v x)) x) ->
  (forall x, same_field s i x zero -> set i JNull x = (x, None)) ->
  absent s i ms1 ->
  find_field (keys s) k = Some i ->
  decode_struct (keys s) set ty (JObject (ms1 ++ (k, JNull) :: ms2)) zero
  = decode_struct (keys s) set ty (JObject (ms1 ++ ms2)) zero.
Proof.
  intros Herr Hown Hnull Habs Hk.
  destruct (decode_struct_tolerates s set ty zero Herr Hown)
    as [_ [Hkept _]].
  specialize (Hkept ms1 i Habs). simpl in Hkept.
  simpl. rewrite !decode_members_app. simpl. rewrite Hk.
  rewrite (Hnull _ Hkept), saveError_None.
  destruct (decode_members (keys s) set ms1 (zero, None)); reflexivity.
Qed.

Ltac setter_null :=
  let i := fresh "i" in
  let x := fresh "x" in
  let H := fresh "H" in
  intros i x; destruct x; unfold same_field; field_cases i; simpl;
  intros H; try subst; reflexivity.

Lemma Artist_set_null dec i x :
  same_field Artist_schema i x Artist_zero ->
  Artist_set dec i JNull x = (x, None).
Proof. revert i x. setter_null. Qed.

Lemma Release_set_null i x :
  same_field Release_schema i x Release_zero ->
  Release_set i JNull x = (x, None).
Proof. revert i x. setter_null. Qed.

Lemma Recording_set_null i x :
  same_field Recording_schema i x Recording_zero ->
  Recording_set i JNull x = (x, None).
Proof. revert i x. setter_null. Qed.

(** X15.  A member whose value is [null] counts as absent: when it is the
    first member of the object for its field, an artist, a release or a
    recording is decoded as if the member were not there, to the same
    value and with the same error. *)
Theorem null_member_counts_as_absent (k : string) (i : nat)
    (ms1 ms2 : list (string * json)) :
  (absent Artist_schema i ms1 ->
   find_field (keys Artist_schema) k = Some i ->
   decode_Artist (JObject (ms1 ++ (k, JNull) :: ms2)) Artist_zero
   = decode_Artist (JObject (ms1 ++ ms2)) Artist_zero)
  /\ (absent Release_schema i ms1 ->
      find_field (keys Release_schema) k = Some i ->
      decode_Release (JObject (ms1 ++ (k, JNull) :: ms2)) Release_zero
      = decode_Release (JObject (ms1 ++ ms2)) Release_zero)
  /\ (absent Recording_schema i ms1 ->
      find_field (keys Recording_schema) k = Some i ->
      decode_Recording (JObject (ms1 ++ (k, JNull) :: ms2)) Recording_zero
      = decode_Recording (JObject (ms1 ++ ms2)) Recording_zero).
Proof.
  repeat split; intros Habs Hk.
  - rewrite !decode_Artist_unfold.
    apply (@decode_struct_null_member _ Artist_schema
             (Artist_set decode_Relation) _ Artist_zero i k ms1 ms2
             Artist_set_error
             (Artist_set_own decode_Relation)
             (Artist_set_null decode_Relation i) Habs Hk).
  - apply (@decode_struct_null_member _ Release_schema Release_set _
             Release_zero i k ms1 ms2 Release_set_error Release_set_own
             (Release_set_null i) Habs Hk).
  - apply (@decode_struct_null_member _ Recording_schema Recording_set _
             Recording_zero i k ms1 ms2 Recording_set_error
             Recording_set_own (Recording_set_null i) Habs Hk).
Qed.

(** ** Tags that the lookup does not send *)

(** X16.  The helper succeeds without tags when the lookup sends none:
    with a single match, and a lookup answered by an object that decodes
    without error and has no member for [tags], the helper returns the
    nil tag slice with a nil error, together with the first release date
    decoded from that object. *)
Theorem GetTags_without_tags_member (World : Type)
    (http_Get : string -> World -> result Response * World)
    (json_scan : string -> result json) (title artist album : string)
    (w w1 w2 : World) (result : RecordingsResult) (first : Recording)
    (ms : list (string * json)) :
  search_decoded http_Get json_scan title artist album w result w1 ->
  elements (Recordings result) = [first] ->
  answers_json http_Get json_scan
    (MusicBrainzAPIEndpoint ++ "recording/" ++ Recording_ID first
       ++ "?fmt=json") w1 (JObject ms) w2 ->
  absent Recording_schema 5 ms ->
  snd (decode_Recording (JObject ms) Recording_zero) = None ->
  GetTagsByTitleAndArtistAndAlbum http_Get json_scan title artist album w
  = ((None,
      Recording_ReleaseDate (fst (decode_Recording (JObject ms)
                                                   Recording_zero)),
      None), w2).
Proof.
  intros Hdec Hone [response [Hget [Hread Hscan]]] Habs Hok.
  rewrite GetTags_after_search, (search_decoded_round_trip Hdec), Hone.
  rewrite GetRecordingByIDWithTags_cycle.
  unfold round_trip. rewrite Hget, Hread, Hscan.
  pose proof (@decode_struct_tolerates _ Recording_schema Recording_set
                (go_named "musicbrainz.Recording") Recording_zero
                Recording_set_error Recording_set_own) as [_ [Hkept _]].
  specialize (Hkept ms 5%nat Habs). unfold same_field in Hkept.
  cbn [nth_error Recording_schema field] in Hkept.
  change (decode_struct (keys Recording_schema) Recording_set
            (go_named "musicbrainz.Recording"))
    with decode_Recording in Hkept.
  destruct (decode_Recording (JObject ms) Recording_zero) as [r [e|]].
  - discriminate.
  - simpl in *. rewrite Hkept. reflexivity.
Qed.

(* ================================================================= *)
(** * More runs against the test server *)

(** X4 at the envelope of section 8 of the specification. *)
Lemma search_returns_the_array_witness :
  SearchArtists (Mock.Get Examples.radiohead) Mock.scan "Radiohead" 5 []
  = ((Some (mkSlice
              [mkArtist "a" "Radiohead" "" "" "" "" "" "" "" None None None]
              []),
      None),
     ["https://musicbrainz.org/ws/2/artist/?fmt=json&limit=5&query=Radiohead"]).
Proof.
  apply (proj1 (@search_returns_the_array _ (Mock.Get Examples.radiohead)
                  Mock.scan [] _
                  [JObject [("id", JString "a");
                            ("name", JString "Radiohead")]])
           "Radiohead" 5).
  eexists _, [], []. split; [reflexivity|].
  split; [reflexivity|].
  split; [vm_compute; reflexivity|].
  intros k v [].
Defined.

(** X5 at two searches for the same name with different limits. *)
Lemma simple_searches_do_not_collide_witness :
  snd (SearchArtists (Mock.Get Examples.radiohead) Mock.scan "Radiohead" 5 [])
  <> snd (SearchArtists (Mock.Get Examples.radiohead) Mock.scan
            "Radiohead" 6 []).
Proof.
  apply (proj1 (@simple_searches_do_not_collide Examples.radiohead Mock.scan
                  "Radiohead" "Radiohead" 5 6 []
                  ltac:(intros H; discriminate H))).
Defined.

(** X6 at two ids. *)
Lemma lookups_do_not_collide_witness :
  snd (GetArtistByID (Mock.Get Examples.down) Mock.scan "a" [])
  <> snd (GetArtistByID (Mock.Get Examples.down) Mock.scan "b" []).
Proof.
  apply (proj1 (@lookups_do_not_collide Examples.down Mock.scan "a" "b" []
                  ltac:(intros H; discriminate H))).
Defined.

(** X7 at an artist whose area is an object. *)
Lemma GetArtistByID_area_not_a_string_witness :
  exists e,
    GetArtistByID (Mock.Get Answers.artist_with_area) Mock.scan "a" []
    = ((None, Some e), ["https://musicbrainz.org/ws/2/artist/a?fmt=json"]).
Proof.
  apply (@GetArtistByID_area_not_a_string _
           (Mock.Get Answers.artist_with_area) Mock.scan "a" [] _
           [("id", JString "a"); ("name", JString "Radiohead");
            ("area", JObject [("id", JString "uk");
                              ("name", JString "United Kingdom")])]
           (JObject [("id", JString "uk");
                     ("name", JString "United Kingdom")])).
  - eexists. split; [reflexivity|].
    split; [reflexivity|vm_compute; reflexivity].
  - right. right. left. reflexivity.
  - discriminate.
  - discriminate.
Defined.

(** X8 at a release whose cover art archive is an object. *)
Lemma GetReleaseByID_cover_art_not_an_array_witness :
  exists e,
    GetReleaseByID (Mock.Get Answers.release_with_cover_art) Mock.scan "r" []
    = ((None, Some e), ["https://musicbrainz.org/ws/2/release/r?fmt=json"]).
Proof.
  apply (@GetReleaseByID_cover_art_not_an_array _
           (Mock.Get Answers.release_with_cover_art) Mock.scan "r" [] _
           [("id", JString "r"); ("title", JString "Pablo Honey");
            ("cover-art-archive",
             JObject [("artwork", JBool true); ("count", JNumber "1")])]
           (JObject [("artwork", JBool true); ("count", JNumber "1")])).
  - eexists. split; [reflexivity|].
    split; [reflexivity|vm_compute; reflexivity].
  - right. right. left. reflexivity.
  - discriminate.
  - discriminate.
Defined.

(** X9 at a recording whose length is [2^63], and at one of 238000
    milliseconds. *)
Lemma length_literal_must_fit_int_witness :
  GetRecordingByID (Mock.Get Answers.recording_too_long) Mock.scan "r1" []
  = ((None, Some (UnmarshalTypeError "number 9223372036854775808" go_int)),
     ["https://musicbrainz.org/ws/2/recording/r1?fmt=json"])
  /\ GetRecordingByID (Mock.Get Answers.recording_with_length) Mock.scan
       "r1" []
     = ((Some (mkRecording "r1" "Creep" 238000 "" None None None None), None),
        ["https://musicbrainz.org/ws/2/recording/r1?fmt=json"]).
Proof.
  split.
  - refine (proj2 (proj1 (@length_literal_must_fit_int _
                            (Mock.Get Answers.recording_too_long) Mock.scan
                            "r1" []
                            ["https://musicbrainz.org/ws/2/recording/r1?fmt=json"]
                            [("id", JString "r1"); ("title", JString "Creep")]
                            [] (2 ^ 63) _) _) _).
    + eexists. split; [reflexivity|].
      split; [reflexivity|vm_compute; reflexivity].
    + intros [_ H]. vm_compute in H. apply H. reflexivity.
    + vm_compute. reflexivity.
  - refine (proj2 (@length_literal_must_fit_int _
                     (Mock.Get Answers.recording_with_length) Mock.scan
                     "r1" []
                     ["https://musicbrainz.org/ws/2/recording/r1?fmt=json"]
                     [("id", JString "r1"); ("title", JString "Creep")]
                     [] 238000 _) _ _).
    + eexists. split; [reflexivity|].
      split; [reflexivity|vm_compute; reflexivity].
    + split; vm_compute; discriminate.
    + intros k v [].
Defined.

Lemma null_body_answers (u : string) (w : Mock.World) :
  exists w', answers_json (Mock.Get Answers.null_body) Mock.scan u w JNull w'.
Proof.
  eexists. eexists. split; [reflexivity|].
  split; [reflexivity|vm_compute; reflexivity].
Defined.

Lemma array_body_answers (u : string) (w : Mock.World) :
  exists w',
    answers_json (Mock.Get Answers.array_body) Mock.scan u w (JArray []) w'.
Proof.
  eexists. eexists. split; [reflexivity|].
  split; [reflexivity|vm_compute; reflexivity].
Defined.

(** X11 at the body [null] and at the body [[]]. *)
Lemma bodies_that_are_not_objects_witness :
  fst (GetArtistByID (Mock.Get Answers.null_body) Mock.scan "a" [])
  = (Some Artist_zero, None)
  /\ fst (GetArtistByID (Mock.Get Answers.array_body) Mock.scan "a" [])
     = (None,
        Some (UnmarshalTypeError "array" (go_named "musicbrainz.Artist"))).
Proof.
  split.
  - apply (proj1 (@bodies_that_are_not_objects _
                    (Mock.Get Answers.null_body) Mock.scan JNull []
                    ltac:(intros ms H; discriminate H) null_body_answers)).
  - apply (proj1 (@bodies_that_are_not_objects _
                    (Mock.Get Answers.array_body) Mock.scan (JArray []) []
                    ltac:(intros ms H; discriminate H) array_body_answers)).
Defined.

(** X12 at a match without an id: two requests, the second one at the
    path without an id, and a nil error with no tags and no date. *)
Lemma GetTags_match_without_id_witness :
  GetTagsByTitleAndArtistAndAlbum (Mock.Get Answers.match_without_id)
    Mock.scan "Creep" "Radiohead" "Pablo Honey" []
  = ((None, "", None),
     ["https://musicbrainz.org/ws/2/recording/?fmt=json";
      Examples.creep_search]).
Proof.
  rewrite (@GetTags_match_without_id _ (Mock.Get Answers.match_without_id)
             Mock.scan "Creep" "Radiohead" "Pablo Honey" []
             [Examples.creep_search] [("title", JString "Creep")]).
  - vm_compute. reflexivity.
  - eexists _, [], []. split; [reflexivity|].
    split; [reflexivity|].
    split; [vm_compute; reflexivity|].
    intros k v [].
  - intros k v [H|[]]. injection H as <- _. vm_compute. discriminate.
  - vm_compute. reflexivity.
Defined.

(** X13 at two artists of which the second has an area that is an
    object. *)
Lemma one_bad_element_fails_the_search_witness :
  exists e,
    SearchArtists (Mock.Get Answers.artists_one_with_area) Mock.scan
      "Radiohead" 5 []
    = ((None, Some e),
       ["https://musicbrainz.org/ws/2/artist/?fmt=json&limit=5&query=Radiohead"]).
Proof.
  apply (proj1 (@one_bad_element_fails_the_search _
                  (Mock.Get Answers.artists_one_with_area) Mock.scan [] _
                  [JObject [("id", JString "a"); ("name", JString "Radiohead")];
                   JObject [("id", JString "b");
                            ("area", JObject [("name", JString "Oxford")])]]
                  [("id", JString "b");
                   ("area", JObject [("name", JString "Oxford")])]
                  (JObject [("name", JString "Oxford")])
                  ltac:(right; left; reflexivity)
                  ltac:(discriminate))
           "Radiohead" 5).
  - eexists _, [], []. split; [reflexivity|].
    split; [reflexivity|].
    split; [vm_compute; reflexivity|].
    intros k v [].
  - right. left. reflexivity.
  - discriminate.
Defined.

(** X15 at a recording whose length is null. *)
Lemma null_member_counts_as_absent_witness :
  decode_Recording
    (JObject [("id", JString "r1"); ("length", JNull);
              ("title", JString "Creep")]) Recording_zero
  = decode_Recording
      (JObject [("id", JString "r1"); ("title", JString "Creep")])
      Recording_zero.
Proof.
  apply (proj2 (proj2 (@null_member_counts_as_absent "length" 2%nat
                         [("id", JString "r1")]
                         [("title", JString "Creep")]))).
  - intros k v [H|[]]. injection H as <- _. vm_compute. discriminate.
  - reflexivity.
Defined.

(** X16 at a lookup that sends a title and nothing else. *)
Lemma GetTags_without_tags_member_witness :
  GetTagsByTitleAndArtistAndAlbum (Mock.Get Examples.one_bare_match)
    Mock.scan "Creep" "Radiohead" "Pablo Honey" []
  = ((None, "", None), [Examples.creep_lookup; Examples.creep_search]).
Proof.
  apply (@GetTags_without_tags_member _ (Mock.Get Examples.one_bare_match)
           Mock.scan "Creep" "Radiohead" "Pablo Honey" []
           [Examples.creep_search]
           [Examples.creep_lookup; Examples.creep_search]
           (mkRecordingsResult
              (Some (mkSlice
                 [mkRecording "r1" "" 0 "" None None None None] [])))
           (mkRecording "r1" "" 0 "" None None None None)
           [("id", JString "r1"); ("title", JString "Creep")]).
  - eexists. split; [reflexivity|].
    split; [reflexivity|vm_compute; reflexivity].
  - reflexivity.
  - eexists. split; [reflexivity|].
    split; [reflexivity|vm_compute; reflexivity].
  - intros k v [H|[H|[]]]; injection H as <- _; vm_compute; discriminate.
  - vm_compute. reflexivity.
Defined.
